(** * Custom-domain orchestration of site-replicator: model and properties

    The development embeds the domain-connection code of the repository:
    - [services/domain-service.js]  (class DomainService),
    - the model [Domain]            (the mongoose schema, its methods and statics),
    - the router of the domain API  (add, get, verify, delete, renew),
    - [services/cron-service.js]    (class CronService).

    Everything the code asks of the outside (DNS, the file system, the
    [nginx] and [certbot] processes, the clock) is answered by an oracle that
    may depend on all the calls made before; every call and its answer is
    appended to a trace.  The collection of domain documents has a unique
    index on [domain] and is a finite map from that key.  Queries reach the
    database as the code writes them, the values of a filter cast by the
    schema as the values of a document are (the behaviour of Mongoose with
    [strictQuery] off, its default). *)

From Stdlib Require Import ZArith List Ascii String Bool Lia Permutation.
From stdpp Require Import gmap strings sorting.

Open Scope string_scope.
Open Scope Z_scope.

(** ** JavaScript strings

    Strings are sequences of ASCII characters, which is what host names,
    slugs, shell commands and the generated configuration consist of. *)

Module Js.

Definition code (c : ascii) : N := N_of_ascii c.

Definition between (lo hi : N) (c : ascii) : bool :=
  ((lo <=? code c) && (code c <=? hi))%N.

Definition is_upper : ascii -> bool := between 65 90.
Definition is_lower : ascii -> bool := between 97 122.
Definition is_digit : ascii -> bool := between 48 57.
Definition is_letter (c : ascii) : bool := is_upper c || is_lower c.
Definition is_alnum (c : ascii) : bool := is_letter c || is_digit c.

(** White space of [String.prototype.trim] within ASCII. *)
Definition is_space (c : ascii) : bool :=
  between 9 13 c || (code c =? 32)%N.

(** Line terminators, which [.] of a regular expression does not match. *)
Definition is_line_terminator (c : ascii) : bool :=
  ((code c =? 10) || (code c =? 13))%N.

Definition lower_char (c : ascii) : ascii :=
  if is_upper c then ascii_of_N (code c + 32) else c.

(** [s.toLowerCase()]; of the ASCII characters only [A] to [Z] change. *)
Fixpoint toLowerCase (s : string) : string :=
  match s with
  | EmptyString => EmptyString
  | String c r => String (lower_char c) (toLowerCase r)
  end.

(** [s.startsWith(p)], returning what follows the prefix. *)
Fixpoint after_prefix (p s : string) : option string :=
  match p, s with
  | EmptyString, _ => Some s
  | String a p', String b s' => if Ascii.eqb a b then after_prefix p' s' else None
  | String _ _, EmptyString => None
  end.

(** [s.replace(/^www\./, '')] *)
Definition replace_www (s : string) : string :=
  match after_prefix "www." s with
  | Some rest => rest
  | None => s
  end.

(** [s.includes(sub)] *)
Fixpoint includes (s sub : string) : bool :=
  match after_prefix sub s with
  | Some _ => true
  | None =>
      match s with
      | EmptyString => false
      | String _ r => includes r sub
      end
  end.

(** [s.split(sep)] for a one-character separator. *)
Fixpoint split (sep : ascii) (s : string) : list string :=
  match s with
  | EmptyString => [EmptyString]
  | String c r =>
      if Ascii.eqb c sep then EmptyString :: split sep r
      else match split sep r with
           | h :: t => String c h :: t
           | [] => [String c EmptyString]
           end
  end.

(** [l.join(sep)] *)
Fixpoint join (sep : string) (l : list string) : string :=
  match l with
  | [] => EmptyString
  | [x] => x
  | x :: r => x ++ sep ++ join sep r
  end.

Fixpoint trimStart (s : string) : string :=
  match s with
  | String c r => if is_space c then trimStart r else s
  | EmptyString => EmptyString
  end.

Fixpoint trimEnd (s : string) : string :=
  match s with
  | EmptyString => EmptyString
  | String c r =>
      match trimEnd r with
      | EmptyString => if is_space c then EmptyString else String c EmptyString
      | r' => String c r'
      end
  end.

(** [s.trim()] *)
Definition trim (s : string) : string := trimEnd (trimStart s).

Fixpoint all_chars (p : ascii -> bool) (s : string) : bool :=
  match s with
  | EmptyString => true
  | String c r => p c && all_chars p r
  end.

Fixpoint last_char (s : string) : option ascii :=
  match s with
  | EmptyString => None
  | String c EmptyString => Some c
  | String _ r => last_char r
  end.

(** The longest prefix free of line terminators: what a greedy group of
    [.] captures at a given position. *)
Fixpoint line_prefix (s : string) : string :=
  match s with
  | String c r => if is_line_terminator c then EmptyString else String c (line_prefix r)
  | EmptyString => EmptyString
  end.

(** [s.match(/key(.+)/)]: the capture group of the leftmost match, for a
    literal [key]; the group needs one character at least. *)
Fixpoint match_rest_of_line (key s : string) : option string :=
  let here :=
    match after_prefix key s with
    | Some rest =>
        match line_prefix rest with
        | EmptyString => None
        | l => Some l
        end
    | None => None
    end in
  match here with
  | Some l => Some l
  | None =>
      match s with
      | EmptyString => None
      | String _ r => match_rest_of_line key r
      end
  end.

(** A value interpolated into a template literal: [undefined] prints as
    the word. *)
Definition interpolate (v : option string) : string :=
  match v with
  | Some s => s
  | None => "undefined"
  end.

(** Truthiness of a value that is a string or [undefined]. *)
Definition truthy (v : option string) : bool :=
  match v with
  | Some (String _ _) => true
  | _ => false
  end.

(** *** [Date.prototype.toISOString]

    A date is its time value, in milliseconds since the epoch. *)

Definition digit_char (d : Z) : ascii := ascii_of_N (48 + Z.to_N (d mod 10)).

(** The [width] low decimal digits of a non-negative number. *)
Fixpoint decimal (width : nat) (n : Z) : string :=
  match width with
  | O => EmptyString
  | S w => decimal w (n / 10) ++ String (digit_char n) EmptyString
  end.

(** Year, month and day of a day number counted from 1970-01-01
    (proleptic Gregorian calendar). *)
Definition civil_from_days (days : Z) : Z * Z * Z :=
  let z := days + 719468 in
  let era := z / 146097 in
  let doe := z - era * 146097 in
  let yoe := (doe - doe / 1460 + doe / 36524 - doe / 146096) / 365 in
  let doy := doe - (365 * yoe + yoe / 4 - yoe / 100) in
  let mp := (5 * doy + 2) / 153 in
  let d := doy - (153 * mp + 2) / 5 + 1 in
  let m := if mp <? 10 then mp + 3 else mp - 9 in
  let y := yoe + era * 400 + (if m <=? 2 then 1 else 0) in
  (y, m, d).

Definition year_string (y : Z) : string :=
  if (0 <=? y) && (y <=? 9999) then decimal 4 y
  else if y <? 0 then "-" ++ decimal 6 (- y)
  else "+" ++ decimal 6 y.

Definition toISOString (t : Z) : string :=
  let day := t / 86400000 in
  let ms := t mod 86400000 in
  let '(y, m, d) := civil_from_days day in
  year_string y ++ "-" ++ decimal 2 m ++ "-" ++ decimal 2 d ++ "T"
  ++ decimal 2 (ms / 3600000) ++ ":" ++ decimal 2 (ms / 60000 mod 60) ++ ":"
  ++ decimal 2 (ms / 1000 mod 60) ++ "." ++ decimal 3 (ms mod 1000) ++ "Z".

(** A [Date] object: its time value, or an Invalid Date, which
    [new Date(text)] gives for a text that it cannot read as a date. *)
Inductive Date : Type :=
| Time (t : Z)
| InvalidDate.

(** A number, as far as counters go: an integer, or [NaN]. *)
Inductive Number : Type :=
| Finite (n : Z)
| NaN.

(** [v + 1], [v < n] and [v >= n] for a property [v] that may be missing:
    [undefined + 1] is [NaN], and a comparison with [undefined] or [NaN]
    is false. *)
Definition add_one (v : option Number) : Number :=
  match v with
  | Some (Finite n) => Finite (n + 1)
  | _ => NaN
  end.

Definition lt (v : option Number) (n : Z) : bool :=
  match v with
  | Some (Finite m) => m <? n
  | _ => false
  end.

Definition ge (v : option Number) (n : Z) : bool :=
  match v with
  | Some (Finite m) => n <=? m
  | _ => false
  end.

End Js.


(** ** Outcomes, the outside world and the program monad *)

(** How a call ends: it returns (a promise is fulfilled) or throws (a
    promise is rejected); an [Error] is its [message]. *)
Inductive Settled (A : Type) : Type :=
| Fulfilled (value : A)
| Rejected (message : string).
Arguments Fulfilled {A} value.
Arguments Rejected {A} message.

(** A call to the outside, with how it ended. *)
Inductive Event : Type :=
| Resolve4 (hostname : string) (r : Settled (list string))
| WriteFile (path data : string) (r : Settled unit)
| Unlink (path : string) (r : Settled unit)
| Symlink (target path : string) (r : Settled unit)
| Access (path : string) (r : Settled unit)
| Exec (command : string) (r : Settled (string * string)).

(** The outside world.  Each answer may depend on the whole history;
    [execAsync] fulfils with [(stdout, stderr)]. *)
Record Oracle : Type := {
  dns_resolve4 : list Event -> string -> Settled (list string);
  fs_writeFile : list Event -> string -> string -> Settled unit;
  fs_unlink : list Event -> string -> Settled unit;
  fs_symlink : list Event -> string -> string -> Settled unit;
  fs_access : list Event -> string -> Settled unit;
  execAsync : list Event -> string -> Settled (string * string);
  Date_now : list Event -> Z;
  Date_parse : string -> Js.Date
}.

(** A computation over a state [S] that returns or throws. *)
Definition Prog (S A : Type) : Type := S -> Settled A * S.

Definition ret {S A} (a : A) : Prog S A := fun s => (Fulfilled a, s).

Definition throw {S A} (message : string) : Prog S A := fun s => (Rejected message, s).

Definition bind {S A B} (m : Prog S A) (k : A -> Prog S B) : Prog S B :=
  fun s =>
    match m s with
    | (Fulfilled a, s') => k a s'
    | (Rejected e, s') => (Rejected e, s')
    end.

(** [try { m } catch (error) { h error.message }] *)
Definition try_catch {S A} (m : Prog S A) (h : string -> Prog S A) : Prog S A :=
  fun s =>
    match m s with
    | (Fulfilled a, s') => (Fulfilled a, s')
    | (Rejected e, s') => h e s'
    end.

Definition get_state {S} : Prog S S := fun s => (Fulfilled s, s).
Definition modify {S} (f : S -> S) : Prog S unit := fun s => (Fulfilled tt, f s).

Notation "'let!' x ':=' m 'in' k" := (bind m (fun x => k))
  (at level 10, x name, m at level 100, k at level 200).
Notation "'let!' ' p ':=' m 'in' k" := (bind m (fun p => k))
  (at level 10, p strict pattern, m at level 100, k at level 200).

(** [for (const x of l) { body x }] *)
Fixpoint for_of {S A} (l : list A) (body : A -> Prog S unit) : Prog S unit :=
  match l with
  | [] => ret tt
  | x :: r => let! _ := body x in for_of r body
  end.

Definition dq : string := String (ascii_of_N 34) EmptyString.
Definition nl : string := String (ascii_of_N 10) EmptyString.

(** The lines of a text, each closed by a line feed. *)
Fixpoint unlines (l : list string) : string :=
  match l with
  | [] => EmptyString
  | x :: r => x ++ nl ++ unlines r
  end.

(** [path.join(dir, name)] for a directory without a trailing separator and
    a name that is a single path segment, as host names are. *)
Definition path_join (dir name : string) : string := dir ++ "/" ++ name.

(** ** services/domain-service.js *)

(** [process.env], as far as the constructor reads it. *)
Record ProcessEnv : Type := {
  SERVER_IP : option string;
  EMAIL : option string;
  NGINX_SITES_AVAILABLE : option string;
  NGINX_SITES_ENABLED : option string;
  APP_ROOT : option string;
  PORT : option string
}.

Record DomainService : Type := {
  serverIP : option string;
  email : option string;
  nginxSitesAvailable : string;
  nginxSitesEnabled : string;
  appRoot : option string;
  appPort : option string;
  manageNginx : bool
}.

(** [a || b] on a string that may be undefined. *)
Definition or_default (v : option string) (default : string) : string :=
  match v with
  | Some (String c r) => String c r
  | _ => default
  end.

Definition new_DomainService (env : ProcessEnv) : DomainService :=
  {| serverIP := SERVER_IP env;
     email := EMAIL env;
     nginxSitesAvailable := or_default (NGINX_SITES_AVAILABLE env) "/etc/nginx/sites-available";
     nginxSitesEnabled := or_default (NGINX_SITES_ENABLED env) "/etc/nginx/sites-enabled";
     appRoot := APP_ROOT env;
     appPort := PORT env;
     manageNginx := true |}.

Definition isApexDomain (domain : string) : bool :=
  let parts := Js.split "." domain in
  Nat.eqb (List.length parts) 2.

(** The template of [generateNginxConfig], line by line; [now] is the
    reading of the clock that [new Date()] makes. *)
Definition nginxConfigLines (this : DomainService) (now : Z) (domain serverNames : string)
  : list string :=
  [ "# Auto-generated Nginx config for " ++ domain;
    "# Generated at: " ++ Js.toISOString now;
    EmptyString;
    "server {";
    "    listen 80;";
    "    server_name " ++ serverNames ++ ";";
    "    ";
    "    # Security headers";
    "    add_header X-Frame-Options " ++ dq ++ "SAMEORIGIN" ++ dq ++ " always;";
    "    add_header X-XSS-Protection " ++ dq ++ "1; mode=block" ++ dq ++ " always;";
    "    add_header X-Content-Type-Options " ++ dq ++ "nosniff" ++ dq ++ " always;";
    "    add_header Referrer-Policy " ++ dq ++ "no-referrer-when-downgrade" ++ dq ++ " always;";
    "    add_header Content-Security-Policy " ++ dq ++ "default-src 'self' http: https: data: blob: 'unsafe-inline'" ++ dq ++ " always;";
    "    ";
    "    # Proxy to Node.js application";
    "    location / {";
    "        proxy_pass http://127.0.0.1:" ++ Js.interpolate (appPort this) ++ "/;";
    "        proxy_set_header Host $host;";
    "        proxy_set_header X-Real-IP $remote_addr;";
    "        proxy_set_header X-Forwarded-For $proxy_add_x_forwarded_for;";
    "        proxy_set_header X-Forwarded-Proto $scheme;";
    "        proxy_set_header X-Forwarded-Host $host;";
    "        proxy_set_header X-Forwarded-Port $server_port;";
    "        ";
    "        # Timeout settings";
    "        proxy_connect_timeout 60s;";
    "        proxy_send_timeout 60s;";
    "        proxy_read_timeout 60s;";
    "        ";
    "        # Buffer settings";
    "        proxy_buffering on;";
    "        proxy_buffer_size 4k;";
    "        proxy_buffers 8 4k;";
    "        proxy_busy_buffers_size 8k;";
    "    }";
    "    ";
    "    # Handle static assets";
    "    location /cloned-sites/ {";
    "        alias " ++ Js.interpolate (appRoot this) ++ "/cloned_sites/;";
    "        expires 1y;";
    "        add_header Cache-Control " ++ dq ++ "public, immutable" ++ dq ++ ";";
    "        ";
    "        # Security for static files";
    "        location ~* \.(js|css|png|jpg|jpeg|gif|ico|svg)$ {";
    "            expires 1y;";
    "            add_header Cache-Control " ++ dq ++ "public, immutable" ++ dq ++ ";";
    "        }";
    "    }";
    "    ";
    "    # Health check endpoint";
    "    location /health {";
    "        access_log off;";
    "        return 200 " ++ dq ++ "healthy\n" ++ dq ++ ";";
    "        add_header Content-Type text/plain;";
    "    }";
    "    ";
    "    # Deny access to sensitive files";
    "    location ~ /\. {";
    "        deny all;";
    "        access_log off;";
    "        log_not_found off;";
    "    }";
    "    ";
    "    # Deny access to backup files";
    "    location ~* \.(bak|backup|old|orig|original|tmp)$ {";
    "        deny all;";
    "        access_log off;";
    "        log_not_found off;";
    "    }";
    "}" ].

(** [siteSlug] is a parameter the body never reads. *)
Definition generateNginxConfig (this : DomainService) (now : Z) (domain siteSlug : string)
  : string :=
  let isApex := isApexDomain domain in
  let serverNames := if isApex then domain ++ " www." ++ domain else domain in
  unlines (nginxConfigLines this now domain serverNames).

(** ** The model [Domain] *)

Module Domain.

(** A stored document.  The schema declares [errorMessage] and
    [retryCount] inside [metadata], and there they are stored, with their
    defaults; the other paths of [metadata] are left out, no code reads or
    writes them.  Dates are time values. *)
Record doc : Type := {
  domain : string;
  siteSlug : string;
  connected : bool;
  ssl : bool;
  dnsVerified : bool;
  nginxConfigured : bool;
  sslExpiry : option Z;
  lastChecked : Z;
  createdAt : Z;
  updatedAt : Z;
  metadata_errorMessage : option string;
  metadata_retryCount : Z
}.

Definition set_connected (v : bool) (d : doc) : doc :=
  {| domain := domain d; siteSlug := siteSlug d; connected := v; ssl := ssl d;
     dnsVerified := dnsVerified d; nginxConfigured := nginxConfigured d;
     sslExpiry := sslExpiry d; lastChecked := lastChecked d; createdAt := createdAt d;
     updatedAt := updatedAt d; metadata_errorMessage := metadata_errorMessage d;
     metadata_retryCount := metadata_retryCount d |}.

Definition set_ssl (v : bool) (d : doc) : doc :=
  {| domain := domain d; siteSlug := siteSlug d; connected := connected d; ssl := v;
     dnsVerified := dnsVerified d; nginxConfigured := nginxConfigured d;
     sslExpiry := sslExpiry d; lastChecked := lastChecked d; createdAt := createdAt d;
     updatedAt := updatedAt d; metadata_errorMessage := metadata_errorMessage d;
     metadata_retryCount := metadata_retryCount d |}.

Definition set_dnsVerified (v : bool) (d : doc) : doc :=
  {| domain := domain d; siteSlug := siteSlug d; connected := connected d; ssl := ssl d;
     dnsVerified := v; nginxConfigured := nginxConfigured d;
     sslExpiry := sslExpiry d; lastChecked := lastChecked d; createdAt := createdAt d;
     updatedAt := updatedAt d; metadata_errorMessage := metadata_errorMessage d;
     metadata_retryCount := metadata_retryCount d |}.

Definition set_nginxConfigured (v : bool) (d : doc) : doc :=
  {| domain := domain d; siteSlug := siteSlug d; connected := connected d; ssl := ssl d;
     dnsVerified := dnsVerified d; nginxConfigured := v;
     sslExpiry := sslExpiry d; lastChecked := lastChecked d; createdAt := createdAt d;
     updatedAt := updatedAt d; metadata_errorMessage := metadata_errorMessage d;
     metadata_retryCount := metadata_retryCount d |}.

Definition set_sslExpiry (v : option Z) (d : doc) : doc :=
  {| domain := domain d; siteSlug := siteSlug d; connected := connected d; ssl := ssl d;
     dnsVerified := dnsVerified d; nginxConfigured := nginxConfigured d;
     sslExpiry := v; lastChecked := lastChecked d; createdAt := createdAt d;
     updatedAt := updatedAt d; metadata_errorMessage := metadata_errorMessage d;
     metadata_retryCount := metadata_retryCount d |}.

Definition set_lastChecked (v : Z) (d : doc) : doc :=
  {| domain := domain d; siteSlug := siteSlug d; connected := connected d; ssl := ssl d;
     dnsVerified := dnsVerified d; nginxConfigured := nginxConfigured d;
     sslExpiry := sslExpiry d; lastChecked := v; createdAt := createdAt d;
     updatedAt := updatedAt d; metadata_errorMessage := metadata_errorMessage d;
     metadata_retryCount := metadata_retryCount d |}.

Definition set_updatedAt (v : Z) (d : doc) : doc :=
  {| domain := domain d; siteSlug := siteSlug d; connected := connected d; ssl := ssl d;
     dnsVerified := dnsVerified d; nginxConfigured := nginxConfigured d;
     sslExpiry := sslExpiry d; lastChecked := lastChecked d; createdAt := createdAt d;
     updatedAt := v; metadata_errorMessage := metadata_errorMessage d;
     metadata_retryCount := metadata_retryCount d |}.

(** The top-level field [retryCount] of a stored document, which a filter
    on [retryCount] compares.  The schema keeps the counter under
    [metadata], and what [save] stores are the paths of the schema: a
    stored document has no such field. *)
Definition stored_retryCount (d : doc) : option Js.Number := None.

(** The setters of the path [domain] ([lowercase], [trim]).  They run on
    the value given to a new document and on the value in the filter of a
    query. *)
Definition cast_domain (v : string) : string := Js.trim (Js.toLowerCase v).

(** The error that an Invalid Date leaves on the path [sslExpiry]. *)
Definition cast_message : string :=
  "Domain validation failed: sslExpiry: Cast to date failed for value " ++ dq
  ++ "Invalid Date" ++ dq ++ " (type Date) at path " ++ dq ++ "sslExpiry" ++ dq.

(** A document object, as a route or a job holds it in a variable: the
    paths of the schema; the properties [errorMessage] and [retryCount]
    that the code assigns to the object itself (the schema has no paths of
    these names outside [metadata]), which are not stored; and the error of
    a value that could not be cast, which stays on the object, and makes
    [save] reject, until the path is assigned again. *)
Record object : Type := {
  paths : doc;
  errorMessage : option string;
  retryCount : option Js.Number;
  castError : option string
}.

(** The object of a document that was found or has just been stored. *)
Definition load (d : doc) : object :=
  {| paths := d; errorMessage := None; retryCount := None; castError := None |}.

(** An assignment to a path of the schema. *)
Definition set (f : doc -> doc) (this : object) : object :=
  {| paths := f (paths this); errorMessage := errorMessage this;
     retryCount := retryCount this; castError := castError this |}.

(** [this.sslExpiry = date]: a date is stored on the path; an Invalid Date
    cannot be cast, the path keeps its value and the object the error. *)
Definition assign_sslExpiry (date : Js.Date) (this : object) : object :=
  match date with
  | Js.Time t =>
      {| paths := set_sslExpiry (Some t) (paths this); errorMessage := errorMessage this;
         retryCount := retryCount this; castError := None |}
  | Js.InvalidDate =>
      {| paths := paths this; errorMessage := errorMessage this;
         retryCount := retryCount this; castError := Some cast_message |}
  end.

(** [this.errorMessage = v] and [this.retryCount = v] *)
Definition set_errorMessage (v : option string) (this : object) : object :=
  {| paths := paths this; errorMessage := v; retryCount := retryCount this;
     castError := castError this |}.

Definition set_retryCount (v : Js.Number) (this : object) : object :=
  {| paths := paths this; errorMessage := errorMessage this; retryCount := Some v;
     castError := castError this |}.

(** The validator of [domain]:
    [/^[a-zA-Z0-9][a-zA-Z0-9-]{0,61}[a-zA-Z0-9]?\.([a-zA-Z]{2,}|[a-zA-Z]{2,}\.[a-zA-Z]{2,})$/].
    No class of the expression contains the dot, so the dots of a matching
    string are the one after the first label and the one inside the suffix. *)
Definition label_char (c : ascii) : bool := Js.is_alnum c || Ascii.eqb c "-".

Definition valid_label (l : string) : bool :=
  match l with
  | EmptyString => false
  | String c r =>
      Js.is_alnum c && Js.all_chars label_char r
      && (String.length l <=? 63)%nat
      && (negb (String.length l =? 63)%nat
          || match Js.last_char l with Some e => Js.is_alnum e | None => false end)
  end.

Definition letters2 (l : string) : bool :=
  Js.all_chars Js.is_letter l && (2 <=? String.length l)%nat.

Definition validate_domain (v : string) : bool :=
  match Js.split "." v with
  | [l; tld] => valid_label l && letters2 tld
  | [l; sld; tld] => valid_label l && letters2 sld && letters2 tld
  | _ => false
  end.

(** The validator of [siteSlug]: [/^[a-zA-Z0-9_-]+$/]. *)
Definition slug_char (c : ascii) : bool :=
  Js.is_alnum c || Ascii.eqb c "_" || Ascii.eqb c "-".

Definition validate_siteSlug (v : string) : bool :=
  match v with
  | EmptyString => false
  | _ => Js.all_chars slug_char v
  end.

(** [new Domain({ domain, siteSlug, dnsVerified, connected, lastChecked })]:
    the setters of the schema ([lowercase], [trim]) run on the strings and
    the other paths take their defaults; [now] is the reading of the clock
    behind [Date.now]. *)
Definition new (domain0 siteSlug0 : string) (dnsVerified0 connected0 : bool)
    (lastChecked0 now : Z) : doc :=
  {| domain := cast_domain domain0;
     siteSlug := Js.trim siteSlug0;
     connected := connected0;
     ssl := false;
     dnsVerified := dnsVerified0;
     nginxConfigured := false;
     sslExpiry := None;
     lastChecked := lastChecked0;
     createdAt := now;
     updatedAt := now;
     metadata_errorMessage := None;
     metadata_retryCount := 0 |}.

(** What validation of a new document reports: for each path, [required]
    fails on the empty string, then the validator of the path; the
    message names every path that failed. *)
Definition domain_errors (domain0 : string) : list string :=
  match domain0 with
  | EmptyString => ["domain: Path `domain` is required."]
  | _ => if validate_domain domain0 then [] else ["domain: Invalid domain format"]
  end.

Definition siteSlug_errors (siteSlug0 : string) : list string :=
  match siteSlug0 with
  | EmptyString => ["siteSlug: Path `siteSlug` is required."]
  | _ =>
      if validate_siteSlug siteSlug0 then []
      else ["siteSlug: Site slug must contain only alphanumeric characters, underscores, and hyphens"]
  end.

Definition validate_paths (domain0 siteSlug0 : string) : option string :=
  match List.app (domain_errors domain0) (siteSlug_errors siteSlug0) with
  | [] => None
  | errors => Some ("Domain validation failed: " ++ Js.join ", " errors)
  end.

Definition validation_error (d : doc) : option string :=
  validate_paths (domain d) (siteSlug d).

(** The virtual [status]; [this.retryCount] is the property of the
    object. *)
Definition status (this : object) : string :=
  if connected (paths this) && ssl (paths this) then "active"
  else if connected (paths this) && negb (ssl (paths this)) then "connected-no-ssl"
  else if dnsVerified (paths this) && negb (connected (paths this)) then "dns-verified"
  else if Js.ge (retryCount this) 10 then "failed"
  else "pending".

End Domain.

(** ** The state of the process and of its surroundings *)

Record World : Type := {
  collection : gmap string Domain.doc;
  trace : list Event
}.

Definition record_event (e : Event) (w : World) : World :=
  {| collection := collection w; trace := trace w ++ [e] |}.

Definition set_collection (c : gmap string Domain.doc) (w : World) : World :=
  {| collection := c; trace := trace w |}.

(** A route or a job holds the document it works on in a variable; its
    assignments happen whether or not a later statement throws. *)
Definition lift {L A} (m : Prog World A) : Prog (L * World) A :=
  fun s =>
    match m (snd s) with
    | (r, w') => (r, (fst s, w'))
    end.

Definition local {L} : Prog (L * World) L := fun s => (Fulfilled (fst s), s).

Definition assign {L} (f : L -> L) : Prog (L * World) unit :=
  fun s => (Fulfilled tt, (f (fst s), snd s)).

(** Runs a block with the variable bound to [l]; gives the variable back
    with the result. *)
Definition with_local {L A} (l : L) (m : Prog (L * World) A) : Prog World (A * L) :=
  fun w =>
    match m (l, w) with
    | (Fulfilled a, (l', w')) => (Fulfilled (a, l'), w')
    | (Rejected e, (_, w')) => (Rejected e, w')
    end.

Section Program.

Context (o : Oracle).

(** *** Calls to the outside *)

Definition perform {A} (answer : list Event -> Settled A) (event : Settled A -> Event)
  : Prog World A :=
  fun w => let r := answer (trace w) in (r, record_event (event r) w).

Definition resolve4 (hostname : string) : Prog World (list string) :=
  perform (fun h => dns_resolve4 o h hostname) (Resolve4 hostname).

Definition writeFile (path data : string) : Prog World unit :=
  perform (fun h => fs_writeFile o h path data) (WriteFile path data).

Definition unlink (path : string) : Prog World unit :=
  perform (fun h => fs_unlink o h path) (Unlink path).

Definition symlink (target path : string) : Prog World unit :=
  perform (fun h => fs_symlink o h target path) (Symlink target path).

Definition access (path : string) : Prog World unit :=
  perform (fun h => fs_access o h path) (Access path).

Definition exec (command : string) : Prog World (string * string) :=
  perform (fun h => execAsync o h command) (Exec command).

(** [new Date()] *)
Definition new_Date : Prog World Z :=
  fun w => (Fulfilled (Date_now o (trace w)), w).

(** *** DomainService *)

Context (this : DomainService).

Definition verifyDNS (domain : string) : Prog World bool :=
  try_catch
    (let cleanDomain := Js.replace_www domain in
     let! addresses := resolve4 cleanDomain in
     let isCorrect :=
       match serverIP this with
       | Some ip => existsb (String.eqb ip) addresses
       | None => false
       end in
     ret isCorrect)
    (fun _ => ret false).

Definition nginx_test_command : string := "sudo nginx -t".
Definition nginx_reload_command : string := "sudo nginx -s reload".

Definition testNginxConfig : Prog World bool :=
  try_catch
    (let! '(stdout, stderr) := exec nginx_test_command in
     match stderr with
     | EmptyString => ret true
     | _ =>
         if negb (Js.includes stderr "test is successful")
         then throw ("Nginx config test failed: " ++ stderr)
         else ret true
     end)
    (fun error => throw error).

Definition reloadNginx : Prog World bool :=
  try_catch
    (let! '(stdout, stderr) := exec nginx_reload_command in
     ret true)
    (fun error => throw error).

Definition createNginxConfig (domain siteSlug : string) : Prog World bool :=
  try_catch
    (let! now := new_Date in
     let configContent := generateNginxConfig this now domain siteSlug in
     let configPath := path_join (nginxSitesAvailable this) domain in
     let! _ := writeFile configPath configContent in
     let enabledPath := path_join (nginxSitesEnabled this) domain in
     let! _ := try_catch (unlink enabledPath) (fun _ => ret tt) in
     let! _ := symlink configPath enabledPath in
     let! _ := testNginxConfig in
     let! _ := reloadNginx in
     ret true)
    (fun _ => ret false).

Definition expiry_command (domain : string) : string :=
  "sudo certbot certificates -d " ++ domain.

Definition getCertificateExpiry (domain : string) : Prog World (option Js.Date) :=
  try_catch
    (let! '(stdout, _) := exec (expiry_command domain) in
     let expiryMatch := Js.match_rest_of_line "Expiry Date: " stdout in
     match expiryMatch with
     | Some text => ret (Some (Date_parse o text))
     | None => ret None
     end)
    (fun _ => ret None).

Definition certbotCommand (domain : string) : string :=
  let isApex := isApexDomain domain in
  let domainsArgs :=
    if isApex then ["-d " ++ domain; "-d www." ++ domain] else ["-d " ++ domain] in
  let contact := "-m " ++ Js.interpolate (email this) in
  Js.join " "
    (List.app ["sudo certbot"; "--nginx"; "--redirect"]
       (List.app domainsArgs ["--non-interactive"; "--agree-tos"; contact; "--expand"])).

Definition issueSSLCertificate (domain : string) : Prog World bool :=
  try_catch
    (let! '(stdout, stderr) := exec (certbotCommand domain) in
     let success :=
       Js.includes stdout "Successfully deployed certificate"
       || Js.includes stdout "Certificate not yet due for renewal" in
     if success then
       let! expiryDate := getCertificateExpiry domain in
       ret true
     else throw "SSL certificate issuance failed")
    (fun _ => ret false).

Definition delete_command (domain : string) : string :=
  "sudo certbot delete --cert-name " ++ domain ++ " --non-interactive".

Definition removeDomainConfig (domain : string) : Prog World bool :=
  try_catch
    (let! _ := try_catch (let! _ := exec (delete_command domain) in ret tt) (fun _ => ret tt) in
     let configPath := path_join (nginxSitesAvailable this) domain in
     let enabledPath := path_join (nginxSitesEnabled this) domain in
     let! _ := try_catch (unlink enabledPath) (fun _ => ret tt) in
     let! _ := try_catch (unlink configPath) (fun _ => ret tt) in
     let! _ := reloadNginx in
     ret true)
    (fun _ => ret false).

Record RenewalResults : Type := {
  successful : list string;
  failed : list string;
  skipped : list string
}.

Definition push_successful (domain : string) (r : RenewalResults) : RenewalResults :=
  {| successful := successful r ++ [domain]; failed := failed r; skipped := skipped r |}.
Definition push_failed (domain : string) (r : RenewalResults) : RenewalResults :=
  {| successful := successful r; failed := failed r ++ [domain]; skipped := skipped r |}.
Definition push_skipped (domain : string) (r : RenewalResults) : RenewalResults :=
  {| successful := successful r; failed := failed r; skipped := skipped r ++ [domain] |}.

Definition renew_command (domain : string) : string :=
  "sudo certbot renew --cert-name " ++ domain ++ " --non-interactive".

(** The body of the loop of [renewSSLCertificates]; [results] is its
    variable. *)
Definition renew_one (domain : string) : Prog (RenewalResults * World) unit :=
  try_catch
    (let! '(stdout, stderr) := lift (exec (renew_command domain)) in
     if Js.includes stdout "not yet due for renewal" then assign (push_skipped domain)
     else if Js.includes stdout "Successfully deployed certificate"
          then assign (push_successful domain)
          else assign (push_failed domain))
    (fun _ => assign (push_failed domain)).

Definition renewSSLCertificates (domains : list string) : Prog World RenewalResults :=
  let results := {| successful := []; failed := []; skipped := [] |} in
  let! '(_, results) := with_local results (for_of domains renew_one) in
  ret results.

Record DomainStatus : Type := {
  status_domain : string;
  status_dns : bool;
  status_nginx : bool;
  status_ssl : bool;
  status_sslExpiry : option Js.Date;
  status_error : option string;
  status_lastChecked : Z
}.

Definition getDomainStatus (domain : string) : Prog World DomainStatus :=
  try_catch
    (let! now := new_Date in
     let! dns := verifyDNS domain in
     let! nginx :=
       try_catch (let! _ := access (path_join (nginxSitesEnabled this) domain) in ret true)
                 (fun _ => ret false) in
     let! expiryDate := try_catch (getCertificateExpiry domain) (fun _ => ret None) in
     ret {| status_domain := domain; status_dns := dns; status_nginx := nginx;
            status_ssl := match expiryDate with Some _ => true | None => false end;
            status_sslExpiry := expiryDate; status_error := None;
            status_lastChecked := now |})
    (fun error =>
       let! now := new_Date in
       ret {| status_domain := domain; status_dns := false; status_nginx := false;
              status_ssl := false; status_sslExpiry := None; status_error := Some error;
              status_lastChecked := now |}).

End Program.

(** ** The collection: queries and [save] *)

(** The filter and the order of [findPendingDomains]:
    [{ connected: false, retryCount: { $lt: 10 } }]. *)
Definition pending_filter (d : Domain.doc) : bool :=
  negb (Domain.connected d) && Js.lt (Domain.stored_retryCount d) 10.

(** The document that a query for [{ domain }] finds: the value of the
    filter is cast as the path is. *)
Definition found (w : World) (domain : string) : option Domain.doc :=
  collection w !! Domain.cast_domain domain.

Definition earlier_checked (a b : Domain.doc) : Prop :=
  Domain.lastChecked a <= Domain.lastChecked b.

#[export] Instance earlier_checked_dec a b : Decision (earlier_checked a b) :=
  Z_le_dec (Domain.lastChecked a) (Domain.lastChecked b).

Section Collection.

Context (o : Oracle).

(** [Domain.findOne({ domain })] *)
Definition findOne (domain : string) : Prog World (option Domain.doc) :=
  fun w => (Fulfilled (found w domain), w).

(** [Domain.deleteOne({ domain })] *)
Definition deleteOne (domain : string) : Prog World unit :=
  modify (fun w => set_collection (delete (Domain.cast_domain domain) (collection w)) w).

(** [Domain.deleteOne({ _id: domainRecord._id })]: the stored document
    that [domainRecord] was loaded from. *)
Definition deleteOne_id (domainRecord : Domain.doc) : Prog World unit :=
  modify (fun w => set_collection (delete (Domain.domain domainRecord) (collection w)) w).

(** [document.save()].  The hook and the [timestamps] option stamp
    [updatedAt].  An object that holds the error of a failed cast is
    refused.  A new document is validated and inserted, and the unique
    index refuses a key that is taken; of a loaded document the paths are
    written back over the stored ones. *)
Definition save (isNew : bool) (this : Domain.object) : Prog World Domain.doc :=
  let! now := new_Date o in
  let d' := Domain.set_updatedAt now (Domain.paths this) in
  let! w := get_state in
  match Domain.castError this with
  | Some e => throw e
  | None =>
      if isNew then
        match Domain.validation_error d' with
        | Some e => throw e
        | None =>
            match collection w !! Domain.domain d' with
            | Some _ => throw "E11000 duplicate key error collection: domains index: domain_1"
            | None =>
                let! _ := modify (set_collection (<[Domain.domain d' := d']> (collection w))) in
                ret d'
            end
        end
      else
        match collection w !! Domain.domain d' with
        | Some _ =>
            let! _ := modify (set_collection (<[Domain.domain d' := d']> (collection w))) in
            ret d'
        | None => throw "No document found for query"
        end
  end.

(** [await domainRecord.save()] on the variable of a route or job. *)
Definition save_local : Prog (Domain.object * World) unit :=
  let! this := local in
  let! d' := lift (save false this) in
  assign (Domain.set (fun _ => d')).

(** [this.find(filter).sort({ lastChecked: 1 })] *)
Definition findPendingDomains : Prog World (list Domain.doc) :=
  fun w =>
    let docs := List.filter pending_filter (snd <$> map_to_list (collection w)) in
    (Fulfilled (merge_sort earlier_checked docs), w).

(** The instance methods of the schema, on the variable that holds the
    document. *)
Definition markAsConnected : Prog (Domain.object * World) unit :=
  let! _ := assign (Domain.set (Domain.set_connected true)) in
  let! _ := assign (Domain.set (Domain.set_dnsVerified true)) in
  let! _ := assign (Domain.set (Domain.set_nginxConfigured true)) in
  let! _ := assign (Domain.set_errorMessage None) in
  save_local.

Definition markAsDisconnected (errorMessage : option string) :
    Prog (Domain.object * World) unit :=
  let! _ := assign (Domain.set (Domain.set_connected false)) in
  let! _ := assign (Domain.set (Domain.set_dnsVerified false)) in
  let! _ := assign (Domain.set (Domain.set_nginxConfigured false)) in
  let! _ := assign (Domain.set (Domain.set_ssl false)) in
  let! _ := assign (Domain.set_errorMessage errorMessage) in
  let! _ :=
    assign (fun this => Domain.set_retryCount (Js.add_one (Domain.retryCount this)) this) in
  save_local.

Definition updateLastChecked : Prog (Domain.object * World) unit :=
  let! now := lift (new_Date o) in
  let! _ := assign (Domain.set (Domain.set_lastChecked now)) in
  save_local.

End Collection.

(** ** The router of the domain API *)

Inductive Body : Type :=
| ErrorBody (error : string) (existing : option Domain.doc)
| AddedBody (domain : Domain.doc) (message : string)
| DetailsBody (domain : Domain.doc) (status : DomainStatus)
| VerifiedBody (domain : Domain.doc) (dnsVerified : bool) (message : string)
| RemovedBody (message : string)
| RenewedBody (message : string) (expiryDate : option Js.Date)
| NotRenewedBody (message : string) (results : RenewalResults).

Record Response : Type := {
  statusCode : Z;
  body : Body
}.

(** The [success] member of a body. *)
Definition success (r : Response) : bool :=
  match body r with
  | ErrorBody _ _ => false
  | NotRenewedBody _ _ => false
  | _ => true
  end.

Definition json (code : Z) (b : Body) : Response := {| statusCode := code; body := b |}.

Section Routes.

Context (o : Oracle) (domainService : DomainService).

(** [domain.toLowerCase().replace(/^www\./, '')], the first statement of
    every route. *)
Definition normalize (domain : string) : string :=
  Js.replace_www (Js.toLowerCase domain).

(** The statements that the add route, the verify route and the pending
    check each spell out after DNS has been verified: proxy configuration,
    then the certificate, then its expiry, recorded on the variable. *)
Definition setup (domain siteSlug : string) : Prog (Domain.object * World) unit :=
  let! nginxSuccess := lift (createNginxConfig o domainService domain siteSlug) in
  if nginxSuccess then
    let! _ := assign (Domain.set (Domain.set_nginxConfigured true)) in
    let! sslSuccess := lift (issueSSLCertificate o domainService domain) in
    if sslSuccess then
      let! _ := assign (Domain.set (Domain.set_ssl true)) in
      let! _ := assign (Domain.set (Domain.set_connected true)) in
      let! expiryDate := lift (getCertificateExpiry o domain) in
      match expiryDate with
      | Some e => assign (Domain.assign_sslExpiry e)
      | None => ret tt
      end
    else ret tt
  else ret tt.

Definition internal_error (error : string) : Prog World Response :=
  ret (json 500 (ErrorBody error None)).

(** [POST /api/add-domain]; the two members of the request body are strings
    or undefined. *)
Definition addDomain (domain siteSlug : option string) : Prog World Response :=
  try_catch
    (match domain, siteSlug with
     | Some (String _ _ as domain), Some (String _ _ as siteSlug) =>
         let normalizedDomain := normalize domain in
         let! existingDomain := findOne normalizedDomain in
         match existingDomain with
         | Some existing => ret (json 409 (ErrorBody "Domain already exists" (Some existing)))
         | None =>
             let! dnsVerified := verifyDNS o domainService normalizedDomain in
             let! now := new_Date o in
             let domainRecord :=
               Domain.new normalizedDomain siteSlug dnsVerified dnsVerified now now in
             let! domainRecord := save o true (Domain.load domainRecord) in
             let! domainRecord :=
               if dnsVerified then
                 let! '(_, domainRecord) :=
                   with_local (Domain.load domainRecord)
                     (try_catch
                        (let! _ := setup normalizedDomain siteSlug in save_local o)
                        (fun error =>
                           let! _ := assign (Domain.set_errorMessage (Some error)) in
                           save_local o)) in
                 ret (Domain.paths domainRecord)
               else ret domainRecord in
             ret (json 200 (AddedBody domainRecord
                    (if dnsVerified then "Domain added and configured successfully"
                     else "Domain added, DNS verification pending")))
         end
     | _, _ => ret (json 400 (ErrorBody "Domain and siteSlug are required" None))
     end)
    internal_error.

(** [GET /api/domains/:domain] *)
Definition getDomain (domain : string) : Prog World Response :=
  try_catch
    (let normalizedDomain := normalize domain in
     let! domainRecord := findOne normalizedDomain in
     match domainRecord with
     | None => ret (json 404 (ErrorBody "Domain not found" None))
     | Some domainRecord =>
         let! status := getDomainStatus o domainService normalizedDomain in
         ret (json 200 (DetailsBody domainRecord status))
     end)
    internal_error.

(** [POST /api/domains/:domain/verify] *)
Definition verifyDomain (domain : string) : Prog World Response :=
  try_catch
    (let normalizedDomain := normalize domain in
     let! domainRecord := findOne normalizedDomain in
     match domainRecord with
     | None => ret (json 404 (ErrorBody "Domain not found" None))
     | Some domainRecord =>
         let! dnsVerified := verifyDNS o domainService normalizedDomain in
         let! now := new_Date o in
         let! '(_, domainRecord) :=
           with_local (Domain.load domainRecord)
             (let! _ := assign (Domain.set (Domain.set_dnsVerified dnsVerified)) in
              let! _ := assign (Domain.set (Domain.set_lastChecked now)) in
              let! current := local in
              if dnsVerified && negb (Domain.connected (Domain.paths current)) then
                try_catch
                  (let! _ :=
                     setup normalizedDomain (Domain.siteSlug (Domain.paths current)) in
                   save_local o)
                  (fun error =>
                     let! _ := assign (Domain.set_errorMessage (Some error)) in
                     save_local o)
              else save_local o) in
         ret (json 200 (VerifiedBody (Domain.paths domainRecord) dnsVerified
                (if dnsVerified then "DNS verified and domain configured"
                 else "DNS verification failed")))
     end)
    internal_error.

(** [DELETE /api/domains/:domain] *)
Definition removeDomain (domain : string) : Prog World Response :=
  try_catch
    (let normalizedDomain := normalize domain in
     let! domainRecord := findOne normalizedDomain in
     match domainRecord with
     | None => ret (json 404 (ErrorBody "Domain not found" None))
     | Some domainRecord =>
         let! _ := removeDomainConfig o domainService normalizedDomain in
         let! _ := deleteOne normalizedDomain in
         ret (json 200 (RemovedBody ("Domain " ++ normalizedDomain ++ " removed successfully")))
     end)
    internal_error.

(** [POST /api/domains/:domain/renew-ssl] *)
Definition renewCertificate (domain : string) : Prog World Response :=
  try_catch
    (let normalizedDomain := normalize domain in
     let! domainRecord := findOne normalizedDomain in
     match domainRecord with
     | None => ret (json 404 (ErrorBody "Domain not found" None))
     | Some domainRecord =>
         let! renewalResults := renewSSLCertificates o [normalizedDomain] in
         if existsb (String.eqb normalizedDomain) (successful renewalResults) then
           let! expiryDate := getCertificateExpiry o normalizedDomain in
           let! _ :=
             match expiryDate with
             | Some e =>
                 let! _ :=
                   save o false (Domain.assign_sslExpiry e (Domain.load domainRecord)) in
                 ret tt
             | None => ret tt
             end in
           ret (json 200 (RenewedBody "SSL certificate renewed successfully" expiryDate))
         else
           ret (json 200 (NotRenewedBody "SSL certificate renewal failed or not needed"
                            renewalResults))
     end)
    internal_error.

End Routes.

(** ** services/cron-service.js *)

Inductive Job : Type :=
| CheckPendingDomains
| CheckSSLCertificates
| RenewSSLCertificates
| CleanupOldDomains.

(** What [cron.schedule] returns. *)
Record ScheduledTask : Type := {
  expression : string;
  callback : list Job;
  timezone : string;
  started : bool
}.

Definition schedule (expression0 : string) (callback0 : list Job) (scheduled0 : bool)
    (timezone0 : string) : ScheduledTask :=
  {| expression := expression0; callback := callback0; timezone := timezone0;
     started := scheduled0 |}.

Definition task_start (t : ScheduledTask) : ScheduledTask :=
  {| expression := expression t; callback := callback t; timezone := timezone t;
     started := true |}.


(** The fields [tasks] and [isRunning] of the service, the task objects
    that were stopped and dropped, and the callbacks handed to
    [setTimeout] with their delays. *)
Record CronService : Type := {
  tasks : list (string * ScheduledTask);
  isRunning : bool;
  dropped : list ScheduledTask;
  timeouts : list (Z * list Job)
}.

Definition new_CronService : CronService :=
  {| tasks := []; isRunning := false; dropped := []; timeouts := [] |}.

(** [map.set(key, value)]: a present key keeps its place. *)
Fixpoint Map_set {V} (key : string) (value : V) (m : list (string * V)) : list (string * V) :=
  match m with
  | [] => [(key, value)]
  | (k, v) :: r => if String.eqb k key then (k, value) :: r else (k, v) :: Map_set key value r
  end.

Definition start (this : CronService) : CronService :=
  if isRunning this then this
  else
    let pendingCheckTask := schedule "*/30 * * * *" [CheckPendingDomains] false "UTC" in
    let sslCheckTask := schedule "0 2 * * *" [CheckSSLCertificates] false "UTC" in
    let sslRenewalTask := schedule "0 3 * * 0" [RenewSSLCertificates] false "UTC" in
    let cleanupTask := schedule "0 4 * * 1" [CleanupOldDomains] false "UTC" in
    let tasks1 := Map_set "pendingCheck" pendingCheckTask (tasks this) in
    let tasks2 := Map_set "sslCheck" sslCheckTask tasks1 in
    let tasks3 := Map_set "sslRenewal" sslRenewalTask tasks2 in
    let tasks4 := Map_set "cleanup" cleanupTask tasks3 in
    let tasks5 := List.map (fun kv => (fst kv, task_start (snd kv))) tasks4 in
    {| tasks := tasks5;
       isRunning := true;
       dropped := dropped this;
       timeouts := timeouts this ++ [(5000, [CheckPendingDomains; CheckSSLCertificates])] |}.


Record CronStatus : Type := {
  status_isRunning : bool;
  status_tasks : list string;
  status_taskCount : nat
}.

Definition getStatus (this : CronService) : CronStatus :=
  {| status_isRunning := isRunning this;
     status_tasks := List.map fst (tasks this);
     status_taskCount := List.length (tasks this) |}.

Section Jobs.

Context (o : Oracle) (domainService : DomainService).

(** The body of the loop of [checkPendingDomains].  The counters of
    [results] only feed the console and are left out. *)
Definition check_one (domainRecord : Domain.doc) : Prog World unit :=
  try_catch
    (let! _ :=
       with_local (Domain.load domainRecord)
         (let! current := local in
          let! dnsVerified :=
            lift (verifyDNS o domainService (Domain.domain (Domain.paths current))) in
          let! now := lift (new_Date o) in
          let! _ := assign (Domain.set (Domain.set_lastChecked now)) in
          let! current := local in
          let! _ :=
            if dnsVerified && negb (Domain.connected (Domain.paths current)) then
              try_catch
                (setup o domainService (Domain.domain (Domain.paths current))
                   (Domain.siteSlug (Domain.paths current)))
                (fun error => assign (Domain.set_errorMessage (Some error)))
            else ret tt in
          save_local o) in
     ret tt)
    (fun _ => ret tt).

Definition checkPendingDomains : Prog World unit :=
  try_catch
    (let! pendingDomains := findPendingDomains in
     match pendingDomains with
     | [] => ret tt
     | _ => for_of pendingDomains check_one
     end)
    (fun _ => ret tt).

End Jobs.

(** ** Executions *)

(** The operations a caller or the scheduler can start. *)
Inductive Operation : Type :=
| AddDomain (domain siteSlug : option string)
| GetDomain (domain : string)
| VerifyDomain (domain : string)
| RemoveDomain (domain : string)
| RenewCertificate (domain : string)
| PendingCheck.

Definition run (o : Oracle) (service : DomainService) (op : Operation) (w : World) : World :=
  match op with
  | AddDomain domain siteSlug => snd (addDomain o service domain siteSlug w)
  | GetDomain domain => snd (getDomain o service domain w)
  | VerifyDomain domain => snd (verifyDomain o service domain w)
  | RemoveDomain domain => snd (removeDomain o service domain w)
  | RenewCertificate domain => snd (renewCertificate o domain w)
  | PendingCheck => snd (checkPendingDomains o service w)
  end.

Definition run_all (o : Oracle) (service : DomainService) (ops : list Operation) (w : World)
  : World :=
  fold_left (fun w op => run o service op w) ops w.

Definition initial : World := {| collection := ∅; trace := [] |}.

(** The states of the process: an empty collection, then any operations. *)
Inductive reachable (o : Oracle) (service : DomainService) : World -> Prop :=
| reachable_initial : reachable o service initial
| reachable_run w op : reachable o service w -> reachable o service (run o service op w).

(** The state after [evs] more calls to the outside and no write. *)
Definition extend (evs : list Event) (w : World) : World :=
  {| collection := collection w; trace := trace w ++ evs |}.

(** The command of an event that ran a process. *)
Definition command_of (e : Event) : option string :=
  match e with
  | Exec c _ => Some c
  | _ => None
  end.

(** How [testNginxConfig] reads the outcome of [nginx -t]. *)
Definition validation_fails (r : Settled (string * string)) : bool :=
  match r with
  | Rejected _ => true
  | Fulfilled (_, stderr) =>
      match stderr with
      | EmptyString => false
      | _ => negb (Js.includes stderr "test is successful")
      end
  end.

(** *** Surroundings for the examples *)

Definition example_env : ProcessEnv :=
  {| SERVER_IP := Some "203.0.113.7"; EMAIL := Some "ops@example.org";
     NGINX_SITES_AVAILABLE := None; NGINX_SITES_ENABLED := None;
     APP_ROOT := Some "/srv/app"; PORT := Some "3000" |}.

Definition example_service : DomainService := new_DomainService example_env.

(** A world where DNS answers with our address or not at all, the file
    system accepts writes or refuses them, [nginx -t] passes or fails, and
    [certbot] succeeds or cannot be run; the clock ticks with every call. *)
Definition example_oracle (dns_ok fs_ok nginx_ok certbot_ok : bool) : Oracle :=
  let fs := if fs_ok then Fulfilled tt else Rejected "EACCES: permission denied" in
  {| dns_resolve4 := fun _ _ =>
       if dns_ok then Fulfilled ["203.0.113.7"] else Rejected "queryA ENOTFOUND";
     fs_writeFile := fun _ _ _ => fs;
     fs_unlink := fun _ _ => fs;
     fs_symlink := fun _ _ _ => fs;
     fs_access := fun _ _ => fs;
     execAsync := fun _ command =>
       if String.eqb command nginx_test_command then
         if nginx_ok
         then Fulfilled (EmptyString, "nginx: configuration file /etc/nginx/nginx.conf test is successful")
         else Rejected "Command failed: sudo nginx -t"
       else if String.eqb command nginx_reload_command then
         Fulfilled (EmptyString, EmptyString)
       else if certbot_ok then
         Fulfilled ("Successfully deployed certificate for the domain" ++ nl
                    ++ "  Expiry Date: 2027-01-31 10:00:00+00:00 (VALID: 89 days)" ++ nl,
                    EmptyString)
       else Rejected "Command failed: sudo certbot";
     Date_now := fun h => 1758087450044 + 1000 * Z.of_nat (List.length h);
     Date_parse := fun _ => Js.Time 1801389600000 |}.

(** The same surroundings with a certbot whose expiry line does not read
    as a date, and with a clock that stands at [now]. *)
Definition unreadable_expiry (o : Oracle) : Oracle :=
  {| dns_resolve4 := dns_resolve4 o; fs_writeFile := fs_writeFile o;
     fs_unlink := fs_unlink o; fs_symlink := fs_symlink o; fs_access := fs_access o;
     execAsync := execAsync o; Date_now := Date_now o;
     Date_parse := fun _ => Js.InvalidDate |}.

Definition at_time (now : Z) (o : Oracle) : Oracle :=
  {| dns_resolve4 := dns_resolve4 o; fs_writeFile := fs_writeFile o;
     fs_unlink := fs_unlink o; fs_symlink := fs_symlink o; fs_access := fs_access o;
     execAsync := execAsync o; Date_now := fun _ => now;
     Date_parse := Date_parse o |}.

(** A computation that writes nothing to the collection, and one that
    moreover returns. *)
Definition quiet {A} (m : Prog World A) : Prop :=
  forall w, exists r evs, m w = (r, extend evs w).

Definition returns {A} (m : Prog World A) : Prop :=
  forall w, exists a evs, m w = (Fulfilled a, extend evs w).

(** The answer of the add route to a domain that is taken. *)
Definition duplicate_error (r : Settled Response) : Prop :=
  exists existing,
    r = Fulfilled (json 409 (ErrorBody "Domain already exists" (Some existing))).

Definition not_found : Response := json 404 (ErrorBody "Domain not found" None).

(** The collection after [example.com] was added while its DNS did not
    resolve. *)
Definition pending_world : World :=
  run (example_oracle false true true true) example_service
    (AddDomain (Some "example.com") (Some "site-1")) initial.

(** The parts of the generated configuration. *)
Definition security_headers : list string :=
  [ "    add_header X-Frame-Options " ++ dq ++ "SAMEORIGIN" ++ dq ++ " always;";
    "    add_header X-XSS-Protection " ++ dq ++ "1; mode=block" ++ dq ++ " always;";
    "    add_header X-Content-Type-Options " ++ dq ++ "nosniff" ++ dq ++ " always;";
    "    add_header Referrer-Policy " ++ dq ++ "no-referrer-when-downgrade" ++ dq ++ " always;";
    "    add_header Content-Security-Policy " ++ dq ++ "default-src 'self' http: https: data: blob: 'unsafe-inline'" ++ dq ++ " always;" ].

Definition proxy_rule (this : DomainService) : list string :=
  [ "    location / {";
    "        proxy_pass http://127.0.0.1:" ++ Js.interpolate (appPort this) ++ "/;";
    "        proxy_set_header Host $host;";
    "        proxy_set_header X-Real-IP $remote_addr;";
    "        proxy_set_header X-Forwarded-For $proxy_add_x_forwarded_for;";
    "        proxy_set_header X-Forwarded-Proto $scheme;";
    "        proxy_set_header X-Forwarded-Host $host;";
    "        proxy_set_header X-Forwarded-Port $server_port;" ].

Definition static_alias (this : DomainService) : list string :=
  [ "    location /cloned-sites/ {";
    "        alias " ++ Js.interpolate (appRoot this) ++ "/cloned_sites/;" ].

Definition health_check : list string :=
  [ "    location /health {";
    "        access_log off;";
    "        return 200 " ++ dq ++ "healthy\n" ++ dq ++ ";" ].

Definition deny_dotfiles : list string :=
  [ "    location ~ /\. {";
    "        deny all;" ].

Definition deny_backups : list string :=
  [ "    location ~* \.(bak|backup|old|orig|original|tmp)$ {";
    "        deny all;" ].

Definition specified_parts (this : DomainService) : list (list string) :=
  [ security_headers; proxy_rule this; static_alias this; health_check; deny_dotfiles;
    deny_backups ].

(** All the domains that [renewSSLCertificates] reports. *)
Definition buckets (r : RenewalResults) : list string :=
  (successful r ++ skipped r ++ failed r)%list.

(** *** What the operations write *)

Definition configured (d : Domain.doc) : Domain.doc := Domain.set_nginxConfigured true d.

Definition secured (d : Domain.doc) : Domain.doc :=
  Domain.set_connected true (Domain.set_ssl true (configured d)).

(** The document variable after [setup], by how far the chain got. *)
Inductive setup_outcome (d : Domain.doc) : Domain.doc -> Prop :=
| proxy_failed : setup_outcome d d
| certificate_failed : setup_outcome d (configured d)
| secured_expiry_unknown : setup_outcome d (secured d)
| secured_expiry_known e : setup_outcome d (Domain.set_sslExpiry (Some e) (secured d)).

(** A document as the add route stores it last. *)
Inductive created : Domain.doc -> Prop :=
| created_pending name slug t t1 :
    created (Domain.set_updatedAt t1 (Domain.new name slug false false t t))
| created_verified name slug t t1 x t2 :
    setup_outcome (Domain.set_updatedAt t1 (Domain.new name slug true true t t)) x ->
    created (Domain.set_updatedAt t2 x).

(** A stored document [d] as the verify route writes it back. *)
Inductive verified (d : Domain.doc) : Domain.doc -> Prop :=
| verified_setup t x t2 :
    Domain.connected d = false ->
    setup_outcome (Domain.set_lastChecked t (Domain.set_dnsVerified true d)) x ->
    verified d (Domain.set_updatedAt t2 x)
| verified_only b t t2 :
    b = false \/ Domain.connected d = true ->
    verified d (Domain.set_updatedAt t2 (Domain.set_lastChecked t (Domain.set_dnsVerified b d))).

(** A stored document [d] as the renew route writes it back. *)
Inductive renewed (d : Domain.doc) : Domain.doc -> Prop :=
| renewed_expiry e t2 : renewed d (Domain.set_updatedAt t2 (Domain.set_sslExpiry (Some e) d)).

(** Every document is stored under its own [domain], which is as the
    setters of the schema leave it. *)
Definition consistent (c : gmap string Domain.doc) : Prop :=
  forall k d, c !! k = Some d -> Domain.domain d = k /\ Domain.cast_domain k = k.

(** Why the add route stores nothing. *)
Definition add_refused (domain siteSlug : option string) (w : World) : Prop :=
  Js.truthy domain && Js.truthy siteSlug = false
  \/ exists D t,
       domain = Some D /\ siteSlug = Some t /\
       (is_Some (found w (normalize D))
        \/ Domain.validate_paths (Domain.cast_domain (normalize D)) (Js.trim t) <> None).

(** A stored expiry belongs to a record with a certificate. *)
Definition expiry_implies_ssl (c : gmap string Domain.doc) : Prop :=
  forall k r, c !! k = Some r -> Domain.sslExpiry r <> None -> Domain.ssl r = true.

(** ** Further behaviour of the service, the model, the routes and the jobs *)

(** How [issueSSLCertificate] reads the outcome of [certbot --nginx]. *)
Definition certbot_issued (r : Settled (string * string)) : bool :=
  match r with
  | Rejected _ => false
  | Fulfilled (stdout, _) =>
      Js.includes stdout "Successfully deployed certificate"
      || Js.includes stdout "Certificate not yet due for renewal"
  end.

(** How often a character occurs in a string. *)
Fixpoint count_char (c : ascii) (s : string) : nat :=
  match s with
  | EmptyString => O
  | String x r => ((if Ascii.eqb x c then 1 else 0) + count_char c r)%nat
  end.

(** DNS never answers with the address of this server. *)
Definition dns_never_verifies (o : Oracle) (service : DomainService) : Prop :=
  forall history hostname addresses ip,
    dns_resolve4 o history hostname = Fulfilled addresses ->
    serverIP service = Some ip ->
    ~ In ip addresses.

(** A record on which nothing has been achieved. *)
Definition nothing_achieved (r : Domain.doc) : Prop :=
  Domain.connected r = false /\ Domain.dnsVerified r = false
  /\ Domain.nginxConfigured r = false /\ Domain.ssl r = false.


(** ** The other queries of the model, the scheduled jobs and the listing routes *)

(** [Domain.find(filter)] and [Domain.countDocuments(filter)], the filter
    given as a test on a document. *)
Definition Domain_find (filter : Domain.doc -> bool) : Prog World (list Domain.doc) :=
  fun w => (Fulfilled (List.filter filter (snd <$> map_to_list (collection w))), w).


Definition findConnectedDomains : Prog World (list Domain.doc) :=
  Domain_find Domain.connected.

(** [{ ssl: true, sslExpiry: { $lte: expiryDate } }]: a missing expiry
    does not compare. *)
Definition expiring_filter (expiryDate : Z) (d : Domain.doc) : bool :=
  Domain.ssl d
  && match Domain.sslExpiry d with
     | Some e => e <=? expiryDate
     | None => false
     end.

(** [{ connected: false, retryCount: { $gte: 10 }, createdAt: { $lt: cutoffDate } }] *)
Definition cleanup_filter (cutoffDate : Z) (d : Domain.doc) : bool :=
  negb (Domain.connected d) && Js.ge (Domain.stored_retryCount d) 10
  && (Domain.createdAt d <? cutoffDate).

(** The order of [sort({ createdAt: -1 })]. *)
Definition later_created (a b : Domain.doc) : Prop :=
  Domain.createdAt b <= Domain.createdAt a.

#[export] Instance later_created_dec a b : Decision (later_created a b) :=
  Z_le_dec (Domain.createdAt b) (Domain.createdAt a).

(** [date.setDate(date.getDate() + days)] in a process whose time zone is
    UTC. *)
Definition utc_setDate (date days : Z) : Z := date + days * 86400000.



(** What the listing routes answer: the body with [success: true], or
    status 500 with the message of the error. *)
Definition answer {A} (m : Prog World A) : Prog World (A + string) :=
  try_catch (let! a := m in ret (inl a)) (fun error => ret (inr error)).

Section Listing.

Context (o : Oracle).

(** [setDate] works on the calendar of the time zone of the process:
    [setDate date days] stands for [date.setDate(date.getDate() + days)]. *)
Context (setDate : Z -> Z -> Z).

Definition findExpiringSSL (daysBeforeExpiry : Z) : Prog World (list Domain.doc) :=
  let! expiryDate := new_Date o in
  let expiryDate := setDate expiryDate daysBeforeExpiry in
  Domain_find (expiring_filter expiryDate).



End Listing.

(** ** The other jobs of the scheduler *)

Module Cron.

Section Jobs.

Context (o : Oracle) (domainService : DomainService) (setDate : Z -> Z -> Z).

(** The body of the loop of [checkSSLCertificates]. *)
Definition refresh_expiry (domainRecord : Domain.doc) : Prog World unit :=
  try_catch
    (let! actualExpiry := getCertificateExpiry o (Domain.domain domainRecord) in
     match actualExpiry with
     | Some e =>
         let! _ :=
           save o false (Domain.assign_sslExpiry e (Domain.load domainRecord)) in
         ret tt
     | None => ret tt
     end)
    (fun _ => ret tt).

Definition checkSSLCertificates : Prog World unit :=
  try_catch
    (let! expiringDomains := findExpiringSSL o setDate 30 in
     match expiringDomains with
     | [] => ret tt
     | _ => for_of expiringDomains refresh_expiry
     end)
    (fun _ => ret tt).

(** The body of the second loop of the scheduler's [renewSSLCertificates]. *)
Definition update_expiry (domain : string) : Prog World unit :=
  try_catch
    (let! domainRecord := findOne domain in
     match domainRecord with
     | Some domainRecord =>
         let! expiryDate := getCertificateExpiry o domain in
         match expiryDate with
         | Some e =>
             let! _ :=
               save o false (Domain.assign_sslExpiry e (Domain.load domainRecord)) in
             ret tt
         | None => ret tt
         end
     | None => ret tt
     end)
    (fun _ => ret tt).

(** [CronService.renewSSLCertificates]; the call inside it is the method
    of the same name of the domain service. *)
Definition renewSSLCertificates : Prog World unit :=
  try_catch
    (let! sslDomains := Domain_find Domain.ssl in
     match sslDomains with
     | [] => ret tt
     | _ =>
         let domainsToRenew := List.map Domain.domain sslDomains in
         let! renewalResults := renewSSLCertificates o domainsToRenew in
         for_of (successful renewalResults) update_expiry
     end)
    (fun _ => ret tt).

(** The body of the loop of [cleanupOldDomains]. *)
Definition remove_old (domainRecord : Domain.doc) : Prog World unit :=
  try_catch
    (let! _ := removeDomainConfig o domainService (Domain.domain domainRecord) in
     deleteOne_id domainRecord)
    (fun _ => ret tt).

Definition cleanupOldDomains : Prog World unit :=
  try_catch
    (let! cutoffDate := new_Date o in
     let cutoffDate := setDate cutoffDate (-7) in
     let! oldFailedDomains := Domain_find (cleanup_filter cutoffDate) in
     match oldFailedDomains with
     | [] => ret tt
     | _ => for_of oldFailedDomains remove_old
     end)
    (fun _ => ret tt).

Definition triggerTask (this : CronService) (taskName : string) : Prog World unit :=
  if negb (isRunning this) then throw "Cron service is not running"
  else if String.eqb taskName "pendingCheck" then checkPendingDomains o domainService
  else if String.eqb taskName "sslCheck" then checkSSLCertificates
  else if String.eqb taskName "sslRenewal" then renewSSLCertificates
  else if String.eqb taskName "cleanup" then cleanupOldDomains
  else throw ("Unknown task: " ++ taskName).

(** What a job that the scheduler fires does to the world. *)
Definition run_job (job : Job) (w : World) : World :=
  snd (match job with
       | CheckPendingDomains => checkPendingDomains o domainService w
       | CheckSSLCertificates => checkSSLCertificates w
       | RenewSSLCertificates => renewSSLCertificates w
       | CleanupOldDomains => cleanupOldDomains w
       end).

(** The states of a server in operation: requests to the routes and runs
    of the scheduled jobs, in any order. *)
Inductive operating : World -> Prop :=
| operating_initial : operating initial
| operating_request w op : operating w -> operating (run o domainService op w)
| operating_job w job : operating w -> operating (run_job job w).

End Jobs.

End Cron.

(** A document that differs from another in [sslExpiry] and [updatedAt]
    at most. *)
Definition same_but_expiry (r r' : Domain.doc) : Prop :=
  r' = Domain.set_updatedAt (Domain.updatedAt r') (Domain.set_sslExpiry (Domain.sslExpiry r') r).

(** What a run of the expiry audit or of the scheduled renewal may do to
    the collection: no record comes or goes, and a record that changes
    has a certificate and changes in [sslExpiry] and [updatedAt] only. *)
Definition expiry_refresh (c0 c : gmap string Domain.doc) : Prop :=
  forall k,
    c !! k = c0 !! k
    \/ exists r r', c0 !! k = Some r /\ c !! k = Some r'
         /\ Domain.ssl r = true /\ same_but_expiry r r'.

(** The world after [example.com] was added while everything worked: its
    record is connected and holds a certificate. *)
Definition connected_world : World :=
  run (example_oracle true true true true) example_service
    (AddDomain (Some "example.com") (Some "site-1")) initial.

From Stdlib Require Import DecimalString.

(** ** The route that checks the pending domains *)

(** An entry of [results.details]: with a [message], or with an [error]. *)
Inductive Detail : Type :=
| MessageDetail (domain status message : string)
| ErrorDetail (domain status error : string).

Record CheckResults : Type := {
  results_checked : nat;
  results_connected : nat;
  results_failed : nat;
  results_details : list Detail
}.

Definition count_checked (r : CheckResults) : CheckResults :=
  {| results_checked := S (results_checked r); results_connected := results_connected r;
     results_failed := results_failed r; results_details := results_details r |}.

Definition count_connected (r : CheckResults) : CheckResults :=
  {| results_checked := results_checked r; results_connected := S (results_connected r);
     results_failed := results_failed r; results_details := results_details r |}.

Definition count_failed (r : CheckResults) : CheckResults :=
  {| results_checked := results_checked r; results_connected := results_connected r;
     results_failed := S (results_failed r); results_details := results_details r |}.

Definition push_detail (d : Detail) (r : CheckResults) : CheckResults :=
  {| results_checked := results_checked r; results_connected := results_connected r;
     results_failed := results_failed r; results_details := results_details r ++ [d] |}.


(** The variables of one turn of the loop: the document and [results]. *)
Definition on_record (f : Domain.object -> Domain.object)
    (l : Domain.object * CheckResults) : Domain.object * CheckResults :=
  (f (fst l), snd l).

Definition on_results (f : CheckResults -> CheckResults)
    (l : Domain.object * CheckResults) : Domain.object * CheckResults :=
  (fst l, f (snd l)).

Section PendingRoute.

Context (o : Oracle) (domainService : DomainService).

(** The body of the loop of the route. *)
Definition pending_one (results : CheckResults) (domainRecord : Domain.doc) :
    Prog World CheckResults :=
  let! '(_, (_, results)) :=
    with_local (Domain.load domainRecord, results)
      (try_catch
         (let! _ := assign (on_results count_checked) in
          let! current := local in
          let! dnsVerified :=
            lift (verifyDNS o domainService (Domain.domain (Domain.paths (fst current)))) in
          let! now := lift (new_Date o) in
          let! _ := assign (on_record (Domain.set (Domain.set_lastChecked now))) in
          let! current := local in
          let domain := Domain.domain (Domain.paths (fst current)) in
          let! _ :=
            if dnsVerified && negb (Domain.connected (Domain.paths (fst current))) then
              try_catch
                (let! nginxSuccess :=
                   lift (createNginxConfig o domainService domain
                           (Domain.siteSlug (Domain.paths (fst current)))) in
                 if nginxSuccess then
                   let! _ :=
                     assign (on_record (Domain.set (Domain.set_nginxConfigured true))) in
                   let! sslSuccess := lift (issueSSLCertificate o domainService domain) in
                   if sslSuccess then
                     let! _ := assign (on_record (Domain.set (Domain.set_ssl true))) in
                     let! _ := assign (on_record (Domain.set (Domain.set_connected true))) in
                     let! expiryDate := lift (getCertificateExpiry o domain) in
                     let! _ :=
                       match expiryDate with
                       | Some e => assign (on_record (Domain.assign_sslExpiry e))
                       | None => ret tt
                       end in
                     let! _ := assign (on_results count_connected) in
                     assign (on_results
                               (push_detail
                                  (MessageDetail domain "connected"
                                     "Domain connected successfully")))
                   else ret tt
                 else ret tt)
                (fun error =>
                   let! _ := assign (on_record (Domain.set_errorMessage (Some error))) in
                   let! _ := assign (on_results count_failed) in
                   assign (on_results (push_detail (ErrorDetail domain "failed" error))))
            else if negb dnsVerified then
              assign (on_results
                        (push_detail (MessageDetail domain "pending" "DNS not yet verified")))
            else ret tt in
          let! current := local in
          let! saved := lift (save o false (fst current)) in
          assign (on_record (Domain.set (fun _ => saved))))
         (fun error =>
            let! current := local in
            let! _ := assign (on_results count_failed) in
            assign (on_results
                      (push_detail
                         (ErrorDetail (Domain.domain (Domain.paths (fst current))) "error"
                            error)))))
  in
  ret results.



End PendingRoute.

(** * Properties *)


(** ** The monad and the trace *)

(** [extend] composes. *)
Lemma extend_nil w : extend [] w = w.
Proof. destruct w; unfold extend; simpl. now rewrite app_nil_r. Qed.

Lemma extend_extend e1 e2 w : extend e2 (extend e1 w) = extend (e1 ++ e2)%list w.
Proof. unfold extend; simpl. now rewrite app_assoc. Qed.

Lemma record_event_extend e w : record_event e w = extend [e] w.
Proof. reflexivity. Qed.

Lemma extend_inj e1 e2 w : extend e1 w = extend e2 w -> e1 = e2.
Proof.
  unfold extend; intros H. injection H as H. now apply app_inv_head in H.
Qed.

(** The combinators keep computations [quiet]; a handler that returns
    makes them return. *)
Lemma quiet_ret {A} (a : A) : quiet (ret a).
Proof. intros w. exists (Fulfilled a), []. now rewrite extend_nil. Qed.

Lemma quiet_throw {A} e : quiet (@throw World A e).
Proof. intros w. exists (Rejected e), []. now rewrite extend_nil. Qed.

Lemma quiet_perform {A} answer (event : Settled A -> Event) : quiet (perform answer event).
Proof. intros w. now exists (answer (trace w)), [event (answer (trace w))]. Qed.

Lemma quiet_new_Date o : quiet (new_Date o).
Proof. intros w. exists (Fulfilled (Date_now o (trace w))), []. now rewrite extend_nil. Qed.

Lemma quiet_bind {A B} (m : Prog World A) (k : A -> Prog World B) :
  quiet m -> (forall a, quiet (k a)) -> quiet (bind m k).
Proof.
  intros Hm Hk w. unfold bind.
  destruct (Hm w) as (r & evs & ->).
  destruct r as [a | e].
  - destruct (Hk a (extend evs w)) as (r' & evs' & ->).
    exists r', (evs ++ evs')%list. now rewrite extend_extend.
  - now exists (Rejected e), evs.
Qed.

Lemma quiet_try_catch {A} (m : Prog World A) h :
  quiet m -> (forall e, quiet (h e)) -> quiet (try_catch m h).
Proof.
  intros Hm Hh w. unfold try_catch.
  destruct (Hm w) as (r & evs & ->).
  destruct r as [a | e].
  - now exists (Fulfilled a), evs.
  - destruct (Hh e (extend evs w)) as (r' & evs' & ->).
    exists r', (evs ++ evs')%list. now rewrite extend_extend.
Qed.

Lemma returns_quiet {A} (m : Prog World A) : returns m -> quiet m.
Proof. intros H w. destruct (H w) as (a & evs & ->). now exists (Fulfilled a), evs. Qed.

Lemma returns_ret {A} (a : A) : returns (ret a).
Proof. intros w. exists a, []. now rewrite extend_nil. Qed.

Lemma returns_bind {A B} (m : Prog World A) (k : A -> Prog World B) :
  returns m -> (forall a, returns (k a)) -> returns (bind m k).
Proof.
  intros Hm Hk w. unfold bind.
  destruct (Hm w) as (a & evs & ->).
  destruct (Hk a (extend evs w)) as (b & evs' & ->).
  exists b, (evs ++ evs')%list. now rewrite extend_extend.
Qed.

(** A block whose handler returns cannot throw. *)
Lemma returns_try_catch {A} (m : Prog World A) h :
  quiet m -> (forall e, returns (h e)) -> returns (try_catch m h).
Proof.
  intros Hm Hh w. unfold try_catch.
  destruct (Hm w) as (r & evs & ->).
  destruct r as [a | e].
  - now exists a, evs.
  - destruct (Hh e (extend evs w)) as (b & evs' & ->).
    exists b, (evs ++ evs')%list. now rewrite extend_extend.
Qed.

Lemma returns_new_Date o : returns (new_Date o).
Proof. intros w. exists (Date_now o (trace w)), []. now rewrite extend_nil. Qed.

Create HintDb quiet.
#[local] Hint Resolve quiet_ret quiet_throw quiet_perform quiet_new_Date returns_ret
  returns_new_Date returns_quiet : quiet.

Ltac quiet_step :=
  lazymatch goal with
  | |- quiet (bind _ _) => apply quiet_bind; [ | intros ? ]
  | |- quiet (try_catch _ _) => apply quiet_try_catch; [ | intros ? ]
  | |- returns (bind _ _) => apply returns_bind; [ | intros ? ]
  | |- returns (try_catch _ _) => apply returns_try_catch; [ | intros ? ]
  | |- quiet (match ?x with _ => _ end) => destruct x
  | |- returns (match ?x with _ => _ end) => destruct x
  | |- quiet (if ?x then _ else _) => destruct x
  | |- returns (if ?x then _ else _) => destruct x
  | |- _ => solve [ auto with quiet ]
  end.

Ltac quiet_auto := repeat quiet_step.

Section ServiceFacts.

Context (o : Oracle) (this : DomainService).

(** No method of the service writes to the collection; those that catch
    every error return. *)
Lemma quiet_exec c : quiet (exec o c).
Proof. apply quiet_perform. Qed.

Lemma verifyDNS_returns d : returns (verifyDNS o this d).
Proof. unfold verifyDNS, resolve4. quiet_auto. Qed.

Lemma testNginxConfig_quiet : quiet (testNginxConfig o).
Proof. unfold testNginxConfig, exec. quiet_auto. Qed.

Lemma reloadNginx_quiet : quiet (reloadNginx o).
Proof. unfold reloadNginx, exec. quiet_auto. Qed.

Lemma createNginxConfig_returns d s : returns (createNginxConfig o this d s).
Proof.
  unfold createNginxConfig, writeFile, unlink, symlink.
  pose proof testNginxConfig_quiet. pose proof reloadNginx_quiet.
  quiet_auto.
Qed.

Lemma getCertificateExpiry_returns d : returns (getCertificateExpiry o d).
Proof. unfold getCertificateExpiry, exec. quiet_auto. Qed.

Lemma issueSSLCertificate_returns d : returns (issueSSLCertificate o this d).
Proof.
  unfold issueSSLCertificate, exec.
  pose proof (getCertificateExpiry_returns d).
  quiet_auto.
Qed.

Lemma removeDomainConfig_returns d : returns (removeDomainConfig o this d).
Proof.
  unfold removeDomainConfig, exec, unlink.
  pose proof reloadNginx_quiet.
  quiet_auto.
Qed.

Lemma getDomainStatus_returns d : returns (getDomainStatus o this d).
Proof.
  unfold getDomainStatus, access.
  pose proof (verifyDNS_returns d). pose proof (getCertificateExpiry_returns d).
  quiet_auto.
Qed.

End ServiceFacts.
Example toISOString_epoch : Js.toISOString 0 = "1970-01-01T00:00:00.000Z".
Proof. reflexivity. Qed.
Example toISOString_site : Js.toISOString 1758087450044 = "2025-09-17T05:37:30.044Z".
Proof. reflexivity. Qed.
Example toISOString_leap : Js.toISOString 1709164800000 = "2024-02-29T00:00:00.000Z".
Proof. reflexivity. Qed.
Example toISOString_before : Js.toISOString (-1) = "1969-12-31T23:59:59.999Z".
Proof. reflexivity. Qed.
Example split_ex : Js.split "." "a.b.c" = ["a"; "b"; "c"].
Proof. reflexivity. Qed.
Example trim_ex : Js.trim "  a b  " = "a b".
Proof. reflexivity. Qed.
Example match_ex : Js.match_rest_of_line "k: " "x k:
k: v w
z" = Some "v w".
Proof. reflexivity. Qed.

(** ** The proxy configurator *)

Ltac split_answers :=
  repeat match goal with
  | |- context [match ?x with _ => _ end] =>
      lazymatch x with
      | context [match _ with _ => _ end] => fail
      | _ => destruct x eqn:?
      end
  end.

(** C7.  In every execution of [createNginxConfig] the calls it makes are
    appended to the trace and nothing else changes; and if among them
    [nginx -t] ran and failed (the process failed, or wrote to stderr
    without the words "test is successful"), then the operation reports
    failure by returning [false] and [nginx -s reload] was never run. *)
Theorem createNginxConfig_no_reload_after_failed_test o this domain siteSlug w :
  exists evs,
    snd (createNginxConfig o this domain siteSlug w) = extend evs w /\
    forall r, In (Exec nginx_test_command r) evs -> validation_fails r = true ->
      fst (createNginxConfig o this domain siteSlug w) = Fulfilled false /\
      forall r', ~ In (Exec nginx_reload_command r') evs.
Proof.
  unfold createNginxConfig, testNginxConfig, reloadNginx, writeFile, unlink, symlink,
    exec, perform, try_catch, bind, new_Date, ret, throw.
  set (cfg := generateNginxConfig _ _ _ _). cbn [trace record_event collection].
  split_answers.
  all: cbn [fst snd]; rewrite ?record_event_extend, ?extend_extend;
    eexists; (split; [reflexivity | ]).
  all: unfold nginx_test_command, nginx_reload_command; subst; cbn [List.app In].
  all: intros r Hin Hfails.
  all: repeat match goal with
       | H : _ \/ _ |- _ => destruct H
       | H : False |- _ => destruct H
       end; try discriminate.
  all: try match goal with H : Exec _ _ = Exec _ _ |- _ => injection H as <- end.
  all: cbn [validation_fails] in Hfails; try discriminate.
  all: try (split; [reflexivity | intros r' Hr'; cbn [In] in Hr'; intuition discriminate ]).
  all: congruence.
Qed.

(** The same execution seen from the start: when the files are written
    and [nginx -t] fails, the operation makes exactly four calls, the
    last one the test. *)
Lemma createNginxConfig_witness :
  let o := example_oracle true true false true in
  let run := createNginxConfig o example_service "example.com" "site-1" initial in
  exists evs,
    snd run = extend evs initial /\
    In (Exec nginx_test_command (Rejected "Command failed: sudo nginx -t")) evs /\
    fst run = Fulfilled false /\
    forall r', ~ In (Exec nginx_reload_command r') evs.
Proof.
  intros o run.
  destruct (createNginxConfig_no_reload_after_failed_test o example_service
              "example.com" "site-1" initial) as (evs & Hevs & H).
  exists evs. split; [exact Hevs | ].
  assert (Hin : In (Exec nginx_test_command (Rejected "Command failed: sudo nginx -t")) evs).
  { apply (f_equal trace) in Hevs. cbn [extend trace initial List.app] in Hevs.
    rewrite <- Hevs. vm_compute. do 3 right. left. reflexivity. }
  split; [exact Hin | ].
  exact (H _ Hin eq_refl).
Defined.

(** The failure itself is an error thrown by [testNginxConfig]. *)
Lemma testNginxConfig_throws o w :
  validation_fails (execAsync o (trace w) nginx_test_command) = true ->
  exists message, fst (testNginxConfig o w) = Rejected message.
Proof.
  unfold testNginxConfig, try_catch, bind, exec, perform, throw. cbn [fst snd].
  destruct (execAsync o (trace w) nginx_test_command) as [[stdout stderr] | e];
    cbn [validation_fails]; [ | now exists e].
  destruct stderr as [ | c stderr]; [discriminate | ].
  intros ->. now eexists.
Qed.


(** ** Unknown and duplicate domains *)




(** C3, as stated, fails: with an empty target the add route answers 400
    before it looks the domain up. *)
Lemma addDomain_duplicate_counterexample :
  (exists r, collection pending_world !! normalize "example.com" = Some r) /\
  ~ duplicate_error
      (fst (addDomain (example_oracle true true true true) example_service
              (Some "example.com") (Some EmptyString) pending_world)).
Proof.
  split.
  - eexists. vm_compute. reflexivity.
  - intros [existing H]. vm_compute in H. discriminate H.
Qed.

(** C3, amended.  When the query for the normalized domain finds a record
    and both members of the request are non-empty, the add route answers
    409 "Domain already exists" with that record; the collection is
    unchanged and nothing outside was called. *)
Theorem addDomain_duplicate o service D t w existing :
  D <> EmptyString -> t <> EmptyString ->
  found w (normalize D) = Some existing ->
  addDomain o service (Some D) (Some t) w
  = (Fulfilled (json 409 (ErrorBody "Domain already exists" (Some existing))), w).
Proof.
  intros HD Ht H. destruct D as [ | c D]; [congruence | ].
  destruct t as [ | c' t]; [congruence | ].
  unfold addDomain, try_catch, bind, findOne. now rewrite H.
Qed.

Lemma addDomain_duplicate_witness :
  exists existing,
    collection pending_world !! normalize "WWW.Example.com" = Some existing /\
    addDomain (example_oracle true true true true) example_service
      (Some "WWW.Example.com") (Some "site-2") pending_world
    = (Fulfilled (json 409 (ErrorBody "Domain already exists" (Some existing))),
       pending_world).
Proof.
  eexists. split; [vm_compute; reflexivity | ].
  apply (addDomain_duplicate (example_oracle true true true true) example_service
           "WWW.Example.com" "site-2" pending_world); [discriminate | discriminate | ].
  vm_compute. reflexivity.
Defined.

(** A request that lacks a member is refused whatever the collection
    holds. *)
Lemma addDomain_missing_member o service domain siteSlug w :
  Js.truthy domain && Js.truthy siteSlug = false ->
  addDomain o service domain siteSlug w
  = (Fulfilled (json 400 (ErrorBody "Domain and siteSlug are required" None)), w).
Proof.
  intros H. unfold addDomain, try_catch.
  destruct domain as [[ | ? ?] | ]; destruct siteSlug as [[ | ? ?] | ];
    try discriminate H; reflexivity.
Qed.


(** ** The scheduler *)

(** C10.  [start] on a service that is running changes nothing: the tasks,
    the flag and the timers are those before the call. *)
Theorem start_when_running (this : CronService) :
  isRunning this = true -> start this = this.
Proof. intros H. unfold start. now rewrite H. Qed.

Lemma start_when_running_witness :
  isRunning (start new_CronService) = true /\
  start (start new_CronService) = start new_CronService.
Proof.
  split; [reflexivity | ].
  apply (start_when_running (start new_CronService)). reflexivity.
Defined.

Lemma start_is_running this : isRunning (start this) = true.
Proof. unfold start. destruct (isRunning this) eqn:H; [exact H | reflexivity]. Qed.

Lemma start_idempotent this : start (start this) = start this.
Proof. unfold start at 1. now rewrite start_is_running. Qed.

Example start_registers_four :
  getStatus (start new_CronService)
  = {| status_isRunning := true;
       status_tasks := ["pendingCheck"; "sslCheck"; "sslRenewal"; "cleanup"];
       status_taskCount := 4 |}.
Proof. reflexivity. Qed.

(** ** The generated configuration *)

(** Concatenation and [includes]. *)
Lemma app_cons c (a b : string) : String c a ++ b = String c (a ++ b).
Proof. reflexivity. Qed.

Lemma app_empty (b : string) : EmptyString ++ b = b.
Proof. reflexivity. Qed.

Lemma string_app_assoc (a b c : string) : (a ++ b) ++ c = a ++ b ++ c.
Proof.
  induction a as [ | x a IH]; [reflexivity | ].
  now rewrite !app_cons, IH.
Qed.

Lemma after_prefix_app p s : Js.after_prefix p (p ++ s) = Some s.
Proof.
  induction p as [ | c p IH]; [reflexivity | ].
  rewrite app_cons. cbn [Js.after_prefix]. now rewrite Ascii.eqb_refl.
Qed.

Lemma after_prefix_Some p s rest : Js.after_prefix p s = Some rest -> s = p ++ rest.
Proof.
  revert s; induction p as [ | c p IH]; intros s H; cbn [Js.after_prefix] in H.
  - now injection H as ->.
  - destruct s as [ | b s]; [discriminate | ].
    destruct (Ascii.eqb_spec c b) as [-> | ]; [ | discriminate].
    rewrite app_cons. now rewrite (IH _ H).
Qed.

Lemma includes_prefix p b : Js.includes (p ++ b) p = true.
Proof.
  destruct p as [ | c p]; [rewrite app_empty; now destruct b | ].
  rewrite app_cons. cbn [Js.includes].
  rewrite <- app_cons, after_prefix_app. reflexivity.
Qed.

Lemma includes_app a p b : Js.includes (a ++ p ++ b) p = true.
Proof.
  induction a as [ | c a IH].
  - rewrite app_empty. apply includes_prefix.
  - rewrite app_cons. cbn [Js.includes]. rewrite IH.
    now destruct (Js.after_prefix _ _).
Qed.

Lemma unlines_app l1 l2 : unlines (l1 ++ l2) = unlines l1 ++ unlines l2.
Proof.
  induction l1 as [ | x l1 IH]; cbn [unlines List.app]; [reflexivity | ].
  now rewrite IH, !string_app_assoc.
Qed.

Lemma includes_lines ls a part b :
  ls = (a ++ part ++ b)%list -> Js.includes (unlines ls) (unlines part) = true.
Proof. intros ->. rewrite !unlines_app. apply includes_app. Qed.

(** C9, as stated, fails: the text carries the time of its generation,
    so two invocations a second apart differ. *)
Lemma generateNginxConfig_counterexample :
  generateNginxConfig example_service 1758087450044 "example.com" "site-1"
  <> generateNginxConfig example_service 1758087451044 "example.com" "site-1".
Proof.
  intros H.
  apply (f_equal (fun s => String.get 80 s)) in H.
  vm_compute in H. discriminate H.
Qed.

(** C9, amended.  For a fixed domain, slug and service configuration the
    generated text is the same at every invocation except for the time
    printed after "# Generated at: ", and it contains the security
    headers, the proxy rule with its forwarded-host and forwarded-proto
    headers, the static-asset alias, the health-check location and the
    deny rules for dotfiles and for backup extensions. *)
Theorem generateNginxConfig_fixed_but_for_time this domain siteSlug :
  exists pre post,
    (forall now,
       generateNginxConfig this now domain siteSlug
       = pre ++ "# Generated at: " ++ Js.toISOString now ++ post) /\
    (forall now,
       Forall (fun part =>
                 Js.includes (generateNginxConfig this now domain siteSlug) (unlines part)
                 = true)
              (specified_parts this)).
Proof.
  unfold generateNginxConfig.
  set (names := if isApexDomain domain then _ else _).
  exists (("# Auto-generated Nginx config for " ++ domain) ++ nl),
         (nl ++ unlines (skipn 2 (nginxConfigLines this 0 domain names))).
  split; intros now.
  - unfold nginxConfigLines. cbn [unlines skipn]. now rewrite !string_app_assoc.
  - unfold specified_parts.
    repeat apply List.Forall_cons; try apply List.Forall_nil.
    + apply includes_lines with (a := firstn 8 (nginxConfigLines this now domain names))
                                (b := skipn 13 (nginxConfigLines this now domain names)).
      reflexivity.
    + apply includes_lines with (a := firstn 15 (nginxConfigLines this now domain names))
                                (b := skipn 23 (nginxConfigLines this now domain names)).
      reflexivity.
    + apply includes_lines with (a := firstn 37 (nginxConfigLines this now domain names))
                                (b := skipn 39 (nginxConfigLines this now domain names)).
      reflexivity.
    + apply includes_lines with (a := firstn 50 (nginxConfigLines this now domain names))
                                (b := skipn 53 (nginxConfigLines this now domain names)).
      reflexivity.
    + apply includes_lines with (a := firstn 57 (nginxConfigLines this now domain names))
                                (b := skipn 59 (nginxConfigLines this now domain names)).
      reflexivity.
    + apply includes_lines with (a := firstn 64 (nginxConfigLines this now domain names))
                                (b := skipn 66 (nginxConfigLines this now domain names)).
      reflexivity.
Qed.

Example generateNginxConfig_apex :
  Js.includes (generateNginxConfig example_service 0 "example.com" "site-1")
    "server_name example.com www.example.com;" = true
  /\ Js.includes (generateNginxConfig example_service 0 "shop.example.com" "site-1")
       "server_name shop.example.com;" = true.
Proof. split; vm_compute; reflexivity. Qed.

(** ** Batch renewal *)

Section Renewal.

Context (o : Oracle).

(** A push adds the domain to the buckets taken together. *)
Lemma push_skipped_buckets d r : Permutation (buckets (push_skipped d r)) (buckets r ++ [d]).
Proof.
  unfold buckets, push_skipped; cbn [successful skipped failed].
  solve_Permutation.
Qed.

Lemma push_successful_buckets d r :
  Permutation (buckets (push_successful d r)) (buckets r ++ [d]).
Proof.
  unfold buckets, push_successful; cbn [successful skipped failed].
  solve_Permutation.
Qed.

Lemma push_failed_buckets d r : Permutation (buckets (push_failed d r)) (buckets r ++ [d]).
Proof.
  unfold buckets, push_failed; cbn [successful skipped failed].
  solve_Permutation.
Qed.

(** One turn of the loop runs [certbot renew] for the domain and puts the
    domain into one bucket, whatever the outcome. *)
Lemma renew_one_spec d res w :
  exists r res',
    renew_one o d (res, w) = (Fulfilled tt, (res', extend [Exec (renew_command d) r] w)) /\
    Permutation (buckets res') (buckets res ++ [d]).
Proof.
  unfold renew_one, try_catch, bind, lift, exec, perform, assign.
  cbn [fst snd]. rewrite record_event_extend.
  destruct (execAsync o (trace w) (renew_command d)) as [[stdout stderr] | e].
  - destruct (Js.includes stdout "not yet due for renewal");
      [ | destruct (Js.includes stdout "Successfully deployed certificate")];
      eexists; eexists; (split; [reflexivity | ]); cbn [fst];
      auto using push_skipped_buckets, push_successful_buckets, push_failed_buckets.
  - eexists; eexists; (split; [reflexivity | ]); cbn [fst].
    apply push_failed_buckets.
Qed.

Lemma renew_loop_spec domains : forall res w,
  exists res' evs,
    for_of domains (renew_one o) (res, w) = (Fulfilled tt, (res', extend evs w)) /\
    List.map command_of evs = List.map (fun d => Some (renew_command d)) domains /\
    Permutation (buckets res') (buckets res ++ domains).
Proof.
  induction domains as [ | d domains IH]; intros res w.
  - exists res, []. rewrite extend_nil, app_nil_r. now repeat split.
  - cbn [for_of]. unfold bind at 1.
    destruct (renew_one_spec d res w) as (r & res1 & -> & Hperm1).
    destruct (IH res1 (extend [Exec (renew_command d) r] w)) as (res' & evs & -> & Hc & Hperm).
    exists res', (Exec (renew_command d) r :: evs).
    rewrite extend_extend. split; [reflexivity | ]. split.
    + cbn [List.map command_of]. now rewrite Hc.
    + rewrite Hperm, Hperm1, <- app_assoc. reflexivity.
Qed.

(** The whole loop: it returns, it has run one renewal for each domain,
    and its buckets hold the domains it was given. *)
Lemma renewSSLCertificates_run domains w :
  exists results evs,
    renewSSLCertificates o domains w = (Fulfilled results, extend evs w) /\
    List.map command_of evs = List.map (fun d => Some (renew_command d)) domains /\
    Permutation (buckets results) domains.
Proof.
  unfold renewSSLCertificates, bind, with_local.
  destruct (renew_loop_spec domains {| successful := []; failed := []; skipped := [] |} w)
    as (res & evs & -> & Hc & Hperm).
  exists res, evs. cbn [ret]. repeat split; [exact Hc | exact Hperm].
Qed.

(** C6.  For every list of domains [renewSSLCertificates] returns; it has
    run [certbot renew] once for each domain of the list, in order,
    whatever the earlier runs gave; the three buckets together are a
    permutation of the list, so that each domain is reported in the
    buckets exactly as often as it was given: once, in one bucket, for a
    domain given once. *)
Theorem renewSSLCertificates_partitions domains w :
  exists results evs,
    renewSSLCertificates o domains w = (Fulfilled results, extend evs w) /\
    List.map command_of evs = List.map (fun d => Some (renew_command d)) domains /\
    Permutation (successful results ++ skipped results ++ failed results) domains /\
    forall d,
      (count_occ string_dec (successful results) d
       + count_occ string_dec (skipped results) d
       + count_occ string_dec (failed results) d)%nat
      = count_occ string_dec domains d.
Proof.
  destruct (renewSSLCertificates_run domains w) as (res & evs & Heq & Hc & Hperm).
  exists res, evs. repeat split; [exact Heq | exact Hc | exact Hperm | ].
  intros d. rewrite <- (proj1 (Permutation_count_occ string_dec _ _) Hperm d).
  unfold buckets. rewrite !count_occ_app. lia.
Qed.

(** Given distinct domains, no domain is in two buckets or twice in one. *)
Corollary renewSSLCertificates_distinct domains w results w' :
  NoDup domains ->
  renewSSLCertificates o domains w = (Fulfilled results, w') ->
  NoDup (successful results ++ skipped results ++ failed results).
Proof.
  intros Hnd Hrun.
  destruct (renewSSLCertificates_run domains w) as (res & evs & Heq & _ & Hperm).
  rewrite Heq in Hrun. injection Hrun as -> _.
  unfold buckets in Hperm. now rewrite Hperm.
Qed.

End Renewal.

Example renewSSLCertificates_buckets :
  fst (renewSSLCertificates
         {| dns_resolve4 := fun _ _ => Rejected "unused";
            fs_writeFile := fun _ _ _ => Fulfilled tt;
            fs_unlink := fun _ _ => Fulfilled tt;
            fs_symlink := fun _ _ _ => Fulfilled tt;
            fs_access := fun _ _ => Fulfilled tt;
            execAsync := fun _ command =>
              if String.eqb command (renew_command "a.com")
              then Rejected "Command failed"
              else if String.eqb command (renew_command "b.com")
                   then Fulfilled ("Certificate not yet due for renewal", EmptyString)
                   else Fulfilled ("Successfully deployed certificate", EmptyString);
            Date_now := fun _ => 0;
            Date_parse := fun _ => Js.Time 0 |}
         ["a.com"; "b.com"; "c.com"] initial)
  = Fulfilled {| successful := ["c.com"]; failed := ["a.com"]; skipped := ["b.com"] |}.
Proof. vm_compute. reflexivity. Qed.


(** ** What each operation does to the collection *)

(** No stored document passes the filter of [findPendingDomains]: the
    filter compares a field that no stored document has. *)
Lemma pending_filter_none d : pending_filter d = false.
Proof. unfold pending_filter, Js.lt, Domain.stored_retryCount. apply andb_false_r. Qed.

Lemma filter_none {A} (f : A -> bool) (l : list A) :
  (forall x, f x = false) -> List.filter f l = [].
Proof.
  intros H. induction l as [ | a l IH]; [reflexivity | ].
  cbn [List.filter]. now rewrite H.
Qed.

Lemma findPendingDomains_none w : findPendingDomains w = (Fulfilled [], w).
Proof.
  unfold findPendingDomains. now rewrite (filter_none _ _ pending_filter_none).
Qed.

Section Effects.

Context (o : Oracle) (service : DomainService).

(** The scheduled check of the pending domains finds none and does
    nothing. *)
Lemma checkPendingDomains_nothing w : checkPendingDomains o service w = (Fulfilled tt, w).
Proof.
  unfold checkPendingDomains, try_catch, bind. now rewrite findPendingDomains_none.
Qed.

(** [setup] always returns, writes nothing to the collection and leaves
    the paths of the document variable in one of four shapes. *)
Lemma setup_spec name slug this w :
  exists x evs,
    setup o service name slug (this, w) = (Fulfilled tt, (x, extend evs w)) /\
    setup_outcome (Domain.paths this) (Domain.paths x).
Proof.
  unfold setup, bind, lift, assign. cbn [fst snd].
  destruct (createNginxConfig_returns o service name slug w) as ([ | ] & e1 & ->);
    cbn [fst snd].
  - destruct (issueSSLCertificate_returns o service name (extend e1 w)) as ([ | ] & e2 & ->);
      cbn [fst snd].
    + destruct (getCertificateExpiry_returns o name (extend e2 (extend e1 w)))
        as ([[e | ] | ] & e3 & ->); cbn [fst snd]; rewrite !extend_extend;
        eexists; eexists; (split; [reflexivity | ]); constructor.
    + rewrite !extend_extend. eexists; eexists; (split; [reflexivity | ]); constructor.
  - eexists; eexists; (split; [reflexivity | ]); constructor.
Qed.

(** [save] on a loaded document: refused when a value could not be cast,
    written back when its key is stored, refused when the stored document
    is gone. *)
Lemma save_cast_error isNew this w e :
  Domain.castError this = Some e -> save o isNew this w = (Rejected e, w).
Proof.
  intros H. unfold save, bind, new_Date, get_state. now rewrite H.
Qed.

Lemma save_update_found this w :
  Domain.castError this = None ->
  is_Some (collection w !! Domain.domain (Domain.paths this)) ->
  save o false this w
  = (Fulfilled (Domain.set_updatedAt (Date_now o (trace w)) (Domain.paths this)),
     set_collection
       (<[Domain.domain (Domain.paths this)
          := Domain.set_updatedAt (Date_now o (trace w)) (Domain.paths this)]> (collection w))
       w).
Proof.
  intros Hcast [old H]. unfold save, bind, new_Date, get_state, modify.
  cbn [Domain.domain Domain.set_updatedAt].
  rewrite Hcast, H. reflexivity.
Qed.

Lemma save_update_missing this w :
  collection w !! Domain.domain (Domain.paths this) = None ->
  exists e, save o false this w = (Rejected e, w).
Proof.
  intros H. unfold save, bind, new_Date, get_state, modify.
  cbn [Domain.domain Domain.set_updatedAt].
  rewrite H. destruct (Domain.castError this); eexists; reflexivity.
Qed.

(** [save] on a loaded document writes it back under its key, or rejects
    and writes nothing. *)
Lemma save_update_spec this w :
  (exists e, save o false this w = (Rejected e, w))
  \/ save o false this w
     = (Fulfilled (Domain.set_updatedAt (Date_now o (trace w)) (Domain.paths this)),
        set_collection
          (<[Domain.domain (Domain.paths this)
             := Domain.set_updatedAt (Date_now o (trace w)) (Domain.paths this)]>
             (collection w))
          w).
Proof.
  destruct (Domain.castError this) as [e | ] eqn:Hcast.
  - left. exists e. now apply save_cast_error.
  - destruct (collection w !! Domain.domain (Domain.paths this)) as [old | ] eqn:Hk.
    + right. apply save_update_found; [exact Hcast | rewrite Hk; eauto].
    + left. now apply save_update_missing.
Qed.

Lemma save_local_rejected this w e :
  save o false this w = (Rejected e, w) ->
  save_local o (this, w) = (Rejected e, (this, w)).
Proof.
  intros H. unfold save_local, bind, local, lift, assign. cbn [fst snd].
  rewrite H. reflexivity.
Qed.

Lemma save_local_fulfilled this w d' w' :
  save o false this w = (Fulfilled d', w') ->
  save_local o (this, w) = (Fulfilled tt, (Domain.set (fun _ => d') this, w')).
Proof.
  intros H. unfold save_local, bind, local, lift, assign. cbn [fst snd].
  rewrite H. reflexivity.
Qed.

(** What is on the object and not a path does not matter to [save]. *)
Lemma save_set_errorMessage isNew v this w :
  save o isNew (Domain.set_errorMessage v this) w = save o isNew this w.
Proof. reflexivity. Qed.

Lemma setup_outcome_domain d x : setup_outcome d x -> Domain.domain x = Domain.domain d.
Proof. now intros []. Qed.

(** The block [try { setup; save } catch { errorMessage; save }] of the add
    and verify routes: the document is written back as [setup] left it, or
    both calls of [save] reject and nothing is written. *)
Lemma setup_then_save name slug this w :
  exists result,
    try_catch (bind (setup o service name slug) (fun _ => save_local o))
      (fun error =>
         bind (assign (Domain.set_errorMessage (Some error))) (fun _ => save_local o))
      (this, w) = result /\
    ((exists l x evs t,
         result
         = (Fulfilled tt,
            (l,
             set_collection
               (<[Domain.domain (Domain.paths this) := Domain.set_updatedAt t x]> (collection w))
               (extend evs w)))
         /\ Domain.paths l = Domain.set_updatedAt t x
         /\ setup_outcome (Domain.paths this) x)
     \/ (exists e l evs, result = (Rejected e, (l, extend evs w)))).
Proof.
  unfold try_catch, bind at 1.
  destruct (setup_spec name slug this w) as (x & evs & -> & Hx). cbv beta iota.
  pose proof (setup_outcome_domain _ _ Hx) as Hdom.
  destruct (save_update_spec x (extend evs w)) as [[e He] | Hsaved].
  - rewrite (save_local_rejected _ _ _ He).
    unfold bind, assign. cbn [fst snd].
    rewrite (save_local_rejected (Domain.set_errorMessage (Some e) x) _ e)
      by (rewrite save_set_errorMessage; exact He).
    eexists. split; [reflexivity | right]. do 3 eexists. reflexivity.
  - rewrite (save_local_fulfilled _ _ _ _ Hsaved).
    eexists. split; [reflexivity | left].
    exists (Domain.set
              (fun _ => Domain.set_updatedAt (Date_now o (trace (extend evs w))) (Domain.paths x))
              x),
      (Domain.paths x), evs, (Date_now o (trace (extend evs w))).
    rewrite Hdom. split; [reflexivity | split; [reflexivity | exact Hx]].
Qed.

(** Steps of a block on a document variable. *)
Lemma bind_assign {L A} (f : L -> L) (k : unit -> Prog (L * World) A) l w :
  bind (assign f) k (l, w) = k tt (f l, w).
Proof. reflexivity. Qed.

Lemma bind_local {L A} (k : L -> Prog (L * World) A) l w :
  bind local k (l, w) = k l (l, w).
Proof. reflexivity. Qed.

(** The statements of the verify route on the document it found. *)
Lemma verify_block_spec name b now d w :
  exists result,
    with_local (Domain.load d)
      (bind (assign (Domain.set (Domain.set_dnsVerified b))) (fun _ =>
       bind (assign (Domain.set (Domain.set_lastChecked now))) (fun _ =>
       bind local (fun current =>
         if b && negb (Domain.connected (Domain.paths current)) then
           try_catch
             (bind (setup o service name (Domain.siteSlug (Domain.paths current)))
                (fun _ => save_local o))
             (fun error =>
                bind (assign (Domain.set_errorMessage (Some error)))
                     (fun _ => save_local o))
         else save_local o)))) w = result /\
    ((exists l d' evs,
         result
         = (Fulfilled (tt, l),
            set_collection (<[Domain.domain d := d']> (collection w)) (extend evs w))
         /\ Domain.paths l = d'
         /\ verified d d')
     \/ (exists e evs, result = (Rejected e, extend evs w))).
Proof.
  unfold with_local. rewrite !bind_assign, bind_local.
  cbn [Domain.connected Domain.set_lastChecked Domain.set_dnsVerified Domain.siteSlug
       Domain.paths Domain.set Domain.load].
  set (d0 := Domain.set_lastChecked now (Domain.set_dnsVerified b d)).
  set (this := Domain.set _ (Domain.set _ (Domain.load d))).
  destruct (b && negb (Domain.connected d)) eqn:Hb.
  - apply andb_prop in Hb as [-> Hc]. apply negb_true_iff in Hc.
    destruct (setup_then_save name (Domain.siteSlug d) this w) as (res & -> & H).
    destruct H as [(l & x & evs & t & -> & Hl & Hx) | (e & l & evs & ->)].
    + eexists. split; [reflexivity | left]. exists l, (Domain.set_updatedAt t x), evs.
      split; [reflexivity | split; [exact Hl | ]].
      now apply verified_setup with (t := now).
    + eexists. split; [reflexivity | right]. do 2 eexists. reflexivity.
  - destruct (save_update_spec this w) as [[e He] | Hsaved].
    + rewrite (save_local_rejected _ _ _ He).
      eexists. split; [reflexivity | right]. exists e, [].
      now rewrite extend_nil.
    + rewrite (save_local_fulfilled _ _ _ _ Hsaved).
      eexists. split; [reflexivity | left].
      exists (Domain.set (fun _ => Domain.set_updatedAt (Date_now o (trace w)) d0) this),
        (Domain.set_updatedAt (Date_now o (trace w)) d0), [].
      rewrite extend_nil. split; [reflexivity | split; [reflexivity | ]].
      apply verified_only. apply andb_false_iff in Hb as [Hb | Hb]; [now left | right].
      now apply negb_false_iff in Hb.
Qed.

(** Each route answers, and changes the collection in one way at most. *)
Lemma verifyDomain_spec D w :
  exists response w',
    verifyDomain o service D w = (Fulfilled response, w') /\
    (collection w' = collection w
     \/ exists d d',
          found w (normalize D) = Some d /\
          collection w' = <[Domain.domain d := d']> (collection w) /\
          verified d d').
Proof.
  unfold verifyDomain, try_catch at 1, bind at 1, findOne. cbv beta iota.
  destruct (found w (normalize D)) as [d | ] eqn:Hd.
  2: { do 2 eexists. split; [reflexivity | now left]. }
  unfold bind at 1.
  destruct (verifyDNS_returns o service (normalize D) w) as (b & e1 & ->). cbv beta iota.
  unfold bind at 1, new_Date at 1. cbv beta iota.
  unfold bind at 1.
  destruct (verify_block_spec (normalize D) b (Date_now o (trace (extend e1 w))) d (extend e1 w))
    as (res & -> & H).
  destruct H as [(l & d' & evs & -> & Hl & Hv) | (e & evs & ->)]; cbv beta iota.
  - do 2 eexists. split; [reflexivity | right].
    exists d, d'. split; [reflexivity | split; [reflexivity | exact Hv]].
  - do 2 eexists. split; [reflexivity | left]. reflexivity.
Qed.

(** [save] on a new document: inserted when it is valid and its key is
    free. *)
Lemma save_new_spec d w :
  let d' := Domain.set_updatedAt (Date_now o (trace w)) d in
  exists result,
    save o true (Domain.load d) w = result /\
    match Domain.validate_paths (Domain.domain d) (Domain.siteSlug d),
          collection w !! Domain.domain d with
    | None, None =>
        result = (Fulfilled d', set_collection (<[Domain.domain d := d']> (collection w)) w)
    | _, _ => exists e, result = (Rejected e, w)
    end.
Proof.
  intros d'. unfold save, bind, new_Date, get_state, modify, Domain.validation_error.
  cbn [Domain.domain Domain.siteSlug Domain.set_updatedAt Domain.castError Domain.load
       Domain.paths].
  destruct (Domain.validate_paths _ _) as [e | ].
  - eexists. split; [reflexivity | ]. now exists e.
  - destruct (collection w !! Domain.domain d).
    + eexists. split; [reflexivity | ]. now eexists.
    + eexists. split; [reflexivity | ]. reflexivity.
Qed.

(** The add route answers.  It stores nothing when the request is refused;
    otherwise it stores one record under the cast normalized name, and
    answers 200 with that record, or 500 when the record could not be
    written back after the setup. *)
Lemma addDomain_spec domain siteSlug w :
  exists response w',
    addDomain o service domain siteSlug w = (Fulfilled response, w') /\
    ((collection w' = collection w /\ add_refused domain siteSlug w)
     \/ exists D t d',
          domain = Some D /\ siteSlug = Some t /\
          Domain.domain d' = Domain.cast_domain (normalize D) /\
          Domain.siteSlug d' = Js.trim t /\
          found w (normalize D) = None /\
          Domain.validate_paths (Domain.cast_domain (normalize D)) (Js.trim t) = None /\
          collection w' = <[Domain.domain d' := d']> (collection w) /\
          created d' /\
          ((exists message, response = json 200 (AddedBody d' message))
           \/ (exists e, response = json 500 (ErrorBody e None)))).
Proof.
  destruct (Js.truthy domain && Js.truthy siteSlug) eqn:Htruthy.
  2: { rewrite (addDomain_missing_member o service domain siteSlug w Htruthy).
       do 2 eexists. split; [reflexivity | left]. split; [reflexivity | now left]. }
  destruct domain as [[ | c D] | ]; try discriminate Htruthy.
  destruct siteSlug as [[ | c' t] | ]; try discriminate Htruthy.
  unfold addDomain, try_catch at 1. cbv beta iota.
  set (D' := String c D). set (t' := String c' t).
  unfold bind at 1, findOne. cbv beta iota.
  destruct (found w (normalize D')) as [existing | ] eqn:Hfound.
  { do 2 eexists. split; [reflexivity | left]. split; [reflexivity | right].
    exists D', t'. split; [reflexivity | split; [reflexivity | left]]. rewrite Hfound; eauto. }
  unfold bind at 1.
  destruct (verifyDNS_returns o service (normalize D') w) as (b & e1 & ->). cbv beta iota.
  unfold bind at 1, new_Date at 1. cbv beta iota.
  set (now := Date_now o (trace (extend e1 w))).
  set (d0 := Domain.new (normalize D') t' b b now now).
  unfold bind at 1.
  destruct (save_new_spec d0 (extend e1 w)) as (res & -> & Hsave).
  cbn [Domain.domain Domain.siteSlug d0 Domain.new collection extend] in Hsave.
  destruct (Domain.validate_paths _ _) as [e | ] eqn:Hvalid.
  { destruct Hsave as [e' ->].
    do 2 eexists. split; [reflexivity | left]. split; [reflexivity | right].
    exists D', t'. split; [reflexivity | split; [reflexivity | right]].
    rewrite Hvalid. discriminate. }
  unfold found in Hfound. rewrite Hfound in Hsave.
  rewrite Hsave. cbv beta iota. fold now.
  set (d1 := Domain.set_updatedAt now d0).
  destruct b.
  - unfold bind at 1, bind at 1, with_local.
    set (w1 := set_collection _ _).
    destruct (setup_then_save (normalize D') t' (Domain.load d1) w1) as (res1 & -> & H).
    destruct H as [(l & x & evs & t2 & -> & Hl & Hx) | (e & l & evs & ->)].
    + cbv beta iota. do 2 eexists. split; [reflexivity | right].
      exists D', t', (Domain.set_updatedAt t2 x).
      cbn [Domain.paths Domain.load] in Hx.
      cbn [collection set_collection extend Domain.domain Domain.siteSlug Domain.set_updatedAt
           w1 Domain.paths Domain.load].
      assert (Hslug : Domain.siteSlug x = Js.trim t') by (now destruct Hx).
      rewrite (setup_outcome_domain _ _ Hx), Hslug.
      cbn [Domain.domain d1 d0 Domain.set_updatedAt Domain.new].
      rewrite insert_insert_eq.
      repeat (split; [reflexivity || exact Hfound || exact Hvalid | ]).
      split; [ | left; rewrite Hl; now eexists].
      now apply created_verified with (name := normalize D') (slug := t') (t := now) (t1 := now).
    + cbv beta iota. do 2 eexists. split; [reflexivity | right].
      exists D', t', d1.
      cbn [collection set_collection extend Domain.domain Domain.siteSlug Domain.set_updatedAt
           w1 d1 d0 Domain.new].
      repeat (split; [reflexivity || exact Hfound || exact Hvalid | ]).
      split; [ | right; now eexists].
      exact (created_verified (normalize D') t' now now _ now (proxy_failed _)).
  - unfold bind at 1, ret at 1. cbv beta iota.
    do 2 eexists. split; [reflexivity | right].
    exists D', t', d1.
    cbn [collection set_collection extend Domain.domain Domain.siteSlug Domain.set_updatedAt
         d1 d0 Domain.new].
    repeat (split; [reflexivity || exact Hfound || exact Hvalid | ]).
    split; [ | left; now eexists].
    apply created_pending.
Qed.

Lemma removeDomain_spec D w :
  exists response w',
    removeDomain o service D w = (Fulfilled response, w') /\
    (collection w' = collection w
     \/ collection w' = delete (Domain.cast_domain (normalize D)) (collection w)).
Proof.
  unfold removeDomain, try_catch, bind at 1, findOne. cbv beta iota.
  destruct (found w (normalize D)) as [d | ].
  - unfold bind at 1.
    destruct (removeDomainConfig_returns o service (normalize D) w) as (b & evs & ->).
    cbv beta iota. do 2 eexists. split; [reflexivity | right]. reflexivity.
  - do 2 eexists. split; [reflexivity | left]. reflexivity.
Qed.

Lemma renewCertificate_spec D w :
  exists response w',
    renewCertificate o D w = (Fulfilled response, w') /\
    (collection w' = collection w
     \/ exists d d',
          found w (normalize D) = Some d /\
          collection w' = <[Domain.domain d := d']> (collection w) /\
          renewed d d').
Proof.
  unfold renewCertificate, try_catch, bind at 1, findOne. cbv beta iota.
  destruct (found w (normalize D)) as [d | ] eqn:Hd.
  2: { do 2 eexists. split; [reflexivity | left]. reflexivity. }
  unfold bind at 1.
  destruct (renewSSLCertificates_run o [normalize D] w) as (res & evs & -> & _).
  cbv beta iota.
  destruct (existsb (String.eqb (normalize D)) (successful res)).
  2: { do 2 eexists. split; [reflexivity | left]. reflexivity. }
  unfold bind at 1.
  destruct (getCertificateExpiry_returns o (normalize D) (extend evs w)) as (expiry & e2 & ->).
  cbv beta iota. destruct expiry as [e | ].
  2: { do 2 eexists. split; [reflexivity | left]. reflexivity. }
  unfold bind at 1 2. set (w2 := extend e2 (extend evs w)).
  destruct (save_update_spec (Domain.assign_sslExpiry e (Domain.load d)) w2)
    as [[msg Hrej] | Hsaved].
  - rewrite Hrej. cbv beta iota.
    do 2 eexists. split; [reflexivity | left]. reflexivity.
  - rewrite Hsaved. cbv beta iota.
    destruct e as [t | ].
    + do 2 eexists. split; [reflexivity | right].
      exists d, (Domain.set_updatedAt (Date_now o (trace w2)) (Domain.set_sslExpiry (Some t) d)).
      split; [reflexivity | split; [reflexivity | constructor]].
    + exfalso.
      rewrite (save_cast_error false (Domain.assign_sslExpiry Js.InvalidDate (Domain.load d))
                 w2 Domain.cast_message eq_refl) in Hsaved.
      discriminate Hsaved.
Qed.

Lemma getDomain_spec D w :
  exists response evs,
    getDomain o service D w = (Fulfilled response, extend evs w) /\
    match found w (normalize D) with
    | Some d => exists status, response = json 200 (DetailsBody d status)
    | None => response = not_found
    end.
Proof.
  unfold getDomain, try_catch, bind at 1, findOne. cbv beta iota.
  destruct (found w (normalize D)) as [d | ].
  - unfold bind at 1.
    destruct (getDomainStatus_returns o service (normalize D) w) as (st & evs & ->).
    cbv beta iota. exists (json 200 (DetailsBody d st)), evs. split; [reflexivity | now exists st].
  - exists not_found, []. now rewrite extend_nil.
Qed.

End Effects.


(** ** Normalized and valid names *)

Ltac each_char c := destruct c as [[] [] [] [] [] [] [] []]; vm_compute; congruence.

(** Facts about characters, by cases on the eight bits. *)
Lemma lower_char_idem c : Js.lower_char (Js.lower_char c) = Js.lower_char c.
Proof. each_char c. Qed.

Lemma label_char_not_space c : Domain.label_char c = true -> Js.is_space c = false.
Proof. each_char c. Qed.

Lemma letter_not_space c : Js.is_letter c = true -> Js.is_space c = false.
Proof. each_char c. Qed.

Lemma slug_char_not_space c : Domain.slug_char c = true -> Js.is_space c = false.
Proof. each_char c. Qed.

Lemma alnum_label_char c : Js.is_alnum c = true -> Domain.label_char c = true.
Proof. unfold Domain.label_char. now intros ->. Qed.

Lemma letter_label_char c : Js.is_letter c = true -> Domain.label_char c = true.
Proof. unfold Domain.label_char, Js.is_alnum. now intros ->. Qed.

(** A normalized name is in lower case already. *)
Lemma toLowerCase_idem s : Js.toLowerCase (Js.toLowerCase s) = Js.toLowerCase s.
Proof.
  induction s as [ | c s IH]; cbn [Js.toLowerCase]; [reflexivity | ].
  now rewrite lower_char_idem, IH.
Qed.

Lemma toLowerCase_suffix p s rest :
  Js.after_prefix p s = Some rest -> Js.toLowerCase s = s -> Js.toLowerCase rest = rest.
Proof.
  revert s; induction p as [ | a p IH]; intros s H Hs; cbn [Js.after_prefix] in H.
  - now injection H as <-.
  - destruct s as [ | b s]; [discriminate | ].
    destruct (Ascii.eqb a b); [ | discriminate].
    cbn [Js.toLowerCase] in Hs. injection Hs as _ Hs. now apply (IH s).
Qed.

Lemma normalize_lower D : Js.toLowerCase (normalize D) = normalize D.
Proof.
  unfold normalize, Js.replace_www.
  destruct (Js.after_prefix "www." (Js.toLowerCase D)) as [rest | ] eqn:H.
  - apply (toLowerCase_suffix _ _ _ H), toLowerCase_idem.
  - apply toLowerCase_idem.
Qed.

(** A string without white space is its own [trim]. *)
Lemma all_chars_impl (p q : ascii -> bool) s :
  (forall c, p c = true -> q c = true) ->
  Js.all_chars p s = true -> Js.all_chars q s = true.
Proof.
  intros Hpq. induction s as [ | c s IH]; cbn [Js.all_chars]; [reflexivity | ].
  intros [Hc Hs]%andb_prop. now rewrite (Hpq c Hc), IH.
Qed.

Lemma trimStart_first s :
  Js.all_chars (fun c => negb (Js.is_space c)) s = true -> Js.trimStart s = s.
Proof.
  destruct s as [ | c s]; cbn [Js.all_chars Js.trimStart]; [reflexivity | ].
  intros [Hc _]%andb_prop. apply negb_true_iff in Hc. now rewrite Hc.
Qed.

Lemma trimEnd_last s :
  Js.all_chars (fun c => negb (Js.is_space c)) s = true -> Js.trimEnd s = s.
Proof.
  induction s as [ | c s IH]; cbn [Js.all_chars Js.trimEnd]; [reflexivity | ].
  intros [Hc Hs]%andb_prop. apply negb_true_iff in Hc. rewrite (IH Hs), Hc.
  now destruct s.
Qed.

Lemma trim_no_space s :
  Js.all_chars (fun c => negb (Js.is_space c)) s = true -> Js.trim s = s.
Proof. intros H. unfold Js.trim. now rewrite (trimStart_first s H), (trimEnd_last s H). Qed.

(** A string all of whose parts between separators satisfy [p] satisfies
    [p] throughout, when the separator does. *)
Lemma split_all_chars (p : ascii -> bool) sep s :
  p sep = true ->
  Forall (fun x => Js.all_chars p x = true) (Js.split sep s) ->
  Js.all_chars p s = true.
Proof.
  intros Hsep. induction s as [ | c s IH]; cbn [Js.split Js.all_chars]; [reflexivity | ].
  destruct (Ascii.eqb_spec c sep) as [-> | Hne].
  - intros H. inversion H; subst. now rewrite Hsep, IH.
  - destruct (Js.split sep s) as [ | h t] eqn:Hsplit.
    + intros H. inversion H as [ | ? ? Hc _]; subst. cbn [Js.all_chars] in Hc.
      apply andb_prop in Hc as [-> _]. rewrite IH; [reflexivity | constructor].
    + intros H. inversion H as [ | ? ? Hc Ht]; subst. cbn [Js.all_chars] in Hc.
      apply andb_prop in Hc as [-> Hh]. rewrite IH; [reflexivity | now constructor].
Qed.

(** What the validators accept has no white space. *)
Lemma valid_label_chars l : Domain.valid_label l = true -> Js.all_chars Domain.label_char l = true.
Proof.
  destruct l as [ | c r]; [discriminate | ]. unfold Domain.valid_label.
  intros [[[Hc Hr]%andb_prop _]%andb_prop _]%andb_prop.
  cbn [Js.all_chars]. now rewrite (alnum_label_char c Hc), Hr.
Qed.

Lemma letters2_chars l : Domain.letters2 l = true -> Js.all_chars Domain.label_char l = true.
Proof.
  unfold Domain.letters2. intros [H _]%andb_prop.
  revert H. apply all_chars_impl, letter_label_char.
Qed.

Lemma validate_domain_chars v :
  Domain.validate_domain v = true ->
  Js.all_chars (fun c => Domain.label_char c || Ascii.eqb c ".") v = true.
Proof.
  intros H. apply (split_all_chars _ "."); [reflexivity | ].
  assert (Hweak : forall x, Js.all_chars Domain.label_char x = true ->
                            Js.all_chars (fun c => Domain.label_char c || Ascii.eqb c ".") x = true).
  { intros x. apply all_chars_impl. now intros c ->. }
  unfold Domain.validate_domain in H.
  destruct (Js.split "." v) as [ | l [ | x [ | y [ | ? ?]]]]; try discriminate H.
  - apply andb_prop in H as [Hl Hx].
    repeat constructor; auto using valid_label_chars, letters2_chars.
  - apply andb_prop in H as [[Hl Hx]%andb_prop Hy].
    repeat constructor; auto using valid_label_chars, letters2_chars.
Qed.

Lemma dot_or_label_not_space c :
  Domain.label_char c || Ascii.eqb c "." = true -> Js.is_space c = false.
Proof. each_char c. Qed.

Lemma validate_domain_trim v : Domain.validate_domain v = true -> Js.trim v = v.
Proof.
  intros H. apply trim_no_space. apply validate_domain_chars in H.
  revert H. apply all_chars_impl. intros c Hc. now rewrite (dot_or_label_not_space c Hc).
Qed.

Lemma validate_siteSlug_trim t : Domain.validate_siteSlug t = true -> Js.trim t = t.
Proof.
  intros H. apply trim_no_space.
  assert (Hc : Js.all_chars Domain.slug_char t = true) by (now destruct t).
  revert Hc. apply all_chars_impl. intros c Hc. now rewrite (slug_char_not_space c Hc).
Qed.

Lemma validate_paths_accepts v t :
  Domain.validate_domain v = true -> Domain.validate_siteSlug t = true ->
  Domain.validate_paths v t = None.
Proof.
  intros Hv Ht. unfold Domain.validate_paths, Domain.domain_errors, Domain.siteSlug_errors.
  rewrite Hv, Ht.
  destruct v; [discriminate Hv | ]. destruct t; [discriminate Ht | ]. reflexivity.
Qed.

Lemma validate_paths_None v t :
  Domain.validate_paths v t = None ->
  Domain.validate_domain v = true /\ Domain.validate_siteSlug t = true.
Proof.
  unfold Domain.validate_paths, Domain.domain_errors, Domain.siteSlug_errors.
  destruct v as [ | c v]; [discriminate | ].
  destruct (Domain.validate_domain (String c v)); [ | discriminate].
  destruct t as [ | c' t]; [discriminate | ].
  destruct (Domain.validate_siteSlug (String c' t)); [ | discriminate].
  now split.
Qed.

(** The setters of [domain] leave a normalized name that the validator
    accepts as it is, and applying them twice is applying them once. *)
Lemma cast_domain_valid v :
  Domain.validate_domain v = true -> Js.toLowerCase v = v -> Domain.cast_domain v = v.
Proof.
  intros Hv Hl. unfold Domain.cast_domain. rewrite Hl. now apply validate_domain_trim.
Qed.

Lemma is_space_lower c : Js.is_space (Js.lower_char c) = Js.is_space c.
Proof. each_char c. Qed.

Lemma toLowerCase_trimStart s : Js.toLowerCase (Js.trimStart s) = Js.trimStart (Js.toLowerCase s).
Proof.
  induction s as [ | c s IH]; cbn [Js.trimStart Js.toLowerCase]; [reflexivity | ].
  rewrite is_space_lower. now destruct (Js.is_space c).
Qed.

Lemma toLowerCase_trimEnd s : Js.toLowerCase (Js.trimEnd s) = Js.trimEnd (Js.toLowerCase s).
Proof.
  induction s as [ | c s IH]; cbn [Js.trimEnd Js.toLowerCase]; [reflexivity | ].
  rewrite <- IH, is_space_lower.
  destruct (Js.trimEnd s) as [ | a r]; cbn [Js.toLowerCase]; [ | reflexivity].
  now destruct (Js.is_space c).
Qed.

Lemma toLowerCase_trim s : Js.toLowerCase (Js.trim s) = Js.trim (Js.toLowerCase s).
Proof. unfold Js.trim. now rewrite toLowerCase_trimEnd, toLowerCase_trimStart. Qed.

Lemma cast_domain_lower v : Js.toLowerCase (Domain.cast_domain v) = Domain.cast_domain v.
Proof. unfold Domain.cast_domain. now rewrite toLowerCase_trim, toLowerCase_idem. Qed.

(** A name as the setters left it, and that validation accepts, is what
    the setters make of it. *)
Lemma cast_domain_stored v t :
  Domain.validate_paths (Domain.cast_domain v) t = None ->
  Domain.cast_domain (Domain.cast_domain v) = Domain.cast_domain v.
Proof.
  intros [Hv _]%validate_paths_None.
  apply cast_domain_valid; [exact Hv | apply cast_domain_lower].
Qed.

(** A normalized name that the validator accepts is the key of its
    record. *)
Lemma found_valid w D :
  Domain.validate_domain (normalize D) = true ->
  found w (normalize D) = collection w !! normalize D.
Proof.
  intros H. unfold found. now rewrite (cast_domain_valid _ H (normalize_lower D)).
Qed.

(** ** Adding, then reading *)

Section AddThenGet.

Context (o : Oracle) (service : DomainService).

(** The add route on what the schema accepts: it stores a record under
    the normalized name, and answers 200 with the record, or 500. *)
Lemma addDomain_accepts D t w :
  Domain.validate_domain (normalize D) = true ->
  Domain.validate_siteSlug t = true ->
  collection w !! normalize D = None ->
  exists response d' w1,
    addDomain o service (Some D) (Some t) w = (Fulfilled response, w1)
    /\ ((exists message, response = json 200 (AddedBody d' message))
        \/ (exists error, response = json 500 (ErrorBody error None)))
    /\ Domain.domain d' = normalize D
    /\ Domain.siteSlug d' = t
    /\ collection w1 = <[normalize D := d']> (collection w)
    /\ created d'.
Proof.
  intros HD Ht Hfree.
  assert (Hkey : Domain.cast_domain (normalize D) = normalize D).
  { apply cast_domain_valid; [exact HD | apply normalize_lower]. }
  destruct (addDomain_spec o service (Some D) (Some t) w) as (response & w1 & Hadd & Heffect).
  destruct Heffect
    as [[_ Hrefused]
       | (D' & t' & d' & HD' & Ht' & Hdom & Hslug & _ & _ & Hc & Hcreated & Hresponse)].
  - exfalso. destruct Hrefused as [Htruthy | (D' & t' & HD' & Ht' & Hwhy)].
    + destruct D; [discriminate HD | ]. destruct t; [discriminate Ht | ]. discriminate Htruthy.
    + injection HD' as <-. injection Ht' as <-. unfold found in Hwhy.
      rewrite Hkey, Hfree in Hwhy.
      rewrite (validate_siteSlug_trim t Ht), (validate_paths_accepts _ _ HD Ht) in Hwhy.
      destruct Hwhy as [[? ?] | ?]; congruence.
  - injection HD' as <-. injection Ht' as <-. rewrite Hkey in Hdom.
    rewrite (validate_siteSlug_trim t Ht) in Hslug. rewrite Hdom in Hc.
    exists response, d', w1. now repeat split.
Qed.

(** C4.  For a domain whose normalized form the schema accepts and a slug
    the schema accepts, in a collection with no record for the normalized
    domain, the add route stores a record and answers: 200 with that
    record, or 500 when the record could not be written back after the
    setup (the expiry that certbot printed did not read as a date).  In
    both cases the get route for the same domain then answers 200 with the
    record that was stored, and its [domain] is the normalized form:
    lowercased, a leading "www." removed. *)
Theorem addDomain_then_getDomain D t w :
  Domain.validate_domain (normalize D) = true ->
  Domain.validate_siteSlug t = true ->
  collection w !! normalize D = None ->
  exists response w1 added status w2,
    addDomain o service (Some D) (Some t) w = (Fulfilled response, w1) /\
    ((exists message, response = json 200 (AddedBody added message))
     \/ (exists error, response = json 500 (ErrorBody error None))) /\
    collection w1 = <[normalize D := added]> (collection w) /\
    getDomain o service D w1 = (Fulfilled (json 200 (DetailsBody added status)), w2) /\
    Domain.domain added = normalize D /\
    Domain.siteSlug added = t /\
    normalize D = Js.replace_www (Js.toLowerCase D).
Proof.
  intros HD Ht Hfree.
  destruct (addDomain_accepts D t w HD Ht Hfree)
    as (response & d' & w1 & Hadd & Hresponse & Hdom & Hslug & Hc & _).
  destruct (getDomain_spec o service D w1) as (answer & evs & Hget & Hfound).
  rewrite (found_valid w1 D HD), Hc, lookup_insert_eq in Hfound.
  destruct Hfound as [status ->].
  exists response, w1, d', status, (extend evs w1). now repeat split.
Qed.

End AddThenGet.

(** The theorem on [WWW.Example.com]: where everything works the add route
    answers 200; where the expiry does not read as a date it answers 500;
    either way the get route then finds the record of [example.com]. *)
Lemma addDomain_then_getDomain_witness :
  let o := example_oracle true true true true in
  let o' := unreadable_expiry o in
  (exists response w1 added status w2,
     addDomain o example_service (Some "WWW.Example.com") (Some "site-1") initial
     = (Fulfilled response, w1) /\
     statusCode response = 200 /\
     getDomain o example_service "WWW.Example.com" w1
     = (Fulfilled (json 200 (DetailsBody added status)), w2) /\
     Domain.domain added = "example.com")
  /\ (exists response w1 added status w2,
        addDomain o' example_service (Some "WWW.Example.com") (Some "site-1") initial
        = (Fulfilled response, w1) /\
        statusCode response = 500 /\
        getDomain o' example_service "WWW.Example.com" w1
        = (Fulfilled (json 200 (DetailsBody added status)), w2) /\
        Domain.domain added = "example.com").
Proof.
  intros o o'. split.
  - destruct (addDomain_then_getDomain o example_service "WWW.Example.com" "site-1" initial)
      as (response & w1 & added & status & w2 & Hadd & Hresponse & _ & Hget & Hdom & _);
      [reflexivity | reflexivity | reflexivity | ].
    exists response, w1, added, status, w2.
    split; [exact Hadd | ]. split; [ | split; [exact Hget | exact Hdom]].
    assert (E : statusCode
                  <$> (match fst (addDomain o example_service (Some "WWW.Example.com")
                                    (Some "site-1") initial) with
                       | Fulfilled r => Some r
                       | Rejected _ => None
                       end) = Some 200) by (vm_compute; reflexivity).
    rewrite Hadd in E. cbn [fst fmap option_fmap option_map] in E.
    injection E as E. exact E.
  - destruct (addDomain_then_getDomain o' example_service "WWW.Example.com" "site-1" initial)
      as (response & w1 & added & status & w2 & Hadd & Hresponse & _ & Hget & Hdom & _);
      [reflexivity | reflexivity | reflexivity | ].
    exists response, w1, added, status, w2.
    split; [exact Hadd | ]. split; [ | split; [exact Hget | exact Hdom]].
    assert (E : statusCode
                  <$> (match fst (addDomain o' example_service (Some "WWW.Example.com")
                                    (Some "site-1") initial) with
                       | Fulfilled r => Some r
                       | Rejected _ => None
                       end) = Some 500) by (vm_compute; reflexivity).
    rewrite Hadd in E. cbn [fst fmap option_fmap option_map] in E.
    injection E as E. exact E.
Defined.


(** ** Invariants of the collection *)

(** No operation changes the [domain] of a document. *)
Lemma verified_domain d d' : verified d d' -> Domain.domain d' = Domain.domain d.
Proof.
  intros [t x t2 _ Hx | b t t2 _]; cbn [Domain.domain Domain.set_updatedAt]; [ | reflexivity].
  now rewrite (setup_outcome_domain _ _ Hx).
Qed.

Lemma renewed_domain d d' : renewed d d' -> Domain.domain d' = Domain.domain d.
Proof. now intros []. Qed.

(** Writes and removals keep documents under their own [domain]. *)
Lemma consistent_insert c d :
  consistent c -> Domain.cast_domain (Domain.domain d) = Domain.domain d ->
  consistent (<[Domain.domain d := d]> c).
Proof.
  intros Hc Hd k r. destruct (decide (Domain.domain d = k)) as [<- | Hne].
  - rewrite lookup_insert_eq. now intros [= <-].
  - rewrite lookup_insert_ne by exact Hne. apply Hc.
Qed.

Lemma consistent_insert_same c k d d' :
  consistent c -> c !! k = Some d -> Domain.domain d' = Domain.domain d ->
  consistent (<[Domain.domain d := d']> c).
Proof.
  intros Hc Hk Hd. destruct (Hc _ _ Hk) as [Hdom Hcast]. rewrite <- Hd.
  apply consistent_insert; [exact Hc | ]. now rewrite Hd, Hdom.
Qed.

Lemma consistent_delete c k : consistent c -> consistent (delete k c).
Proof. intros Hc k' r H. apply lookup_delete_Some in H as [_ H]. now apply Hc. Qed.

(** In a consistent collection the record stored under a name is the one
    that the query for the name finds. *)
Lemma found_stored w k d :
  consistent (collection w) -> collection w !! k = Some d -> found w k = Some d.
Proof.
  intros Hc Hk. unfold found. destruct (Hc _ _ Hk) as [_ ->]. exact Hk.
Qed.

Section Invariants.

Context (o : Oracle) (service : DomainService).

(** Every operation stores documents under their own [domain]. *)
Lemma run_consistent op w :
  consistent (collection w) -> consistent (collection (run o service op w)).
Proof.
  intros Hc. destruct op as [domain siteSlug | D | D | D | D | ]; cbn [run].
  - destruct (addDomain_spec o service domain siteSlug w) as (r & w' & -> & H); cbn [snd].
    destruct H as [[-> _] | (D & t & d' & _ & _ & Hdom & _ & _ & Hvalid & -> & _)];
      [exact Hc | ].
    apply consistent_insert; [exact Hc | ].
    rewrite Hdom. exact (cast_domain_stored _ _ Hvalid).
  - destruct (getDomain_spec o service D w) as (r & evs & -> & _). exact Hc.
  - destruct (verifyDomain_spec o service D w) as (r & w' & -> & H); cbn [snd].
    destruct H as [-> | (d & d' & Hd & -> & Hv)]; [exact Hc | ].
    apply (consistent_insert_same _ _ _ _ Hc Hd). now apply verified_domain.
  - destruct (removeDomain_spec o service D w) as (r & w' & -> & H); cbn [snd].
    destruct H as [-> | ->]; [exact Hc | now apply consistent_delete].
  - destruct (renewCertificate_spec o D w) as (r & w' & -> & H); cbn [snd].
    destruct H as [-> | (d & d' & Hd & -> & Hv)]; [exact Hc | ].
    apply (consistent_insert_same _ _ _ _ Hc Hd). now apply renewed_domain.
  - now rewrite (checkPendingDomains_nothing o service w).
Qed.

Lemma reachable_consistent w : reachable o service w -> consistent (collection w).
Proof.
  induction 1 as [ | w op _ IH]; [ | now apply run_consistent].
  intros k d H. cbn [collection initial] in H. now rewrite lookup_empty in H.
Qed.

End Invariants.

(** *** The connected flag *)

(** C1 fails on the code.  The add route stores the result of the DNS
    check in [connected] as well as in [dnsVerified], before it configures
    the proxy.  Added while DNS resolves and the configuration file cannot
    be written, [example.com] is stored connected with neither proxy
    configuration nor certificate, and the route answers 200 with that
    record.  In the same surroundings the verify route leaves a record that
    was added pending unconnected.  The record stays as it is once
    everything works: the verify route sets a domain up only when it is not
    connected, and the pending check does not find it.  And a connected
    record whose DNS no longer resolves loses [dnsVerified] in the verify
    route and stays connected. *)
Theorem addDomain_connected_without_proxy :
  let broken := example_oracle true false true true in
  let working := example_oracle true true true true in
  let unresolved := example_oracle false true true true in
  let flags r :=
    (Domain.connected r, Domain.dnsVerified r, Domain.nginxConfigured r, Domain.ssl r) in
  let added :=
    addDomain broken example_service (Some "example.com") (Some "site-1") initial in
  let later :=
    run working example_service PendingCheck
      (run working example_service (VerifyDomain "example.com") (snd added)) in
  reachable broken example_service (snd added)
  /\ flags <$> (collection (snd added) !! "example.com") = Some (true, true, false, false)
  /\ (fun r => Fulfilled (json 200 (AddedBody r "Domain added and configured successfully")))
       <$> (collection (snd added) !! "example.com")
     = Some (fst added)
  /\ flags
       <$> (collection (run broken example_service (VerifyDomain "example.com") pending_world)
            !! "example.com")
     = Some (false, true, false, false)
  /\ flags <$> (collection later !! "example.com") = Some (true, true, false, false)
  /\ flags
       <$> (collection
              (run unresolved example_service (VerifyDomain "example.com") connected_world)
            !! "example.com")
     = Some (true, false, true, true).
Proof.
  intros broken working unresolved flags added later.
  split.
  { exact (reachable_run broken example_service initial
             (AddDomain (Some "example.com") (Some "site-1"))
             (reachable_initial broken example_service)). }
  vm_compute. repeat split; reflexivity.
Qed.

(** The virtual [status] has a name for that state. *)
Example status_connected_no_ssl :
  (fun r => Domain.status (Domain.load r))
    <$> (collection
           (run (example_oracle true false true true) example_service
              (AddDomain (Some "example.com") (Some "site-1")) initial)
         !! "example.com")
  = Some "connected-no-ssl".
Proof. vm_compute. reflexivity. Qed.


(** ** Retries *)

(** The one place that counts a retry is the method [markAsDisconnected],
    which no route and no job calls.  It adds one to a property that a
    loaded document does not have, and sets that and the error on the
    object, not on paths of the schema: the document is written back with
    the counter and the error under [metadata] as they were. *)
Lemma markAsDisconnected_not_stored o message d w :
  is_Some (collection w !! Domain.domain d) ->
  exists this d' w',
    markAsDisconnected o message (Domain.load d, w) = (Fulfilled tt, (this, w')) /\
    Domain.retryCount this = Some Js.NaN /\
    Domain.errorMessage this = message /\
    collection w' !! Domain.domain d = Some d' /\
    Domain.metadata_retryCount d' = Domain.metadata_retryCount d /\
    Domain.metadata_errorMessage d' = Domain.metadata_errorMessage d /\
    Domain.connected d' = false.
Proof.
  intros Hk. unfold markAsDisconnected. rewrite !bind_assign.
  set (this := Domain.set_retryCount _ _).
  assert (Hsaved := save_update_found o this w eq_refl Hk).
  rewrite (save_local_fulfilled o _ _ _ _ Hsaved).
  do 3 eexists. split; [reflexivity | ].
  cbn [collection set_collection Domain.domain Domain.paths this Domain.set_retryCount
       Domain.set Domain.set_errorMessage Domain.load Domain.retryCount Domain.errorMessage
       Domain.set_ssl Domain.set_nginxConfigured Domain.set_dnsVerified Domain.set_connected
       Domain.set_updatedAt].
  rewrite lookup_insert_eq. now repeat split.
Qed.

(** C2 fails on the code.  [broken.test] is added while its DNS does not
    resolve.  The query of the pending check finds no record, so that each
    of three passes does nothing at all: the record is still not connected,
    its retry counter is still 0 and its error still null, and the world is
    as the add route left it.  The body of the loop, were it run on the
    record, asks DNS once and writes the record back with the counter and
    the error as they were. *)
Theorem pending_check_counts_no_retry :
  let o := example_oracle false true true true in
  let added := run o example_service (AddDomain (Some "broken.test") (Some "site-1")) initial in
  let after n := run_all o example_service (repeat PendingCheck n) added in
  let seen w :=
    (fun r => (Domain.connected r, Domain.metadata_retryCount r, Domain.metadata_errorMessage r))
      <$> (collection w !! "broken.test") in
  let turn w :=
    match collection w !! "broken.test" with
    | Some r => snd (check_one o example_service r w)
    | None => w
    end in
  seen added = Some (false, 0, None)
  /\ fst (findPendingDomains added) = Fulfilled []
  /\ after 1%nat = added
  /\ after 2%nat = added
  /\ after 3%nat = added
  /\ seen (after 3%nat) = Some (false, 0, None)
  /\ seen (turn added) = Some (false, 0, None)
  /\ List.length (trace (turn added)) = S (List.length (trace added)).
Proof.
  intros o added after seen turn.
  assert (Hafter : forall n, after n = added).
  { intros n. unfold after, run_all.
    induction n as [ | n IH]; [reflexivity | ].
    cbn [repeat fold_left run]. now rewrite checkPendingDomains_nothing. }
  split; [vm_compute; reflexivity | ].
  split; [now rewrite findPendingDomains_none | ].
  rewrite !Hafter.
  repeat (split; [reflexivity | ]).
  vm_compute. repeat split; reflexivity.
Qed.


(** ** Certificate expiry *)

Section Expiry.

Context (o : Oracle) (service : DomainService).

(** [setup] stores an expiry only after it has set [ssl]. *)
Lemma setup_outcome_expiry d x :
  setup_outcome d x ->
  (Domain.sslExpiry d <> None -> Domain.ssl d = true) ->
  Domain.sslExpiry x <> None -> Domain.ssl x = true.
Proof. intros [ | | | e] Hd Hx; cbn in *; auto. Qed.

Lemma created_expiry d' : created d' -> Domain.sslExpiry d' <> None -> Domain.ssl d' = true.
Proof.
  intros [name slug t t1 | name slug t t1 x t2 Hx] H; cbn in *; [congruence | ].
  apply (setup_outcome_expiry _ _ Hx); [ | exact H]. cbn. congruence.
Qed.

Lemma verified_expiry d d' :
  verified d d' ->
  (Domain.sslExpiry d <> None -> Domain.ssl d = true) ->
  Domain.sslExpiry d' <> None -> Domain.ssl d' = true.
Proof.
  intros [t x t2 _ Hx | b t t2 _] Hd H; cbn in *; [ | auto].
  apply (setup_outcome_expiry _ _ Hx); [ | exact H]. cbn. exact Hd.
Qed.

(** Adding, reading, verifying, removing and the pending check keep every
    stored expiry on a record with a certificate; the renew route is the
    one operation that does not. *)
Lemma run_keeps_expiry op w :
  (forall D, op <> RenewCertificate D) ->
  consistent (collection w) ->
  expiry_implies_ssl (collection w) ->
  expiry_implies_ssl (collection (run o service op w)).
Proof.
  intros Hop Hc Hinv k r' Hk.
  destruct op as [domain siteSlug | D | D | D | D | ]; cbn [run] in Hk.
  - destruct (addDomain_spec o service domain siteSlug w) as (r & w' & Heq & H).
    rewrite Heq in Hk. cbn [snd] in Hk.
    destruct H as [[Hw _] | (D & t & d' & _ & _ & _ & _ & _ & _ & Hw & Hcreated & _)];
      rewrite Hw in Hk; [now apply (Hinv k) | ].
    destruct (decide (Domain.domain d' = k)) as [<- | Hne].
    + rewrite lookup_insert_eq in Hk. injection Hk as <-. now apply created_expiry.
    + rewrite lookup_insert_ne in Hk by exact Hne. now apply (Hinv k).
  - destruct (getDomain_spec o service D w) as (r & evs & Heq & _).
    rewrite Heq in Hk. now apply (Hinv k).
  - destruct (verifyDomain_spec o service D w) as (r & w' & Heq & H).
    rewrite Heq in Hk. cbn [snd] in Hk.
    destruct H as [Hw | (d & d' & Hd & Hw & Hv)]; rewrite Hw in Hk; [now apply (Hinv k) | ].
    destruct (decide (Domain.domain d = k)) as [<- | Hne].
    + rewrite lookup_insert_eq in Hk. injection Hk as <-.
      apply (verified_expiry _ _ Hv). exact (Hinv _ _ Hd).
    + rewrite lookup_insert_ne in Hk by exact Hne. now apply (Hinv k).
  - destruct (removeDomain_spec o service D w) as (r & w' & Heq & H).
    rewrite Heq in Hk. cbn [snd] in Hk.
    destruct H as [Hw | Hw]; rewrite Hw in Hk; [now apply (Hinv k) | ].
    apply lookup_delete_Some in Hk as [_ Hk]. now apply (Hinv k).
  - now destruct (Hop D).
  - rewrite (checkPendingDomains_nothing o service w) in Hk. now apply (Hinv k).
Qed.

End Expiry.

(** C5 fails on the code.  [example.com] is added while its DNS does not
    resolve, so that no certificate is issued for it; the renew route,
    answered by a certbot that holds a certificate of that name, then
    stores an expiry on the record, whose [ssl] stays false. *)
Theorem renewCertificate_expiry_without_ssl :
  let o := example_oracle false true true true in
  let w := run o example_service (RenewCertificate "example.com") pending_world in
  reachable o example_service w
  /\ (fun r => (Domain.ssl r, Domain.sslExpiry r)) <$> (collection pending_world !! "example.com")
     = Some (false, None)
  /\ (fun r => (Domain.ssl r, Domain.sslExpiry r)) <$> (collection w !! "example.com")
     = Some (false, Some 1801389600000).
Proof.
  intros o w. split; [apply reachable_run, reachable_run, reachable_initial | ].
  vm_compute. split; reflexivity.
Qed.

(** ** A domain that connects at once *)

Example addDomain_active :
  (fun r => (Domain.status (Domain.load r), Domain.sslExpiry r))
    <$> (collection
           (run (example_oracle true true true true) example_service
              (AddDomain (Some "example.com") (Some "site-1")) initial)
         !! "example.com")
  = Some ("active", Some 1801389600000).
Proof. vm_compute. reflexivity. Qed.


(** * Further properties of the service, the model, the routes and the scheduler *)

(** ** The methods of the domain service *)

Section ServiceBehaviour.

Context (o : Oracle) (this : DomainService).

(** X1.  [verifyDNS] never throws and asks DNS exactly once, for the name
    without a leading [www.]; it answers true exactly when the query
    succeeds, a server address is configured and that address is among
    the addresses returned. *)
Theorem verifyDNS_one_query domain w :
  let answer := dns_resolve4 o (trace w) (Js.replace_www domain) in
  exists verified,
    verifyDNS o this domain w
    = (Fulfilled verified, extend [Resolve4 (Js.replace_www domain) answer] w) /\
    (verified = true <->
     exists addresses ip,
       answer = Fulfilled addresses /\ serverIP this = Some ip /\ In ip addresses).
Proof.
  intros answer. unfold verifyDNS, try_catch, bind, resolve4, perform. fold answer.
  rewrite record_event_extend.
  destruct answer as [addresses | e] eqn:Hanswer.
  - destruct (serverIP this) as [ip | ] eqn:Hip.
    + eexists. split; [reflexivity | ]. rewrite existsb_exists. split.
      * intros (x & Hin & Heq%String.eqb_eq). subst x. now exists addresses, ip.
      * intros (a & ip' & [= <-] & [= <-] & Hin). exists ip. split; [exact Hin | ].
        apply String.eqb_refl.
    + eexists. split; [reflexivity | ]. split; [discriminate | ].
      intros (a & ip' & _ & Hnone & _). discriminate Hnone.
  - eexists. split; [reflexivity | ]. split; [discriminate | ].
    intros (a & ip' & Hnone & _). discriminate Hnone.
Qed.

(** X2.  [issueSSLCertificate] never throws; its first call to the outside
    is the certbot command, and it answers true exactly when that command
    succeeds and its output has one of the two success phrases.  When it
    answers false it makes no further call. *)
Theorem issueSSLCertificate_outcome domain w :
  let answer := execAsync o (trace w) (certbotCommand this domain) in
  exists issued evs,
    issueSSLCertificate o this domain w
    = (Fulfilled issued, extend (Exec (certbotCommand this domain) answer :: evs) w) /\
    (issued = true <-> certbot_issued answer = true) /\
    (issued = false -> evs = []).
Proof.
  intros answer. unfold issueSSLCertificate, try_catch, bind at 1, exec at 1, perform.
  fold answer. rewrite record_event_extend. unfold certbot_issued.
  destruct answer as [[stdout stderr] | e] eqn:Hanswer.
  - destruct (Js.includes stdout "Successfully deployed certificate"
              || Js.includes stdout "Certificate not yet due for renewal") eqn:Hs.
    + unfold bind.
      destruct (getCertificateExpiry_returns o domain
                  (extend [Exec (certbotCommand this domain) (Fulfilled (stdout, stderr))] w))
        as (expiry & evs & ->).
      rewrite extend_extend. exists true, evs. split; [reflexivity | ].
      split; [tauto | discriminate].
    + exists false, []. split; [reflexivity | ]. split; [ | reflexivity].
      split; discriminate.
  - exists false, []. split; [reflexivity | ]. split; [ | reflexivity]. split; discriminate.
Qed.

End ServiceBehaviour.

(** What [line_prefix] cuts off starts a new line. *)
Lemma line_prefix_spec rest :
  exists post,
    rest = Js.line_prefix rest ++ post /\
    Js.all_chars (fun c => negb (Js.is_line_terminator c)) (Js.line_prefix rest) = true /\
    (post = EmptyString \/ exists c r, post = String c r /\ Js.is_line_terminator c = true).
Proof.
  induction rest as [ | c rest (post & Heq & Hall & Hpost)]; cbn [Js.line_prefix].
  - exists EmptyString. split; [reflexivity | split; [reflexivity | now left]].
  - destruct (Js.is_line_terminator c) eqn:Hc.
    + exists (String c rest). split; [reflexivity | split; [reflexivity | right]].
      now exists c, rest.
    + exists post. rewrite app_cons, <- Heq. cbn [Js.all_chars]. rewrite Hc, Hall.
      split; [reflexivity | split; [reflexivity | exact Hpost]].
Qed.

Lemma match_here key s rest a l :
  Js.after_prefix key s = Some rest -> Js.line_prefix rest = String a l ->
  exists post,
    s = EmptyString ++ key ++ String a l ++ post /\
    String a l <> EmptyString /\
    Js.all_chars (fun c => negb (Js.is_line_terminator c)) (String a l) = true /\
    (post = EmptyString \/ exists c r, post = String c r /\ Js.is_line_terminator c = true).
Proof.
  intros Hk Hl. destruct (line_prefix_spec rest) as (post & Heq & Hall & Hpost).
  rewrite Hl in Heq, Hall. exists post.
  split; [ | split; [discriminate | split; [exact Hall | exact Hpost]]].
  now rewrite app_empty, <- Heq, (after_prefix_Some _ _ _ Hk).
Qed.

Lemma match_rest_of_line_spec key s v :
  Js.match_rest_of_line key s = Some v ->
  exists pre post,
    s = pre ++ key ++ v ++ post /\
    v <> EmptyString /\
    Js.all_chars (fun c => negb (Js.is_line_terminator c)) v = true /\
    (post = EmptyString \/ exists c r, post = String c r /\ Js.is_line_terminator c = true).
Proof.
  induction s as [ | c s IH]; cbn [Js.match_rest_of_line].
  - destruct (Js.after_prefix key EmptyString) as [rest | ] eqn:Hk; [ | discriminate].
    destruct (Js.line_prefix rest) as [ | a l] eqn:Hl; [discriminate | ].
    intros [= <-]. destruct (match_here _ _ _ _ _ Hk Hl) as (post & H).
    now exists EmptyString, post.
  - destruct (Js.after_prefix key (String c s)) as [rest | ] eqn:Hk.
    + destruct (Js.line_prefix rest) as [ | a l] eqn:Hl.
      * intros H. destruct (IH H) as (pre & post & -> & Hv).
        exists (String c pre), post. now rewrite app_cons.
      * intros [= <-]. destruct (match_here _ _ _ _ _ Hk Hl) as (post & H).
        now exists EmptyString, post.
    + intros H. destruct (IH H) as (pre & post & -> & Hv).
      exists (String c pre), post. now rewrite app_cons.
Qed.

Section ServiceBehaviour2.

Context (o : Oracle) (this : DomainService).

(** X3.  [getCertificateExpiry] never throws and runs one command.  A date
    comes back only when the command succeeds and its output has
    [Expiry Date: ] followed by a non-empty rest of the line; the date is
    that text as [new Date] reads it. *)
Theorem getCertificateExpiry_outcome domain w :
  let answer := execAsync o (trace w) (expiry_command domain) in
  exists expiry,
    getCertificateExpiry o domain w
    = (Fulfilled expiry, extend [Exec (expiry_command domain) answer] w) /\
    forall t, expiry = Some t ->
      exists stdout stderr pre v post,
        answer = Fulfilled (stdout, stderr) /\
        stdout = pre ++ "Expiry Date: " ++ v ++ post /\
        v <> EmptyString /\
        Js.all_chars (fun c => negb (Js.is_line_terminator c)) v = true /\
        (post = EmptyString
         \/ exists c r, post = String c r /\ Js.is_line_terminator c = true) /\
        t = Date_parse o v.
Proof.
  intros answer. unfold getCertificateExpiry, try_catch, bind, exec, perform. fold answer.
  rewrite record_event_extend.
  destruct answer as [[stdout stderr] | e] eqn:Hanswer.
  - destruct (Js.match_rest_of_line "Expiry Date: " stdout) as [v | ] eqn:Hm.
    + eexists. split; [reflexivity | ]. intros t [= <-].
      destruct (match_rest_of_line_spec _ _ _ Hm) as (pre & post & Heq & Hne & Hall & Hpost).
      exists stdout, stderr, pre, v, post.
      split; [reflexivity | split; [exact Heq | split; [exact Hne | ]]].
      split; [exact Hall | split; [exact Hpost | reflexivity]].
    + eexists. split; [reflexivity | ]. discriminate.
  - eexists. split; [reflexivity | ]. discriminate.
Qed.

(** X4.  [removeDomainConfig] never throws and always takes the same four
    steps in this order, whatever fails: delete the certificate, unlink
    the enabled site, unlink the available site, reload nginx.  It answers
    true exactly when the reload succeeds. *)
Theorem removeDomainConfig_steps domain w :
  exists removed r1 r2 r3 r4,
    removeDomainConfig o this domain w
    = (Fulfilled removed,
       extend [Exec (delete_command domain) r1;
               Unlink (path_join (nginxSitesEnabled this) domain) r2;
               Unlink (path_join (nginxSitesAvailable this) domain) r3;
               Exec nginx_reload_command r4] w) /\
    (removed = true <-> exists output, r4 = Fulfilled output).
Proof.
  unfold removeDomainConfig, reloadNginx, unlink, exec, perform, try_catch, bind, ret, throw.
  cbn [trace record_event collection].
  split_answers.
  all: rewrite ?record_event_extend, ?extend_extend; cbn [List.app].
  all: do 5 eexists; (split; [reflexivity | ]).
  all: split; [ try discriminate; eauto | try reflexivity; intros [? ?]; discriminate ].
Qed.

End ServiceBehaviour2.

(** ** The proxy configuration *)

Section Proxy.

Context (o : Oracle) (this : DomainService).

Ltac settle_test :=
  cbn [validation_fails];
  repeat match goal with
         | H : _ = EmptyString |- _ => rewrite H
         | H : negb _ = _ |- _ => rewrite H
         end;
  first [ reflexivity | assumption ].

(** X28.  [createNginxConfig] never throws and goes through its steps in
    a fixed order: write the site file, unlink the old link (a failure of
    which is ignored), link the site, test the configuration, reload.  The
    first step that fails ends the run with [false], with nothing undone;
    [true] is returned exactly when all of writing, linking, the test and
    the reload succeed. *)
Theorem createNginxConfig_steps domain siteSlug w :
  let configPath := path_join (nginxSitesAvailable this) domain in
  let enabledPath := path_join (nginxSitesEnabled this) domain in
  let content := generateNginxConfig this (Date_now o (trace w)) domain siteSlug in
  let written := WriteFile configPath content (Fulfilled tt) in
  let linked := Symlink configPath enabledPath (Fulfilled tt) in
  exists ok evs,
    createNginxConfig o this domain siteSlug w = (Fulfilled ok, extend evs w)
    /\ ((exists e, evs = [WriteFile configPath content (Rejected e)] /\ ok = false)
        \/ (exists r2 e,
              evs = [written; Unlink enabledPath r2; Symlink configPath enabledPath (Rejected e)]
              /\ ok = false)
        \/ (exists r2 r4,
              evs = [written; Unlink enabledPath r2; linked; Exec nginx_test_command r4]
              /\ validation_fails r4 = true /\ ok = false)
        \/ (exists r2 r4 e,
              evs = [written; Unlink enabledPath r2; linked; Exec nginx_test_command r4;
                     Exec nginx_reload_command (Rejected e)]
              /\ validation_fails r4 = false /\ ok = false)
        \/ (exists r2 r4 output,
              evs = [written; Unlink enabledPath r2; linked; Exec nginx_test_command r4;
                     Exec nginx_reload_command (Fulfilled output)]
              /\ validation_fails r4 = false /\ ok = true)).
Proof.
  intros configPath enabledPath content written linked.
  unfold createNginxConfig, testNginxConfig, reloadNginx, writeFile, unlink, symlink,
    exec, perform, try_catch, bind, new_Date, ret, throw.
  fold configPath enabledPath content. cbn [trace record_event collection].
  split_answers.
  all: cbn [fst snd]; rewrite ?record_event_extend, ?extend_extend.
  all: repeat match goal with v : unit |- _ => destruct v end.
  all: cbn [app]; subst; eexists; eexists; (split; [reflexivity | ]).
  all: first
         [ solve [left; eexists; split; reflexivity]
         | solve [right; left; do 2 eexists; split; reflexivity]
         | solve [do 2 right; left; do 2 eexists;
                  split; [reflexivity | split; [settle_test | reflexivity]]]
         | solve [do 3 right; left; do 3 eexists;
                  split; [reflexivity | split; [settle_test | reflexivity]]]
         | solve [do 4 right; do 3 eexists;
                  split; [reflexivity | split; [settle_test | reflexivity]]] ].
Qed.

End Proxy.

(** X29.  The generated proxy configuration and the certbot command name
    the same hosts, and none besides: the domain and [www.] + domain for a
    name with one dot, and the domain alone otherwise.  The configuration
    is the template with these hosts, separated by spaces, as its
    [server_name]; the command is the fixed words of certbot with one
    [-d] argument for each of these hosts, in this order, between
    [--redirect] and [--non-interactive]. *)
Theorem hosts_of_proxy_and_certificate (this : DomainService) now domain siteSlug :
  let hosts := if isApexDomain domain then [domain; "www." ++ domain] else [domain] in
  generateNginxConfig this now domain siteSlug
  = unlines (nginxConfigLines this now domain (Js.join " " hosts))
  /\ certbotCommand this domain
     = Js.join " "
         (List.app ["sudo certbot"; "--nginx"; "--redirect"]
            (List.app (List.map (fun host => "-d " ++ host) hosts)
               ["--non-interactive"; "--agree-tos"; "-m " ++ Js.interpolate (email this);
                "--expand"])).
Proof.
  intros hosts. unfold generateNginxConfig, certbotCommand. subst hosts.
  destruct (isApexDomain domain); split; reflexivity.
Qed.

(** ** Names *)

Lemma split_length sep s : List.length (Js.split sep s) = S (count_char sep s).
Proof.
  induction s as [ | c s IH]; cbn [Js.split count_char]; [reflexivity | ].
  destruct (Ascii.eqb c sep); cbn [List.length]; [now rewrite IH | ].
  destruct (Js.split sep s) as [ | h t]; [discriminate IH | exact IH].
Qed.

(** X6.  [isApexDomain] holds of exactly the names with one dot. *)
Theorem isApexDomain_one_dot domain :
  isApexDomain domain = true <-> count_char "." domain = 1%nat.
Proof.
  unfold isApexDomain. rewrite split_length, Nat.eqb_eq. lia.
Qed.

(** X7.  A name that the validator of the [domain] path accepts has one
    or two dots, consists of letters, digits, hyphens and dots, and has no
    white space around it: names of four labels or more are refused. *)
Theorem validate_domain_shape v :
  Domain.validate_domain v = true ->
  (count_char "." v = 1%nat \/ count_char "." v = 2%nat)
  /\ Js.all_chars (fun c => Js.is_alnum c || Ascii.eqb c "-" || Ascii.eqb c ".") v = true
  /\ Js.trim v = v
  /\ (isApexDomain v = true <-> count_char "." v = 1%nat).
Proof.
  intros H. split; [ | split; [ | split]].
  - pose proof (split_length "." v) as Hlen. unfold Domain.validate_domain in H.
    destruct (Js.split "." v) as [ | l [ | x [ | y [ | ? ?]]]]; try discriminate H;
      cbn [List.length] in Hlen; lia.
  - exact (validate_domain_chars v H).
  - now apply validate_domain_trim.
  - unfold isApexDomain. rewrite split_length, Nat.eqb_eq. lia.
Qed.

Lemma toLowerCase_app a b : Js.toLowerCase (a ++ b) = Js.toLowerCase a ++ Js.toLowerCase b.
Proof.
  induction a as [ | c a IH]; [reflexivity | ].
  rewrite app_cons. cbn [Js.toLowerCase]. now rewrite IH, app_cons.
Qed.

(** X8.  The normalization of the routes ignores case and one leading
    [www.]: a name, its lower-case form and, for a name that does not
    start with [www.] itself, the name behind a [www.] of any case give
    the same key, which is in lower case. *)
Theorem normalize_aliases D :
  normalize (Js.toLowerCase D) = normalize D
  /\ normalize ("www." ++ D) = Js.toLowerCase D
  /\ normalize ("WWW." ++ D) = Js.toLowerCase D
  /\ (Js.after_prefix "www." (Js.toLowerCase D) = None -> normalize ("www." ++ D) = normalize D)
  /\ Js.toLowerCase (normalize D) = normalize D.
Proof.
  assert (Hwww : forall p, Js.toLowerCase p = "www." ->
                   normalize (p ++ D) = Js.toLowerCase D).
  { intros p Hp. unfold normalize, Js.replace_www.
    now rewrite toLowerCase_app, Hp, after_prefix_app. }
  split; [unfold normalize; now rewrite toLowerCase_idem | ].
  split; [now apply Hwww | split; [now apply Hwww | split]].
  - intros Hnone. rewrite Hwww by reflexivity. unfold normalize, Js.replace_www.
    now rewrite Hnone.
  - apply normalize_lower.
Qed.

Lemma normalize_aliases_witness :
  Js.after_prefix "www." (Js.toLowerCase "Example.COM") = None /\
  normalize ("www." ++ "Example.COM") = normalize "Example.COM".
Proof.
  split; [reflexivity | ].
  apply (proj1 (proj2 (proj2 (proj2 (normalize_aliases "Example.COM"))))). reflexivity.
Defined.




(** ** The routes on one domain *)

Section Details.

Context (o : Oracle) (service : DomainService).

(** The add route and the verify route when DNS does not verify. *)
Lemma addDomain_unverified domain siteSlug w :
  (forall name v, fst (verifyDNS o service name v) = Fulfilled false) ->
  exists response w',
    addDomain o service domain siteSlug w = (Fulfilled response, w') /\
    (collection w' = collection w
     \/ exists D t t0 t1,
          collection w'
          = <[Domain.cast_domain (normalize D)
              := Domain.set_updatedAt t1 (Domain.new (normalize D) t false false t0 t0)]>
              (collection w)).
Proof.
  intros Hdown.
  destruct (Js.truthy domain && Js.truthy siteSlug) eqn:Htruthy.
  2: { rewrite (addDomain_missing_member o service domain siteSlug w Htruthy).
       do 2 eexists. split; [reflexivity | now left]. }
  destruct domain as [[ | c D] | ]; try discriminate Htruthy.
  destruct siteSlug as [[ | c' t] | ]; try discriminate Htruthy.
  unfold addDomain, try_catch at 1. cbv beta iota.
  set (D' := String c D). set (t' := String c' t).
  unfold bind at 1, findOne. cbv beta iota.
  destruct (found w (normalize D')) as [existing | ] eqn:Hfound.
  { do 2 eexists. split; [reflexivity | now left]. }
  unfold bind at 1.
  destruct (verifyDNS_returns o service (normalize D') w) as (b & e1 & Hdns).
  pose proof (Hdown (normalize D') w) as Hb. rewrite Hdns in Hb. injection Hb as ->.
  rewrite Hdns. cbv beta iota.
  unfold bind at 1, new_Date at 1. cbv beta iota.
  set (now := Date_now o (trace (extend e1 w))).
  set (d0 := Domain.new (normalize D') t' false false now now).
  unfold bind at 1.
  destruct (save_new_spec o d0 (extend e1 w)) as (res & -> & Hsave).
  cbn [Domain.domain Domain.siteSlug d0 Domain.new collection extend] in Hsave.
  destruct (Domain.validate_paths _ _) as [e | ] eqn:Hvalid.
  { destruct Hsave as [e' ->]. do 2 eexists. split; [reflexivity | now left]. }
  unfold found in Hfound. rewrite Hfound in Hsave.
  rewrite Hsave. cbv beta iota. unfold bind at 1, ret at 1. cbv beta iota.
  do 2 eexists. split; [reflexivity | right].
  exists D', t', now, now. reflexivity.
Qed.

Lemma verifyDomain_unverified D w :
  (forall name v, fst (verifyDNS o service name v) = Fulfilled false) ->
  exists response w',
    verifyDomain o service D w = (Fulfilled response, w') /\
    (collection w' = collection w
     \/ exists d t t2,
          found w (normalize D) = Some d /\
          collection w' =
            <[Domain.domain d :=
                Domain.set_updatedAt t2
                  (Domain.set_lastChecked t (Domain.set_dnsVerified false d))]>
              (collection w)).
Proof.
  intros Hdown.
  unfold verifyDomain, try_catch at 1, bind at 1, findOne. cbv beta iota.
  destruct (found w (normalize D)) as [d | ] eqn:Hd.
  2: { do 2 eexists. split; [reflexivity | now left]. }
  unfold bind at 1.
  destruct (verifyDNS_returns o service (normalize D) w) as (b & e1 & Hdns).
  pose proof (Hdown (normalize D) w) as Hb. rewrite Hdns in Hb. injection Hb as ->.
  rewrite Hdns. cbv beta iota. unfold bind at 1, new_Date at 1. cbv beta iota.
  unfold bind at 1, with_local. rewrite !bind_assign, bind_local. cbn [andb].
  set (now := Date_now o (trace (extend e1 w))).
  set (this := Domain.set _ (Domain.set _ (Domain.load d))).
  destruct (save_update_spec o this (extend e1 w)) as [[e He] | Hsaved].
  - rewrite (save_local_rejected o _ _ _ He). cbv beta iota.
    do 2 eexists. split; [reflexivity | now left].
  - rewrite (save_local_fulfilled o _ _ _ _ Hsaved). cbv beta iota.
    do 2 eexists. split; [reflexivity | right].
    exists d, now, (Date_now o (trace (extend e1 w))). split; reflexivity.
Qed.

End Details.

Section RouteBehaviour.

Context (o : Oracle) (service : DomainService).

Lemma removeDomain_found D w d :
  found w (normalize D) = Some d ->
  exists removed evs,
    removeDomainConfig o service (normalize D) w = (Fulfilled removed, extend evs w) /\
    removeDomain o service D w
    = (Fulfilled (json 200 (RemovedBody ("Domain " ++ normalize D ++ " removed successfully"))),
       set_collection (delete (Domain.cast_domain (normalize D)) (collection w))
         (extend evs w)).
Proof.
  intros Hd. unfold removeDomain, try_catch, bind at 1, findOne. cbv beta iota. rewrite Hd.
  unfold bind at 1.
  destruct (removeDomainConfig_returns o service (normalize D) w) as (b & evs & Heq).
  rewrite Heq. cbv beta iota. exists b, evs. split; reflexivity.
Qed.

(** X10.  Removing a domain whose record the query finds answers 200 and
    deletes the record, whether or not the teardown of certificate and
    proxy succeeded; no other record changes.  The record is the one
    stored under the normalized name as the schema casts it. *)
Theorem removeDomain_deletes D w d :
  found w (normalize D) = Some d ->
  exists removed evs,
    removeDomainConfig o service (normalize D) w = (Fulfilled removed, extend evs w) /\
    fst (removeDomain o service D w)
    = Fulfilled (json 200 (RemovedBody ("Domain " ++ normalize D ++ " removed successfully"))) /\
    trace (snd (removeDomain o service D w)) = (trace w ++ evs)%list /\
    collection (snd (removeDomain o service D w)) !! Domain.cast_domain (normalize D) = None /\
    forall k, k <> Domain.cast_domain (normalize D) ->
      collection (snd (removeDomain o service D w)) !! k = collection w !! k.
Proof.
  intros Hd. destruct (removeDomain_found D w d Hd) as (removed & evs & Hteardown & ->).
  exists removed, evs. split; [exact Hteardown | ]. split; [reflexivity | ].
  split; [reflexivity | ]. cbn [snd collection set_collection extend].
  split; [apply lookup_delete_eq | ]. intros k Hk. now apply lookup_delete_ne.
Qed.

(** X11.  For a name for which the query finds no record, the verify,
    renew and details routes answer 404 and leave the collection and the
    trace of outside calls as they were. *)
Theorem unknown_domain_untouched D w :
  found w (normalize D) = None ->
  verifyDomain o service D w = (Fulfilled not_found, w)
  /\ renewCertificate o D w = (Fulfilled not_found, w)
  /\ getDomain o service D w = (Fulfilled not_found, w).
Proof.
  intros H. unfold verifyDomain, renewCertificate, getDomain, try_catch, bind, findOne.
  now rewrite H.
Qed.

(** X12.  Verifying a domain that is connected already asks DNS once and
    does nothing else outside; the record keeps [connected] and changes in
    [dnsVerified], [lastChecked] and [updatedAt] only, also when DNS no
    longer answers with the server. *)
Theorem verifyDomain_connected D w d :
  found w (normalize D) = Some d ->
  Domain.domain d = Domain.cast_domain (normalize D) ->
  Domain.connected d = true ->
  exists verified answer checked updated message,
    let d' :=
      Domain.set_updatedAt updated
        (Domain.set_lastChecked checked (Domain.set_dnsVerified verified d)) in
    verifyDomain o service D w
    = (Fulfilled (json 200 (VerifiedBody d' verified message)),
       set_collection (<[Domain.cast_domain (normalize D) := d']> (collection w))
         (extend [Resolve4 (Js.replace_www (normalize D)) answer] w))
    /\ Domain.connected d' = true.
Proof.
  intros Hd Hkey Hconn.
  unfold verifyDomain, try_catch at 1, bind at 1, findOne. cbv beta iota. rewrite Hd.
  unfold bind at 1.
  destruct (verifyDNS_returns o service (normalize D) w) as (b & e1 & Hdns).
  assert (He1 : e1 = [Resolve4 (Js.replace_www (normalize D))
                        (dns_resolve4 o (trace w) (Js.replace_www (normalize D)))]).
  { unfold verifyDNS, try_catch, bind, resolve4, perform in Hdns.
    rewrite record_event_extend in Hdns.
    destruct (dns_resolve4 o (trace w) (Js.replace_www (normalize D)));
      injection Hdns as _ Hw; now apply app_inv_head in Hw. }
  subst e1.
  rewrite Hdns. cbv beta iota. unfold bind at 1, new_Date at 1. cbv beta iota.
  unfold bind at 1, with_local. rewrite !bind_assign, bind_local.
  cbn [Domain.connected Domain.set_lastChecked Domain.set_dnsVerified Domain.paths Domain.set
       Domain.load].
  rewrite Hconn. rewrite andb_false_r.
  set (w1 := extend _ w).
  set (now := Date_now o (trace w1)).
  set (this := Domain.set _ (Domain.set _ (Domain.load d))).
  assert (Hstored : is_Some (collection w1 !! Domain.domain (Domain.paths this))).
  { cbn [collection extend w1 Domain.domain Domain.paths this Domain.set Domain.load
         Domain.set_lastChecked Domain.set_dnsVerified].
    unfold found in Hd. rewrite Hkey, Hd. eauto. }
  assert (Hsaved := save_update_found o this w1 eq_refl Hstored).
  rewrite (save_local_fulfilled o _ _ _ _ Hsaved).
  cbv beta iota. unfold ret.
  exists b, (dns_resolve4 o (trace w) (Js.replace_www (normalize D))), now, now,
    (if b then "DNS verified and domain configured" else "DNS verification failed").
  cbn zeta. split; [ | exact Hconn].
  cbn [collection extend set_collection trace w1 Domain.domain Domain.paths this Domain.set
       Domain.load Domain.set_lastChecked Domain.set_dnsVerified].
  now rewrite Hkey.
Qed.

End RouteBehaviour.

Section Frames.

Context (o : Oracle) (service : DomainService).

(** X14.  The scheduled check of the pending domains leaves every record
    exactly as it is, connected or not: its query finds no record, and it
    returns with no call to the outside and nothing written. *)
Theorem checkPendingDomains_frame w :
  checkPendingDomains o service w = (Fulfilled tt, w).
Proof. apply checkPendingDomains_nothing. Qed.


(** X13.  Adding a valid new domain and removing it again gives back the
    collection from before, and the details route then answers 404. *)
Theorem addDomain_then_removeDomain D t w :
  Domain.validate_domain (normalize D) = true ->
  Domain.validate_siteSlug t = true ->
  collection w !! normalize D = None ->
  collection (run_all o service [AddDomain (Some D) (Some t); RemoveDomain D] w)
  = collection w
  /\ fst (getDomain o service D
            (run_all o service [AddDomain (Some D) (Some t); RemoveDomain D] w))
     = Fulfilled not_found.
Proof.
  intros HD Ht Hfree. cbn [run_all fold_left run].
  assert (Hkey : Domain.cast_domain (normalize D) = normalize D).
  { apply cast_domain_valid; [exact HD | apply normalize_lower]. }
  destruct (addDomain_accepts o service D t w HD Ht Hfree)
    as (response & d' & w1 & -> & _ & Hdom & _ & Hc1 & _).
  cbn [snd].
  assert (Hstored : found w1 (normalize D) = Some d').
  { rewrite (found_valid w1 D HD), Hc1. apply lookup_insert_eq. }
  destruct (removeDomain_found o service D w1 d' Hstored) as (b & evs & _ & ->). cbn [snd].
  rewrite Hkey.
  assert (Hback : collection (set_collection (delete (normalize D) (collection w1)) (extend evs w1))
                  = collection w).
  { cbn [collection set_collection]. rewrite Hc1. now apply delete_insert_id. }
  split; [exact Hback | ].
  destruct (getDomain_spec o service D
              (set_collection (delete (normalize D) (collection w1)) (extend evs w1)))
    as (resp & evs' & -> & Hresp).
  rewrite (found_valid _ D HD), Hback, Hfree in Hresp. now rewrite Hresp.
Qed.

(** X5.  [getDomainStatus] never throws and probes in a fixed order: DNS,
    the enabled site file, the certificate.  The status reports DNS as
    [verifyDNS] does, the proxy as present exactly when the file is
    accessible, as [sslExpiry] what [getCertificateExpiry] read after the
    first two probes, and [ssl] exactly when that is a date. *)
Theorem getDomainStatus_probes domain w :
  exists status dns r1 r2 r3,
    let w2 :=
      extend [Access (path_join (nginxSitesEnabled service) domain) r2]
        (extend [Resolve4 (Js.replace_www domain) r1] w) in
    getDomainStatus o service domain w
    = (Fulfilled status,
       extend [Resolve4 (Js.replace_www domain) r1;
               Access (path_join (nginxSitesEnabled service) domain) r2;
               Exec (expiry_command domain) r3] w) /\
    verifyDNS o service domain w = (Fulfilled dns, extend [Resolve4 (Js.replace_www domain) r1] w) /\
    getCertificateExpiry o domain w2
    = (Fulfilled (status_sslExpiry status), extend [Exec (expiry_command domain) r3] w2) /\
    status_domain status = domain /\
    status_dns status = dns /\
    (status_nginx status = true <-> r2 = Fulfilled tt) /\
    (status_ssl status = true <-> status_sslExpiry status <> None) /\
    status_error status = None /\
    status_lastChecked status = Date_now o (trace w).
Proof.
  unfold getDomainStatus, verifyDNS, getCertificateExpiry, access, resolve4, exec, perform,
    try_catch, bind, new_Date, ret, throw.
  cbn [trace record_event collection].
  split_answers.
  all: rewrite ?record_event_extend, ?extend_extend; cbn [List.app].
  all: do 5 eexists; cbv zeta; (split; [reflexivity | ]); (split; [reflexivity | ]).
  all: cbn [trace extend record_event collection] in *.
  all: repeat match goal with
         | H : ?x = _ |- context [?x] => rewrite H
         end.
  all: rewrite ?record_event_extend, ?extend_extend; cbn [List.app].
  all: split; [reflexivity | ].
  all: cbn [status_domain status_dns status_nginx status_ssl status_sslExpiry status_error
            status_lastChecked].
  all: repeat match goal with v : unit |- _ => destruct v end.
  all: repeat split; try reflexivity; try discriminate; try congruence.
Qed.

End Frames.


(** ** The queries and the listing routes *)




#[local] Instance later_created_total : Total later_created.
Proof. intros a b. unfold later_created. lia. Qed.

#[local] Instance later_created_trans : Transitive later_created.
Proof. intros a b c. unfold later_created. lia. Qed.

Section Listing.

Context (o : Oracle) (service : DomainService) (setDate : Z -> Z -> Z).



(** X16.  [findPendingDomains] finds no record, whatever is stored, and
    changes nothing: its filter asks for a [retryCount] below ten at the
    top of a document, where no stored document has one. *)
Theorem findPendingDomains_finds_none w :
  findPendingDomains w = (Fulfilled [], w)
  /\ forall k r, collection w !! k = Some r -> pending_filter r = false.
Proof.
  split; [apply findPendingDomains_none | ]. intros k r _. apply pending_filter_none.
Qed.

End Listing.

Lemma try_catch_swallows (m : Prog World unit) (w : World) :
  try_catch m (fun _ => ret tt) w = (Fulfilled tt, snd (try_catch m (fun _ => ret tt) w)).
Proof. unfold try_catch. now destruct (m w) as [[[] | e] w']. Qed.

Section Trigger.

Context (o : Oracle) (service : DomainService) (setDate : Z -> Z -> Z).

(** X26.  [triggerTask] on a stopped service throws [Cron service is not
    running] and does nothing.  On a running service a name of the
    schedule runs the job that the schedule fires under that name and
    completes, whatever the job met; any other name throws
    [Unknown task: <name>] and does nothing. *)
Theorem triggerTask_runs this taskName w :
  Cron.triggerTask o service setDate this taskName w =
  if isRunning this then
    match List.find (fun kv => String.eqb taskName (fst kv)) (tasks (start new_CronService)) with
    | Some (_, task) =>
        (Fulfilled tt,
         fold_left (fun w job => Cron.run_job o service setDate job w) (callback task) w)
    | None => (Rejected ("Unknown task: " ++ taskName), w)
    end
  else (Rejected "Cron service is not running", w).
Proof.
  unfold Cron.triggerTask. destruct (isRunning this); [ | reflexivity]. cbn [negb].
  cbn [List.find tasks start new_CronService isRunning Map_set List.map fst snd schedule
       task_start callback String.eqb Ascii.eqb Bool.eqb].
  cbv beta iota zeta.
  cbn [List.find tasks start new_CronService isRunning Map_set List.map fst snd schedule
       task_start callback].
  destruct (String.eqb taskName "pendingCheck");
    [cbn [fold_left Cron.run_job]; apply try_catch_swallows | ].
  destruct (String.eqb taskName "sslCheck");
    [cbn [fold_left Cron.run_job]; apply try_catch_swallows | ].
  destruct (String.eqb taskName "sslRenewal");
    [cbn [fold_left Cron.run_job]; apply try_catch_swallows | ].
  destruct (String.eqb taskName "cleanup");
    [cbn [fold_left Cron.run_job]; apply try_catch_swallows | ].
  reflexivity.
Qed.

End Trigger.


(** ** The scheduled jobs *)

Lemma Domain_find_stored f c d :
  consistent c ->
  In d (List.filter f (snd <$> map_to_list c)) ->
  c !! Domain.domain d = Some d /\ f d = true.
Proof.
  intros Hc Hin. apply filter_In in Hin as [Hin Hf]. split; [ | exact Hf].
  apply list_elem_of_In, list_elem_of_fmap in Hin as ([k d1] & -> & Hin).
  apply elem_of_map_to_list in Hin. cbn [snd].
  destruct (Hc _ _ Hin) as [-> _]. exact Hin.
Qed.

Lemma same_but_expiry_refl r : same_but_expiry r r.
Proof. now destruct r. Qed.

Lemma same_but_expiry_refresh r r' e t :
  same_but_expiry r r' ->
  same_but_expiry r (Domain.set_updatedAt t (Domain.set_sslExpiry e r')).
Proof. unfold same_but_expiry. intros ->. now destruct r. Qed.

Lemma same_but_expiry_fields r r' :
  same_but_expiry r r' ->
  Domain.domain r' = Domain.domain r /\ Domain.siteSlug r' = Domain.siteSlug r
  /\ Domain.connected r' = Domain.connected r /\ Domain.ssl r' = Domain.ssl r
  /\ Domain.dnsVerified r' = Domain.dnsVerified r
  /\ Domain.nginxConfigured r' = Domain.nginxConfigured r
  /\ Domain.lastChecked r' = Domain.lastChecked r
  /\ Domain.createdAt r' = Domain.createdAt r
  /\ Domain.metadata_errorMessage r' = Domain.metadata_errorMessage r
  /\ Domain.metadata_retryCount r' = Domain.metadata_retryCount r.
Proof. unfold same_but_expiry. intros ->. now repeat split. Qed.

Lemma expiry_refresh_refl c : expiry_refresh c c.
Proof. intros k. now left. Qed.

Lemma expiry_refresh_consistent c0 c :
  consistent c0 -> expiry_refresh c0 c -> consistent c.
Proof.
  intros Hc H k r' Hk. destruct (H k) as [Heq | (r & r1 & Hr & Hr1 & _ & Hsame)].
  - rewrite Heq in Hk. now apply Hc.
  - rewrite Hr1 in Hk. injection Hk as <-.
    destruct (same_but_expiry_fields _ _ Hsame) as (-> & _). now apply Hc.
Qed.

Lemma expiry_refresh_keeps_expiry c0 c :
  expiry_refresh c0 c -> expiry_implies_ssl c0 -> expiry_implies_ssl c.
Proof.
  intros H H0 k r' Hk Hexp. destruct (H k) as [Heq | (r & r1 & Hr & Hr1 & Hssl & Hsame)].
  - rewrite Heq in Hk. now apply (H0 k).
  - rewrite Hr1 in Hk. injection Hk as <-.
    destruct (same_but_expiry_fields _ _ Hsame) as (_ & _ & _ & -> & _). exact Hssl.
Qed.

(** One write of a refreshed record keeps the relation to the collection
    at the start. *)
Lemma expiry_refresh_insert c0 c r0 r e t :
  expiry_refresh c0 c ->
  c0 !! Domain.domain r = Some r0 -> Domain.ssl r0 = true -> same_but_expiry r0 r ->
  expiry_refresh c0
    (<[Domain.domain r := Domain.set_updatedAt t (Domain.set_sslExpiry e r)]> c).
Proof.
  intros H Hr0 Hssl Hsame k. destruct (decide (k = Domain.domain r)) as [-> | Hne].
  - right. exists r0, (Domain.set_updatedAt t (Domain.set_sslExpiry e r)).
    rewrite lookup_insert_eq. split; [exact Hr0 | split; [reflexivity | split; [exact Hssl | ]]].
    now apply same_but_expiry_refresh.
  - rewrite lookup_insert_ne by congruence. apply H.
Qed.

Section ExpiryJobs.

Context (o : Oracle) (service : DomainService) (setDate : Z -> Z -> Z).

(** Writing a date that was read back onto a document: the document is
    stored with the date, or nothing is written. *)
Lemma save_expiry_spec e d w :
  exists result w',
    save o false (Domain.assign_sslExpiry e (Domain.load d)) w = (result, w') /\
    (collection w' = collection w
     \/ exists t u,
          collection w' =
          <[Domain.domain d := Domain.set_updatedAt u (Domain.set_sslExpiry (Some t) d)]>
            (collection w)).
Proof.
  destruct (save_update_spec o (Domain.assign_sslExpiry e (Domain.load d)) w)
    as [[msg Hrej] | Hsaved].
  - rewrite Hrej. do 2 eexists. split; [reflexivity | now left].
  - destruct e as [t | ].
    + rewrite Hsaved. do 2 eexists. split; [reflexivity | right].
      now exists t, (Date_now o (trace w)).
    + exfalso.
      rewrite (save_cast_error o false (Domain.assign_sslExpiry Js.InvalidDate (Domain.load d))
                 w Domain.cast_message eq_refl) in Hsaved.
      discriminate Hsaved.
Qed.

Lemma refresh_expiry_spec d w :
  exists w',
    Cron.refresh_expiry o d w = (Fulfilled tt, w') /\
    (collection w' = collection w
     \/ exists e t,
          collection w' =
          <[Domain.domain d := Domain.set_updatedAt t (Domain.set_sslExpiry (Some e) d)]>
            (collection w)).
Proof.
  unfold Cron.refresh_expiry, try_catch, bind at 1.
  destruct (getCertificateExpiry_returns o (Domain.domain d) w) as (expiry & evs & ->).
  cbv beta iota. destruct expiry as [e | ].
  2: { eexists. split; [reflexivity | now left]. }
  unfold bind.
  destruct (save_expiry_spec e d (extend evs w)) as (result & w' & -> & H).
  destruct result as [saved | msg]; cbv beta iota; eexists; (split; [reflexivity | exact H]).
Qed.

Lemma refresh_loop_spec c0 docs : forall w,
  (forall d, In d docs -> c0 !! Domain.domain d = Some d /\ Domain.ssl d = true) ->
  expiry_refresh c0 (collection w) ->
  exists w',
    for_of docs (Cron.refresh_expiry o) w = (Fulfilled tt, w') /\
    expiry_refresh c0 (collection w').
Proof.
  induction docs as [ | d docs IH]; intros w Hdocs Hw.
  - exists w. now split.
  - cbn [for_of]. unfold bind.
    destruct (refresh_expiry_spec d w) as (w1 & -> & H1).
    apply IH; [intros d2 Hd2; apply Hdocs; now right | ].
    destruct H1 as [-> | (e & t & ->)]; [exact Hw | ].
    destruct (Hdocs d) as [Hd Hssl]; [now left | ].
    apply expiry_refresh_insert with (r0 := d); try assumption.
    apply same_but_expiry_refl.
Qed.

Lemma checkSSLCertificates_spec w :
  consistent (collection w) ->
  exists w',
    Cron.checkSSLCertificates o setDate w = (Fulfilled tt, w') /\
    expiry_refresh (collection w) (collection w').
Proof.
  intros Hc. unfold Cron.checkSSLCertificates, findExpiringSSL, try_catch, bind,
    new_Date, Domain_find.
  cbv beta iota. set (docs := List.filter _ _).
  assert (Hdocs : forall d, In d docs ->
            collection w !! Domain.domain d = Some d /\ Domain.ssl d = true).
  { intros d Hd. destruct (Domain_find_stored _ _ _ Hc Hd) as [Hk Hf].
    split; [exact Hk | ]. unfold expiring_filter in Hf. now apply andb_true_iff in Hf. }
  destruct (refresh_loop_spec (collection w) docs w Hdocs (expiry_refresh_refl _))
    as (w' & Hrun & Heff).
  destruct docs as [ | d docs].
  - exists w. split; [reflexivity | apply expiry_refresh_refl].
  - rewrite Hrun. now exists w'.
Qed.

Lemma update_expiry_spec name w :
  exists w',
    Cron.update_expiry o name w = (Fulfilled tt, w') /\
    (collection w' = collection w
     \/ exists r e t,
          found w name = Some r /\
          collection w' =
          <[Domain.domain r := Domain.set_updatedAt t (Domain.set_sslExpiry (Some e) r)]>
            (collection w)).
Proof.
  unfold Cron.update_expiry, try_catch, bind at 1, findOne. cbv beta iota.
  destruct (found w name) as [r | ] eqn:Hr.
  2: { eexists. split; [reflexivity | now left]. }
  unfold bind at 1.
  destruct (getCertificateExpiry_returns o name w) as (expiry & evs & ->).
  cbv beta iota. destruct expiry as [e | ].
  2: { eexists. split; [reflexivity | now left]. }
  unfold bind.
  destruct (save_expiry_spec e r (extend evs w)) as (result & w' & -> & H).
  destruct result as [saved | msg]; cbv beta iota; eexists; (split; [reflexivity | ]).
  all: destruct H as [H | (t & u & H)]; [now left | right; now exists r, t, u].
Qed.

Lemma update_loop_spec c0 names : forall w,
  consistent c0 ->
  (forall n, In n names -> exists d, c0 !! n = Some d /\ Domain.ssl d = true) ->
  expiry_refresh c0 (collection w) ->
  exists w',
    for_of names (Cron.update_expiry o) w = (Fulfilled tt, w') /\
    expiry_refresh c0 (collection w').
Proof.
  induction names as [ | n names IH]; intros w Hc Hnames Hw.
  - exists w. now split.
  - cbn [for_of]. unfold bind.
    destruct (update_expiry_spec n w) as (w1 & -> & H1).
    apply IH; [exact Hc | intros n2 Hn2; apply Hnames; now right | ].
    destruct H1 as [-> | (r & e & t & Hr & ->)]; [exact Hw | ].
    destruct (Hnames n) as (d0 & Hd0 & Hssl); [now left | ].
    destruct (Hc _ _ Hd0) as [Hdom Hcast].
    unfold found in Hr. rewrite Hcast in Hr.
    assert (Hsame : same_but_expiry d0 r).
    { destruct (Hw n) as [Heq | (r0 & r1 & Hr0 & Hr1 & _ & Hsame)].
      - rewrite Heq, Hd0 in Hr. injection Hr as <-. apply same_but_expiry_refl.
      - rewrite Hr0 in Hd0. injection Hd0 as <-. rewrite Hr1 in Hr. now injection Hr as <-. }
    assert (Hn : Domain.domain r = n).
    { destruct (same_but_expiry_fields _ _ Hsame) as (-> & _). exact Hdom. }
    apply expiry_refresh_insert with (r0 := d0); try assumption. now rewrite Hn.
Qed.

Lemma renewSSLCertificates_spec w :
  consistent (collection w) ->
  exists w',
    Cron.renewSSLCertificates o w = (Fulfilled tt, w') /\
    expiry_refresh (collection w) (collection w').
Proof.
  intros Hc. unfold Cron.renewSSLCertificates, try_catch, bind at 1, Domain_find.
  cbv beta iota. set (docs := List.filter _ _).
  assert (Hdocs : forall d, In d docs ->
            collection w !! Domain.domain d = Some d /\ Domain.ssl d = true).
  { intros d Hd. exact (Domain_find_stored _ _ _ Hc Hd). }
  destruct docs as [ | d rest] eqn:Hl.
  { exists w. split; [reflexivity | apply expiry_refresh_refl]. }
  rewrite <- Hl in *. clear Hl. unfold bind.
  destruct (renewSSLCertificates_run o (List.map Domain.domain docs) w)
    as (results & evs & -> & _ & Hperm).
  cbv beta iota.
  destruct (update_loop_spec (collection w) (successful results) (extend evs w) Hc)
    as (w' & Hrun & Heff).
  - intros n Hn.
    assert (Hin : In n (List.map Domain.domain docs)).
    { apply list_elem_of_In. rewrite <- Hperm. apply list_elem_of_In.
      unfold buckets. apply in_or_app. now left. }
    apply in_map_iff in Hin as (d0 & <- & Hd0). exists d0. now apply Hdocs.
  - apply expiry_refresh_refl.
  - rewrite Hrun. now exists w'.
Qed.

(** X17.  The expiry audit always completes.  It adds and removes no
    record; a record that it changes has a certificate and changes in
    [sslExpiry] and [updatedAt] only.  So it keeps the keys in line with
    the names, and keeps that only records with a certificate have an
    expiry. *)
Theorem checkSSLCertificates_refreshes w :
  consistent (collection w) ->
  exists w',
    Cron.checkSSLCertificates o setDate w = (Fulfilled tt, w')
    /\ expiry_refresh (collection w) (collection w')
    /\ consistent (collection w')
    /\ (expiry_implies_ssl (collection w) -> expiry_implies_ssl (collection w')).
Proof.
  intros Hc. destruct (checkSSLCertificates_spec w Hc) as (w' & Hrun & Heff).
  exists w'. split; [exact Hrun | split; [exact Heff | split]].
  - exact (expiry_refresh_consistent _ _ Hc Heff).
  - exact (expiry_refresh_keeps_expiry _ _ Heff).
Qed.

(** X18.  The scheduled renewal always completes.  It adds and removes no
    record; a record that it changes has a certificate and changes in
    [sslExpiry] and [updatedAt] only, so that, unlike the renew route, it
    keeps that only records with a certificate have an expiry. *)
Theorem scheduled_renewal_refreshes w :
  consistent (collection w) ->
  exists w',
    Cron.renewSSLCertificates o w = (Fulfilled tt, w')
    /\ expiry_refresh (collection w) (collection w')
    /\ consistent (collection w')
    /\ (expiry_implies_ssl (collection w) -> expiry_implies_ssl (collection w')).
Proof.
  intros Hc. destruct (renewSSLCertificates_spec w Hc) as (w' & Hrun & Heff).
  exists w'. split; [exact Hrun | split; [exact Heff | split]].
  - exact (expiry_refresh_consistent _ _ Hc Heff).
  - exact (expiry_refresh_keeps_expiry _ _ Heff).
Qed.

End ExpiryJobs.

Section Cleanup.

Context (o : Oracle) (service : DomainService) (setDate : Z -> Z -> Z).

(** No stored document passes the filter of the cleanup, which asks for
    a [retryCount] of ten or more at the top of a document: the job is
    over after its query. *)
Lemma cleanup_filter_none cutoffDate d : cleanup_filter cutoffDate d = false.
Proof.
  unfold cleanup_filter, Js.ge, Domain.stored_retryCount.
  now rewrite andb_false_r.
Qed.

Lemma cleanupOldDomains_nothing w :
  Cron.cleanupOldDomains o service setDate w = (Fulfilled tt, w).
Proof.
  unfold Cron.cleanupOldDomains, try_catch, bind, new_Date, Domain_find.
  cbv beta iota. now rewrite (filter_none _ _ (cleanup_filter_none _)).
Qed.

End Cleanup.


(** ** A server in operation *)

Lemma setup_outcome_paths d x :
  setup_outcome d x ->
  Domain.siteSlug x = Domain.siteSlug d /\ Domain.createdAt x = Domain.createdAt d.
Proof. now intros []. Qed.

(** [setup] leaves the retry fields alone. *)
Lemma setup_outcome_retries d x :
  setup_outcome d x ->
  Domain.metadata_retryCount x = Domain.metadata_retryCount d
  /\ Domain.metadata_errorMessage x = Domain.metadata_errorMessage d.
Proof. now intros []. Qed.

Lemma created_retries d' :
  created d' -> Domain.metadata_retryCount d' = 0 /\ Domain.metadata_errorMessage d' = None.
Proof.
  intros [name slug t t1 | name slug t t1 x t2 Hx]; [now split | ].
  cbn [Domain.metadata_retryCount Domain.metadata_errorMessage Domain.set_updatedAt].
  destruct (setup_outcome_retries _ _ Hx) as [-> ->]. now split.
Qed.

Lemma verified_retries d d' :
  verified d d' ->
  Domain.metadata_retryCount d' = Domain.metadata_retryCount d
  /\ Domain.metadata_errorMessage d' = Domain.metadata_errorMessage d.
Proof.
  intros [t x t2 _ Hx | b t t2 _];
    cbn [Domain.metadata_retryCount Domain.metadata_errorMessage Domain.set_updatedAt];
    [ | now split].
  destruct (setup_outcome_retries _ _ Hx) as [-> ->]. now split.
Qed.

Lemma verified_paths d d' : verified d d' -> Domain.siteSlug d' = Domain.siteSlug d.
Proof.
  intros [t x t2 _ Hx | b t t2 _]; cbn [Domain.siteSlug Domain.set_updatedAt]; [ | reflexivity].
  now destruct (setup_outcome_paths _ _ Hx) as [-> _].
Qed.

Section Operating.

Context (o : Oracle) (service : DomainService) (setDate : Z -> Z -> Z).

Lemma verifyDNS_never :
  dns_never_verifies o service ->
  forall name v, fst (verifyDNS o service name v) = Fulfilled false.
Proof.
  intros Hdown name v. unfold verifyDNS, try_catch, bind, resolve4, perform. cbn [fst].
  destruct (dns_resolve4 o (trace v) (Js.replace_www name)) as [addresses | e] eqn:Ha;
    [ | reflexivity].
  destruct (serverIP service) as [ip | ] eqn:Hip; [ | reflexivity].
  destruct (existsb (String.eqb ip) addresses) eqn:Hex; [ | reflexivity].
  apply existsb_exists in Hex as (x & Hin & Heq%String.eqb_eq). subst x.
  now destruct (Hdown _ _ _ _ Ha Hip).
Qed.

Lemma renewed_flags d d' :
  renewed d d' ->
  Domain.connected d' = Domain.connected d /\ Domain.dnsVerified d' = Domain.dnsVerified d
  /\ Domain.nginxConfigured d' = Domain.nginxConfigured d /\ Domain.ssl d' = Domain.ssl d.
Proof. now intros []. Qed.

(** What a scheduled job does to a record. *)
Lemma run_job_effect job w :
  consistent (collection w) ->
  forall k r', collection (Cron.run_job o service setDate job w) !! k = Some r' ->
    exists r, collection w !! k = Some r /\ same_but_expiry r r'.
Proof.
  intros Hc k r' Hk.
  assert (Hrefresh : forall w', expiry_refresh (collection w) (collection w') ->
            collection w' !! k = Some r' ->
            exists r, collection w !! k = Some r /\ same_but_expiry r r').
  { intros w' H Hk'. destruct (H k) as [Heq | (r & r1 & Hr & Hr1 & _ & Hsame)].
    - exists r'. rewrite <- Heq. split; [exact Hk' | apply same_but_expiry_refl].
    - exists r. split; [exact Hr | ]. rewrite Hr1 in Hk'. now injection Hk' as <-. }
  destruct job; unfold Cron.run_job in Hk.
  - rewrite (checkPendingDomains_nothing o service w) in Hk.
    exists r'. split; [exact Hk | apply same_but_expiry_refl].
  - destruct (checkSSLCertificates_spec o setDate w Hc) as (w' & Heq & H).
    rewrite Heq in Hk. now apply (Hrefresh w').
  - destruct (renewSSLCertificates_spec o w Hc) as (w' & Heq & H).
    rewrite Heq in Hk. now apply (Hrefresh w').
  - rewrite (cleanupOldDomains_nothing o service setDate w) in Hk.
    exists r'. split; [exact Hk | apply same_but_expiry_refl].
Qed.

Lemma operating_consistent w :
  Cron.operating o service setDate w -> consistent (collection w).
Proof.
  induction 1 as [ | w op _ IH | w job _ IH].
  - intros k d Hk. cbn [collection initial] in Hk. now rewrite lookup_empty in Hk.
  - now apply run_consistent.
  - intros k r' Hk. destruct (run_job_effect job w IH k r' Hk) as (r & Hr & Hsame).
    destruct (same_but_expiry_fields _ _ Hsame) as (-> & _). now apply IH.
Qed.

(** An invariant of the stored records that every request keeps and that
    does not look at [sslExpiry] and [updatedAt] holds in operation. *)
Lemma operating_invariant (P : Domain.doc -> Prop) :
  (forall w op, consistent (collection w) ->
     (forall k r, collection w !! k = Some r -> P r) ->
     forall k r, collection (run o service op w) !! k = Some r -> P r) ->
  (forall r r', same_but_expiry r r' -> P r -> P r') ->
  forall w, Cron.operating o service setDate w ->
  forall k r, collection w !! k = Some r -> P r.
Proof.
  intros Hrun Hsame w Hop.
  induction Hop as [ | w op Hop IH | w job Hop IH]; intros k r Hk.
  - cbn [collection initial] in Hk. now rewrite lookup_empty in Hk.
  - exact (Hrun w op (operating_consistent w Hop) IH k r Hk).
  - pose proof (operating_consistent w Hop) as Hc.
    destruct (run_job_effect job w Hc k r Hk) as (r0 & Hr0 & Hs).
    exact (Hsame r0 r Hs (IH k r0 Hr0)).
Qed.

Lemma run_retries w op :
  consistent (collection w) ->
  (forall k r, collection w !! k = Some r ->
     Domain.metadata_retryCount r = 0 /\ Domain.metadata_errorMessage r = None) ->
  forall k r, collection (run o service op w) !! k = Some r ->
    Domain.metadata_retryCount r = 0 /\ Domain.metadata_errorMessage r = None.
Proof.
  intros Hc IH k r Hk.
  destruct op as [domain siteSlug | D | D | D | D | ]; cbn [run] in Hk.
  - destruct (addDomain_spec o service domain siteSlug w) as (resp & w' & Heq & H).
    rewrite Heq in Hk. cbn [snd] in Hk.
    destruct H as [[Hw _] | (D & t & d' & _ & _ & _ & _ & _ & _ & Hw & Hcreated & _)];
      rewrite Hw in Hk; [now apply (IH k) | ].
    destruct (decide (Domain.domain d' = k)) as [<- | Hne].
    + rewrite lookup_insert_eq in Hk. injection Hk as <-. now apply created_retries.
    + rewrite lookup_insert_ne in Hk by exact Hne. now apply (IH k).
  - destruct (getDomain_spec o service D w) as (resp & evs & Heq & _).
    rewrite Heq in Hk. now apply (IH k).
  - destruct (verifyDomain_spec o service D w) as (resp & w' & Heq & H).
    rewrite Heq in Hk. cbn [snd] in Hk.
    destruct H as [Hw | (d & d' & Hd & Hw & Hv)]; rewrite Hw in Hk; [now apply (IH k) | ].
    destruct (decide (Domain.domain d = k)) as [<- | Hne].
    + rewrite lookup_insert_eq in Hk. injection Hk as <-.
      destruct (verified_retries _ _ Hv) as [-> ->]. exact (IH _ _ Hd).
    + rewrite lookup_insert_ne in Hk by exact Hne. now apply (IH k).
  - destruct (removeDomain_spec o service D w) as (resp & w' & Heq & H).
    rewrite Heq in Hk. cbn [snd] in Hk.
    destruct H as [Hw | Hw]; rewrite Hw in Hk; [now apply (IH k) | ].
    apply lookup_delete_Some in Hk as [_ Hk]. now apply (IH k).
  - destruct (renewCertificate_spec o D w) as (resp & w' & Heq & H).
    rewrite Heq in Hk. cbn [snd] in Hk.
    destruct H as [Hw | (d & d' & Hd & Hw & Hv)]; rewrite Hw in Hk; [now apply (IH k) | ].
    destruct (decide (Domain.domain d = k)) as [<- | Hne].
    + rewrite lookup_insert_eq in Hk. injection Hk as <-. destruct Hv.
      exact (IH _ _ Hd).
    + rewrite lookup_insert_ne in Hk by exact Hne. now apply (IH k).
  - rewrite (checkPendingDomains_nothing o service w) in Hk. now apply (IH k).
Qed.

Lemma operating_retries w :
  Cron.operating o service setDate w ->
  forall k r, collection w !! k = Some r ->
    Domain.metadata_retryCount r = 0 /\ Domain.metadata_errorMessage r = None.
Proof.
  apply (operating_invariant
           (fun r => Domain.metadata_retryCount r = 0 /\ Domain.metadata_errorMessage r = None)).
  - intros w0 op. apply run_retries.
  - intros r r' Hs.
    destruct (same_but_expiry_fields _ _ Hs) as (_ & _ & _ & _ & _ & _ & _ & _ & -> & ->).
    tauto.
Qed.

(** X20.  On a server in operation, whatever requests and scheduled jobs
    have run and whatever failed, every record has its retry counter at 0
    and no error message, as the schema created them, and no record is in
    status [failed]. *)
Theorem retries_never_counted w :
  Cron.operating o service setDate w ->
  forall k r, collection w !! k = Some r ->
    Domain.metadata_retryCount r = 0 /\ Domain.metadata_errorMessage r = None
    /\ Domain.status (Domain.load r) <> "failed".
Proof.
  intros Hop k r Hk. destruct (operating_retries w Hop k r Hk) as [Hcount Hmessage].
  split; [exact Hcount | split; [exact Hmessage | ]].
  unfold Domain.status. cbn [Domain.paths Domain.load Domain.retryCount Js.ge].
  destruct (Domain.connected r), (Domain.ssl r), (Domain.dnsVerified r); cbn; discriminate.
Qed.

(** X21.  On a server in operation the cleanup finds nothing: it returns
    after its query, with no call to the outside and no record deleted. *)
Theorem cleanupOldDomains_never_removes w :
  Cron.operating o service setDate w ->
  Cron.cleanupOldDomains o service setDate w = (Fulfilled tt, w).
Proof. intros _. apply cleanupOldDomains_nothing. Qed.

Lemma run_valid w op :
  consistent (collection w) ->
  (forall k r, collection w !! k = Some r ->
     Domain.validation_error r = None
     /\ Js.toLowerCase (Domain.domain r) = Domain.domain r) ->
  forall k r, collection (run o service op w) !! k = Some r ->
    Domain.validation_error r = None
    /\ Js.toLowerCase (Domain.domain r) = Domain.domain r.
Proof.
  intros Hc IH k r Hk.
  destruct op as [domain siteSlug | D | D | D | D | ]; cbn [run] in Hk.
  - destruct (addDomain_spec o service domain siteSlug w) as (resp & w' & Heq & H).
    rewrite Heq in Hk. cbn [snd] in Hk.
    destruct H as [[Hw _] | (D & t & d' & _ & _ & Hdom & Hslug & _ & Hv & Hw & _)];
      rewrite Hw in Hk; [now apply (IH k) | ].
    destruct (decide (Domain.domain d' = k)) as [<- | Hne].
    + rewrite lookup_insert_eq in Hk. injection Hk as <-.
      unfold Domain.validation_error. rewrite Hdom, Hslug. split; [exact Hv | ].
      apply cast_domain_lower.
    + rewrite lookup_insert_ne in Hk by exact Hne. now apply (IH k).
  - destruct (getDomain_spec o service D w) as (resp & evs & Heq & _).
    rewrite Heq in Hk. now apply (IH k).
  - destruct (verifyDomain_spec o service D w) as (resp & w' & Heq & H).
    rewrite Heq in Hk. cbn [snd] in Hk.
    destruct H as [Hw | (d & d' & Hd & Hw & Hv)]; rewrite Hw in Hk; [now apply (IH k) | ].
    destruct (decide (Domain.domain d = k)) as [<- | Hne].
    + rewrite lookup_insert_eq in Hk. injection Hk as <-.
      unfold Domain.validation_error.
      rewrite (verified_domain _ _ Hv), (verified_paths _ _ Hv). exact (IH _ _ Hd).
    + rewrite lookup_insert_ne in Hk by exact Hne. now apply (IH k).
  - destruct (removeDomain_spec o service D w) as (resp & w' & Heq & H).
    rewrite Heq in Hk. cbn [snd] in Hk.
    destruct H as [Hw | Hw]; rewrite Hw in Hk; [now apply (IH k) | ].
    apply lookup_delete_Some in Hk as [_ Hk]. now apply (IH k).
  - destruct (renewCertificate_spec o D w) as (resp & w' & Heq & H).
    rewrite Heq in Hk. cbn [snd] in Hk.
    destruct H as [Hw | (d & d' & Hd & Hw & Hv)]; rewrite Hw in Hk; [now apply (IH k) | ].
    destruct (decide (Domain.domain d = k)) as [<- | Hne].
    + rewrite lookup_insert_eq in Hk. injection Hk as <-. destruct Hv.
      exact (IH _ _ Hd).
    + rewrite lookup_insert_ne in Hk by exact Hne. now apply (IH k).
  - rewrite (checkPendingDomains_nothing o service w) in Hk. now apply (IH k).
Qed.

(** X22.  On a server in operation every record is stored under its own
    name, the name passes the validator of [domain], is in lower case and
    trimmed, and the target passes the validator of [siteSlug]. *)
Theorem stored_documents_valid w :
  Cron.operating o service setDate w ->
  forall k r, collection w !! k = Some r ->
    Domain.domain r = k
    /\ Domain.validate_domain k = true
    /\ Domain.validate_siteSlug (Domain.siteSlug r) = true
    /\ Js.toLowerCase k = k /\ Js.trim k = k.
Proof.
  intros Hop k r Hk.
  assert (Hvalid : Domain.validation_error r = None
                   /\ Js.toLowerCase (Domain.domain r) = Domain.domain r).
  { revert w Hop k r Hk. apply operating_invariant.
    - intros w0 op. apply run_valid.
    - intros r r' Hs. unfold Domain.validation_error.
      destruct (same_but_expiry_fields _ _ Hs) as (-> & -> & _). tauto. }
  destruct Hvalid as [Hv Hlower].
  destruct (operating_consistent w Hop k r Hk) as [Hdom _].
  rewrite Hdom in Hlower.
  unfold Domain.validation_error in Hv. rewrite Hdom in Hv.
  destruct (validate_paths_None _ _ Hv) as [Hk' Hs].
  split; [exact Hdom | split; [exact Hk' | split; [exact Hs | ]]].
  split; [exact Hlower | now apply validate_domain_trim].
Qed.

Lemma run_unverified w op :
  dns_never_verifies o service ->
  consistent (collection w) ->
  (forall k r, collection w !! k = Some r -> nothing_achieved r) ->
  forall k r, collection (run o service op w) !! k = Some r -> nothing_achieved r.
Proof.
  intros Hnever Hc IH k r Hk. pose proof (verifyDNS_never Hnever) as Hdown.
  destruct op as [domain siteSlug | D | D | D | D | ]; cbn [run] in Hk.
  - destruct (addDomain_unverified o service domain siteSlug w Hdown)
      as (resp & w' & Heq & H).
    rewrite Heq in Hk. cbn [snd] in Hk.
    destruct H as [Hw | (D & t & t0 & t1 & Hw)]; rewrite Hw in Hk; [now apply (IH k) | ].
    destruct (decide (Domain.cast_domain (normalize D) = k)) as [<- | Hne].
    + rewrite lookup_insert_eq in Hk. injection Hk as <-. now repeat split.
    + rewrite lookup_insert_ne in Hk by exact Hne. now apply (IH k).
  - destruct (getDomain_spec o service D w) as (resp & evs & Heq & _).
    rewrite Heq in Hk. now apply (IH k).
  - destruct (verifyDomain_unverified o service D w Hdown) as (resp & w' & Heq & H).
    rewrite Heq in Hk. cbn [snd] in Hk.
    destruct H as [Hw | (d & t & t2 & Hd & Hw)]; rewrite Hw in Hk; [now apply (IH k) | ].
    destruct (decide (Domain.domain d = k)) as [<- | Hne].
    + rewrite lookup_insert_eq in Hk. injection Hk as <-.
      destruct (IH _ _ Hd) as (H1 & H2 & H3 & H4). now repeat split.
    + rewrite lookup_insert_ne in Hk by exact Hne. now apply (IH k).
  - destruct (removeDomain_spec o service D w) as (resp & w' & Heq & H).
    rewrite Heq in Hk. cbn [snd] in Hk.
    destruct H as [Hw | Hw]; rewrite Hw in Hk; [now apply (IH k) | ].
    apply lookup_delete_Some in Hk as [_ Hk]. now apply (IH k).
  - destruct (renewCertificate_spec o D w) as (resp & w' & Heq & H).
    rewrite Heq in Hk. cbn [snd] in Hk.
    destruct H as [Hw | (d & d' & Hd & Hw & Hv)]; rewrite Hw in Hk; [now apply (IH k) | ].
    destruct (decide (Domain.domain d = k)) as [<- | Hne].
    + rewrite lookup_insert_eq in Hk. injection Hk as <-.
      unfold nothing_achieved.
      destruct (renewed_flags _ _ Hv) as (-> & -> & -> & ->). exact (IH _ _ Hd).
    + rewrite lookup_insert_ne in Hk by exact Hne. now apply (IH k).
  - rewrite (checkPendingDomains_nothing o service w) in Hk. now apply (IH k).
Qed.

(** X23.  While DNS never answers with the server's address, no request
    and no scheduled job ever marks a record as connected, DNS-verified,
    proxied or holding a certificate. *)
Theorem nothing_achieved_without_dns w :
  dns_never_verifies o service ->
  Cron.operating o service setDate w ->
  forall k r, collection w !! k = Some r -> nothing_achieved r.
Proof.
  intros Hnever. apply operating_invariant.
  - intros w0 op. now apply run_unverified.
  - intros r r' Hs. unfold nothing_achieved.
    destruct (same_but_expiry_fields _ _ Hs) as (_ & _ & -> & -> & -> & -> & _). tauto.
Qed.

End Operating.

(** ** The route that checks the pending domains *)

Section PendingRoute.

Context (o : Oracle) (service : DomainService).


End PendingRoute.


(** One turn of the loop of the route, on the record of [example.com]
    that was added pending: while DNS does not resolve the turn reports
    the domain as pending; when the expiry that certbot prints does not
    read as a date, [save] rejects and the turn reports an error. *)
Example pending_one_turn :
  let results :=
    {| results_checked := 0; results_connected := 0; results_failed := 0;
       results_details := [] |} in
  let turn o :=
    match collection pending_world !! "example.com" with
    | Some r => fst (pending_one o example_service results r pending_world)
    | None => Rejected "no record"
    end in
  turn (example_oracle false true true true)
  = Fulfilled
      {| results_checked := 1; results_connected := 0; results_failed := 0;
         results_details := [MessageDetail "example.com" "pending" "DNS not yet verified"] |}
  /\ turn (unreadable_expiry (example_oracle true true true true))
     = Fulfilled
         {| results_checked := 1; results_connected := 1; results_failed := 1;
            results_details :=
              [MessageDetail "example.com" "connected" "Domain connected successfully";
               ErrorDetail "example.com" "error" Domain.cast_message] |}.
Proof. vm_compute. split; reflexivity. Qed.

(** ** The properties above on the example worlds *)

Lemma validate_domain_shape_witness :
  Domain.validate_domain "shop.example.com" = true
  /\ count_char "." "shop.example.com" = 2%nat.
Proof.
  split; [reflexivity | ].
  destruct (validate_domain_shape "shop.example.com") as [[H | H] _];
    [reflexivity | discriminate H | exact H].
Defined.


Lemma removeDomain_deletes_witness :
  let o := example_oracle false true true true in
  Domain.domain <$> found pending_world (normalize "EXAMPLE.com") = Some "example.com"
  /\ collection (snd (removeDomain o example_service "EXAMPLE.com" pending_world))
       !! Domain.cast_domain (normalize "EXAMPLE.com") = None.
Proof.
  intros o. split; [vm_compute; reflexivity | ].
  destruct (found pending_world (normalize "EXAMPLE.com")) as [d | ] eqn:H.
  - destruct (removeDomain_deletes o example_service "EXAMPLE.com" pending_world d H)
      as (removed & evs & _ & _ & _ & Hgone & _).
    exact Hgone.
  - exfalso. vm_compute in H. discriminate H.
Defined.

Lemma unknown_domain_untouched_witness :
  let o := example_oracle true true true true in
  found pending_world (normalize "missing.test") = None
  /\ Domain.domain <$> (collection pending_world !! "example.com") = Some "example.com"
  /\ verifyDomain o example_service "missing.test" pending_world
     = (Fulfilled not_found, pending_world)
  /\ getDomain o example_service "missing.test" pending_world
     = (Fulfilled not_found, pending_world).
Proof.
  intros o.
  assert (H : found pending_world (normalize "missing.test") = None)
    by (vm_compute; reflexivity).
  split; [exact H | ]. split; [vm_compute; reflexivity | ].
  destruct (unknown_domain_untouched o example_service "missing.test" pending_world H)
    as (Hverify & _ & Hget).
  split; [exact Hverify | exact Hget].
Defined.

Lemma verifyDomain_connected_witness :
  let o := example_oracle false true true true in
  exists d verified answer checked updated message,
    found connected_world (normalize "example.com") = Some d
    /\ Domain.connected d = true
    /\ verifyDomain o example_service "example.com" connected_world
       = (Fulfilled
            (json 200
               (VerifiedBody
                  (Domain.set_updatedAt updated
                     (Domain.set_lastChecked checked (Domain.set_dnsVerified verified d)))
                  verified message)),
          set_collection
            (<[Domain.cast_domain (normalize "example.com") :=
                 Domain.set_updatedAt updated
                   (Domain.set_lastChecked checked (Domain.set_dnsVerified verified d))]>
               (collection connected_world))
            (extend [Resolve4 (Js.replace_www (normalize "example.com")) answer]
               connected_world)).
Proof.
  intros o.
  destruct (found connected_world (normalize "example.com")) as [d | ] eqn:H.
  - assert (E : (fun r => (Domain.domain r, Domain.connected r))
                  <$> found connected_world (normalize "example.com")
                = Some (Domain.cast_domain (normalize "example.com"), true))
      by (vm_compute; reflexivity).
    rewrite H in E. injection E as Hdom Hconn.
    destruct (verifyDomain_connected o example_service "example.com" connected_world d
                H Hdom Hconn)
      as (verified & answer & checked & updated & message & Hrun & _).
    exists d, verified, answer, checked, updated, message.
    split; [reflexivity | split; [exact Hconn | exact Hrun]].
  - exfalso. vm_compute in H. discriminate H.
Defined.

Lemma addDomain_then_removeDomain_witness :
  let o := example_oracle true true true true in
  collection
    (run_all o example_service
       [AddDomain (Some "WWW.Example.com") (Some "site-1"); RemoveDomain "WWW.Example.com"]
       initial)
  = collection initial.
Proof.
  intros o.
  apply (addDomain_then_removeDomain o example_service "WWW.Example.com" "site-1" initial);
    [reflexivity | reflexivity | apply lookup_empty].
Defined.

Lemma connected_world_consistent : consistent (collection connected_world).
Proof.
  apply (reachable_consistent (example_oracle true true true true) example_service).
  apply reachable_run, reachable_initial.
Qed.



(** The audit at a time when the certificate of [example.com] expires
    within thirty days: the job selects the record, reads the expiry back
    with one command, and writes the record. *)
Lemma checkSSLCertificates_refreshes_witness :
  let o := at_time 1800000000000 (example_oracle true true true true) in
  exists w',
    Cron.checkSSLCertificates o utc_setDate connected_world = (Fulfilled tt, w')
    /\ expiry_refresh (collection connected_world) (collection w')
    /\ (fun r => (Domain.sslExpiry r, Domain.updatedAt r))
         <$> (collection w' !! "example.com")
       = Some (Some 1801389600000, 1800000000000)
    /\ List.length (trace w') = S (List.length (trace connected_world)).
Proof.
  intros o.
  destruct (checkSSLCertificates_refreshes o utc_setDate connected_world
              connected_world_consistent) as (w' & Hrun & Heff & _).
  exists w'. split; [exact Hrun | split; [exact Heff | ]].
  assert (E : let w1 := snd (Cron.checkSSLCertificates o utc_setDate connected_world) in
              (fun r => (Domain.sslExpiry r, Domain.updatedAt r))
                <$> (collection w1 !! "example.com")
              = Some (Some 1801389600000, 1800000000000)
              /\ List.length (trace w1) = S (List.length (trace connected_world)))
    by (vm_compute; split; reflexivity).
  rewrite Hrun in E. exact E.
Defined.

Lemma scheduled_renewal_refreshes_witness :
  let o := example_oracle true true true true in
  exists w',
    Cron.renewSSLCertificates o connected_world = (Fulfilled tt, w')
    /\ expiry_refresh (collection connected_world) (collection w')
    /\ List.length (trace w') = (List.length (trace connected_world) + 2)%nat.
Proof.
  intros o.
  destruct (scheduled_renewal_refreshes o connected_world connected_world_consistent)
    as (w' & Hrun & Heff & _).
  exists w'. split; [exact Hrun | split; [exact Heff | ]].
  assert (E : List.length (trace (snd (Cron.renewSSLCertificates o connected_world)))
              = (List.length (trace connected_world) + 2)%nat)
    by (vm_compute; reflexivity).
  rewrite Hrun in E. exact E.
Defined.

Lemma retries_never_counted_witness :
  let o := example_oracle true false true true in
  let w :=
    Cron.run_job o example_service utc_setDate CheckPendingDomains
      (run o example_service (VerifyDomain "example.com")
         (run o example_service (AddDomain (Some "example.com") (Some "site-1")) initial)) in
  Cron.operating o example_service utc_setDate w
  /\ Domain.domain <$> (collection w !! "example.com") = Some "example.com"
  /\ forall k r, collection w !! k = Some r ->
       Domain.metadata_retryCount r = 0 /\ Domain.metadata_errorMessage r = None.
Proof.
  intros o w.
  assert (H : Cron.operating o example_service utc_setDate w)
    by apply Cron.operating_job, Cron.operating_request, Cron.operating_request,
         Cron.operating_initial.
  split; [exact H | ]. split; [vm_compute; reflexivity | ]. intros k r Hk.
  destruct (retries_never_counted o example_service utc_setDate w H k r Hk)
    as (Hcount & Hmessage & _).
  split; [exact Hcount | exact Hmessage].
Defined.

Lemma cleanupOldDomains_never_removes_witness :
  let o := example_oracle false true true true in
  Cron.operating o example_service utc_setDate pending_world
  /\ Cron.cleanupOldDomains o example_service utc_setDate pending_world
     = (Fulfilled tt, pending_world).
Proof.
  intros o.
  assert (H : Cron.operating o example_service utc_setDate pending_world)
    by apply Cron.operating_request, Cron.operating_initial.
  split; [exact H | ].
  exact (cleanupOldDomains_never_removes o example_service utc_setDate pending_world H).
Defined.

Lemma stored_documents_valid_witness :
  let o := example_oracle true true true true in
  let w := Cron.run_job o example_service utc_setDate RenewSSLCertificates connected_world in
  Cron.operating o example_service utc_setDate w
  /\ forall k r, collection w !! k = Some r ->
       Domain.domain r = k /\ Domain.validate_domain k = true.
Proof.
  intros o w.
  assert (H : Cron.operating o example_service utc_setDate w)
    by apply Cron.operating_job, Cron.operating_request, Cron.operating_initial.
  split; [exact H | ]. intros k r Hk.
  destruct (stored_documents_valid o example_service utc_setDate w H k r Hk)
    as (Hdom & Hvalid & _).
  split; [exact Hdom | exact Hvalid].
Defined.

Lemma nothing_achieved_without_dns_witness :
  let o := example_oracle false true true true in
  let w := Cron.run_job o example_service utc_setDate CheckPendingDomains pending_world in
  dns_never_verifies o example_service
  /\ Cron.operating o example_service utc_setDate w
  /\ forall k r, collection w !! k = Some r -> nothing_achieved r.
Proof.
  intros o w.
  assert (Hnever : dns_never_verifies o example_service)
    by (intros h host a ip H; discriminate H).
  assert (H : Cron.operating o example_service utc_setDate w)
    by apply Cron.operating_job, Cron.operating_request, Cron.operating_initial.
  split; [exact Hnever | split; [exact H | ]].
  exact (nothing_achieved_without_dns o example_service utc_setDate w Hnever H).
Defined.

